(** * Rolling maintenance of Salt minions: a shallow embedding of
      [python_salt_api_demo.py] and the properties of its retry, reboot-wait
      and result-interpretation logic.

    The script is Python 2.  Its values are dynamically typed, so the model
    keeps a small universe of Python values; its effects (calls to the Salt
    client, sleeps, log lines, exceptions, [exit]) are threaded through a
    state-and-outcome monad whose state is the chronological trace of what
    the script did. *)

From Stdlib Require Import ZArith List String Ascii Bool Lia.
From Stdlib Require DecimalString.
Import ListNotations.

Open Scope string_scope.
Open Scope Z_scope.

(** ** Python values *)

Set Warnings "-register-all".

Module Py.

(** The values the script handles: what [client.cmd] returns and what the
    script builds from it.  Dictionaries are association lists in iteration
    order ([keys()], [items()] and [for] walk them front to back); every key
    the script uses is a string. *)
Inductive PyVal : Type :=
| PyNone
| PyBool (b : bool)
| PyInt (z : Z)
| PyStr (s : string)
| PyList (l : list PyVal)
| PyDict (d : list (string * PyVal)).

(** The exceptions that can arise; every one is a subclass of [Exception]
    ([SystemExit], raised by [exit], is not, and is an outcome of its own). *)
Inductive Exn : Type :=
| Exception (detail : option PyVal)
| KeyError (key : string)
| TypeError
| AttributeError (attr : string)
| NameError (name : string).

Inductive Result (A : Type) : Type :=
| Ok (a : A)
| Err (e : Exn).
Arguments Ok {A} a.
Arguments Err {A} e.

Fixpoint assoc (k : string) (d : list (string * PyVal)) : option PyVal :=
  match d with
  | [] => None
  | (k', v) :: d' => if String.eqb k k' then Some v else assoc k d'
  end.

(** [v[k]] *)
Definition getitem (v : PyVal) (k : string) : Result PyVal :=
  match v with
  | PyDict d => match assoc k d with
                | Some x => Ok x
                | None => Err (KeyError k)
                end
  | _ => Err TypeError
  end.

(** [v.get(k)], also [v.get(k, None)] *)
Definition get (v : PyVal) (k : string) : Result PyVal :=
  match v with
  | PyDict d => match assoc k d with
                | Some x => Ok x
                | None => Ok PyNone
                end
  | _ => Err (AttributeError "get")
  end.

(** [v.keys()] *)
Definition keys (v : PyVal) : Result (list string) :=
  match v with
  | PyDict d => Ok (map fst d)
  | _ => Err (AttributeError "keys")
  end.

(** [v.items()] *)
Definition items (v : PyVal) : Result (list (string * PyVal)) :=
  match v with
  | PyDict d => Ok d
  | _ => Err (AttributeError "items")
  end.

(** The elements a [for x in v] visits. *)
Definition iter (v : PyVal) : Result (list PyVal) :=
  match v with
  | PyList l => Ok l
  | PyDict d => Ok (map (fun kv => PyStr (fst kv)) d)
  | PyStr s => Ok (map (fun c => PyStr (String c EmptyString)) (list_ascii_of_string s))
  | _ => Err TypeError
  end.

(** Truth value of [v], as [if v] and [not v] use it. *)
Definition truthy (v : PyVal) : bool :=
  match v with
  | PyNone => false
  | PyBool b => b
  | PyInt z => negb (z =? 0)
  | PyStr s => negb (String.eqb s "")
  | PyList l => match l with [] => false | _ => true end
  | PyDict d => match d with [] => false | _ => true end
  end.

(** [v is True] and [v is False]: identity with the two boolean objects. *)
Definition is_True (v : PyVal) : bool :=
  match v with PyBool true => true | _ => false end.

Definition is_False (v : PyVal) : bool :=
  match v with PyBool false => true | _ => false end.

(** [v == True], [v == False]: booleans are integers, so [1 == True] and
    [0 == False]; no other value of this universe equals a boolean. *)
Definition eq_bool (v : PyVal) (b : bool) : bool :=
  match v with
  | PyBool b' => Bool.eqb b' b
  | PyInt z => z =? (if b then 1 else 0)
  | _ => false
  end.

(** [v != 0] *)
Definition ne_zero (v : PyVal) : bool := negb (eq_bool v false).

(** [type(v) is list] *)
Definition is_list (v : PyVal) : bool :=
  match v with PyList _ => true | _ => false end.

(** The integer a number stands for: booleans are the integers 0 and 1. *)
Definition as_int (v : PyVal) : option Z :=
  match v with
  | PyInt z => Some z
  | PyBool b => Some (if b then 1 else 0)
  | _ => None
  end.

(** Python 2 orders any two values, of the same type or not.  Between
    types: [None] sorts below everything, numbers below every other type,
    and the other types by their names, so a [dict] is below a [list],
    which is below a [str]. *)
Definition rank (v : PyVal) : Z :=
  match v with
  | PyNone => 0
  | PyBool _ | PyInt _ => 1
  | PyDict _ => 2
  | PyList _ => 3
  | PyStr _ => 4
  end.

(** [f] of the value under [k] in [d], [absent] when [d] has no such key. *)
Definition with_entry {A : Type} (k : string) (f : PyVal -> A) (absent : A)
    : list (string * PyVal) -> A :=
  fix go d :=
    match d with
    | [] => absent
    | (k', v) :: d' => if String.eqb k k' then f v else go d'
    end.

(** The smallest key of [a] whose entry [differs] from what the other
    dictionary holds, the way the interpreter finds it: one pass over [a]
    that keeps the best key so far and skips every key above it. *)
Definition characterize (differs : string -> PyVal -> bool)
    : list (string * PyVal) -> option string -> option string :=
  fix go a akey :=
    match a with
    | [] => akey
    | (thiskey, thisaval) :: a' =>
        if match akey with
           | Some k => String.ltb k thiskey
           | None => false
           end
        then go a' akey
        else if differs thiskey thisaval then go a' (Some thiskey)
        else go a' akey
    end.

Definition unequal (c : comparison) : bool :=
  match c with Eq => false | _ => true end.

(** The three-way comparison behind [<], [==] and the like.  Two numbers
    compare by value and two strings byte by byte; two lists by the first
    pair of items that are not equal, or by length when one is a prefix of
    the other; two dictionaries by size, then by the smallest key on which
    each disagrees with the other, then by the values under that key.
    Values of different types compare by [rank]. *)
Fixpoint compare (v w : PyVal) {struct v} : comparison :=
  match v, w with
  | PyList vl, PyList wl =>
      (fix items (vl wl : list PyVal) {struct vl} : comparison :=
         match vl, wl with
         | [], [] => Eq
         | [], _ :: _ => Lt
         | _ :: _, [] => Gt
         | x :: vl', y :: wl' =>
             match compare x y with
             | Eq => items vl' wl'
             | c => c
             end
         end) vl wl
  | PyDict a, PyDict b =>
      match Nat.compare (List.length a) (List.length b) with
      | Eq =>
          let adiff :=
            characterize
              (fun k aval =>
                 match assoc k b with
                 | Some bval => unequal (compare aval bval)
                 | None => true
                 end) a None in
          let bdiff :=
            characterize
              (fun k bval =>
                 with_entry k (fun aval => unequal (compare aval bval)) true a)
              b None in
          match adiff, bdiff with
          | Some ka, Some kb =>
              match String.compare ka kb with
              | Eq =>
                  with_entry ka
                    (fun aval =>
                       match assoc kb b with
                       | Some bval => compare aval bval
                       | None => Eq
                       end) Eq a
              | c => c
              end
          | _, _ => Eq
          end
      | c => c
      end
  | PyStr s, PyStr t => String.compare s t
  | _, _ =>
      match as_int v, as_int w with
      | Some x, Some y => Z.compare x y
      | _, _ => Z.compare (rank v) (rank w)
      end
  end.

(** [a < b].  A comparison is a method call and may raise in general; on
    the values of this universe it always answers. *)
Definition lt (a b : PyVal) : Result bool :=
  Ok (match compare a b with Lt => true | _ => false end).

(** [s.split(sep)] for a one-character separator. *)
Fixpoint split (sep : ascii) (s : string) : list string :=
  match s with
  | EmptyString => [EmptyString]
  | String c s' =>
      if Ascii.eqb c sep then EmptyString :: split sep s'
      else match split sep s' with
           | [] => [String c EmptyString]
           | w :: ws => String c w :: ws
           end
  end.

End Py.
Import Py.

(** ** Effects *)

Inductive Level : Type := DEBUG | INFO | WARNING | ERROR.

(** One constructor per message the script writes, with the values it
    formats into the text. *)
Inductive Msg : Type :=
(* do_salt_call *)
| MsgNoData
| MsgPayload (ret : PyVal)
(* check_salt_run_status *)
| MsgChecking (ret_data : PyVal)
| MsgRunFailed
| MsgFullOutput (ret_data : PyVal)
| MsgStateFailed (minion : string) (status : PyVal)
| MsgComment (comment : PyVal)
| MsgEntire (ret_data : PyVal)
| MsgCheckerDisagrees
| MsgContinueAnyway
| MsgReturnData (ret_data : PyVal)
(* handlers *)
| MsgUpdatingConfigs (node : string)
| MsgRestartingService (node : string)
| MsgRestartFailed (node : string) (tries : Z)
| MsgUpdatingPackages (node : string)
| MsgRestartingHost (node : string)
| MsgPinging (node : string)
| MsgNoResponse (node : string) (timeout : Z)
| MsgRebooted (node : string)
| MsgWaitingReboot (node : string)
| MsgRebootTimedOut (node : string)
(* main *)
| MsgNeedRoot
| MsgTargeting
| MsgTarget (minion : string)
| MsgPingingAll
| MsgNotAllUp
| MsgDown (node : PyVal)
| MsgPleaseFix
| MsgAllUp
| MsgBeginning (minion : string)
| MsgUpdateFailed (minion : string)
| MsgWorkFailed (minion : string) (tries : Z) (e : Exn)
| MsgWipingShim
| MsgFailedOn (minion : string)
| MsgFinished.

(** What the script does to the outside world, in order. *)
Inductive Event : Type :=
| Cmd (tgt : PyVal) (fn : string) (arg : list PyVal) (kwargs : list (string * PyVal))
| Sleep (secs : Z)
| Log (lvl : Level) (m : Msg)
| Print (m : Msg).

Record World : Type := mkWorld {
  trace : list Event;   (* everything done so far, oldest first *)
  ncalls : nat          (* number of [client.cmd] calls so far *)
}.

(** How a computation ends: it returns, raises, exits the process
    ([SystemExit] with a status), or is still running when the fuel given
    to its loops is used up. *)
Inductive Outcome (A : Type) : Type :=
| Ret (a : A)
| Raise (e : Exn)
| Exit (code : Z)
| OutOfFuel.
Arguments Ret {A} a.
Arguments Raise {A} e.
Arguments Exit {A} code.
Arguments OutOfFuel {A}.

Definition M (A : Type) : Type := World -> Outcome A * World.

Definition ret {A : Type} (a : A) : M A := fun w => (Ret a, w).

Definition bind {A B : Type} (m : M A) (k : A -> M B) : M B :=
  fun w =>
    match m w with
    | (Ret a, w') => k a w'
    | (Raise e, w') => (Raise e, w')
    | (Exit c, w') => (Exit c, w')
    | (OutOfFuel, w') => (OutOfFuel, w')
    end.

Notation "x <- m ;; k" := (bind m (fun x => k))
  (at level 61, m at next level, right associativity).
Notation "m ;; k" := (bind m (fun _ => k))
  (at level 61, right associativity).

Definition raise {A : Type} (e : Exn) : M A := fun w => (Raise e, w).

(** [exit(code)] *)
Definition exit {A : Type} (code : Z) : M A := fun w => (Exit code, w).

Definition out_of_fuel {A : Type} : M A := fun w => (OutOfFuel, w).

Definition lift {A : Type} (r : Result A) : M A :=
  match r with
  | Ok a => ret a
  | Err e => raise e
  end.

(** [try: m except Exception as e: h e].  [SystemExit] passes through. *)
Definition try_except {A : Type} (m : M A) (h : Exn -> M A) : M A :=
  fun w =>
    match m w with
    | (Raise e, w') => h e w'
    | r => r
    end.

Definition emit (e : Event) : M unit :=
  fun w => (Ret tt, mkWorld (trace w ++ [e]) (ncalls w)).

Definition log (lvl : Level) (m : Msg) : M unit := emit (Log lvl m).

(** [time.sleep(secs)] *)
Definition sleep (secs : Z) : M unit := emit (Sleep secs).

(** [for x in xs: body x] *)
Fixpoint for_each {A : Type} (xs : list A) (body : A -> M unit) : M unit :=
  match xs with
  | [] => ret tt
  | x :: xs' => body x ;; for_each xs' body
  end.

(** ** Observing a trace *)

(** The failed attempts a trace records: minion and retries left, one per
    "Work on minion ... failed" warning of [main]. *)
Definition failures (evs : list Event) : list (string * Z) :=
  flat_map (fun e => match e with
                     | Log _ (MsgWorkFailed minion tries _) => [(minion, tries)]
                     | _ => []
                     end) evs.

(** The exceptions that made the attempts of a trace fail. *)
Definition raised (evs : list Event) : list Exn :=
  flat_map (fun e => match e with
                     | Log _ (MsgWorkFailed _ _ exn) => [exn]
                     | _ => []
                     end) evs.

(** The retries left that a node's failed attempts log, from [k] down. *)
Definition countdown (minion : string) (k : nat) : list (string * Z) :=
  map (fun i => (minion, Z.of_nat i)) (rev (seq 0 (S k))).

(** The minions [main] began work on. *)
Definition begun (evs : list Event) : list string :=
  flat_map (fun e => match e with
                     | Log _ (MsgBeginning minion) => [minion]
                     | _ => []
                     end) evs.

(** The Salt calls of a trace: target and function. *)
Definition calls (evs : list Event) : list (PyVal * string) :=
  flat_map (fun e => match e with
                     | Cmd tgt fn _ _ => [(tgt, fn)]
                     | _ => []
                     end) evs.

(** How many times the Salt function [fn] was called. *)
Definition count_cmd (fn : string) (evs : list Event) : nat :=
  List.length (filter (fun c => String.eqb (snd c) fn) (calls evs)).

(** An event a handler working on [minion] may produce: a Salt call aimed
    at that minion, a sleep, or a log line other than the three that [main]
    writes around an attempt. *)
Definition handler_event (minion : string) (e : Event) : Prop :=
  match e with
  | Cmd tgt _ _ _ => tgt = PyStr minion
  | Log _ (MsgBeginning _) => False
  | Log _ (MsgWorkFailed _ _ _) => False
  | Log _ (MsgFailedOn _) => False
  | _ => True
  end.

(** A log line of the result interpreter or of a handler: no Salt call, no
    sleep, none of the lines of [main]. *)
Definition report_event (e : Event) : Prop :=
  match e with
  | Log _ (MsgBeginning _) => False
  | Log _ (MsgWorkFailed _ _ _) => False
  | Log _ (MsgFailedOn _) => False
  | Log _ _ => True
  | _ => False
  end.

(** One round of [restart_service]: the restart, the fixed wait, the
    status check. *)
Definition restart_round (node : string) : list Event :=
  [Log INFO (MsgRestartingService node);
   Cmd (PyStr node) "service.restart" [PyStr "haproxy"] [];
   Sleep 2;
   Cmd (PyStr node) "service.status" [PyStr "haproxy"] []].

(** What follows a failed status check when tries remain. *)
Definition backoff (node : string) (tries_left : Z) : list Event :=
  [Log WARNING (MsgRestartFailed node tries_left); Sleep 5].

(** The targets a reply of [test.ping] reports as not responding: those
    whose value equals [False], in the order of the reply. *)
Definition down (its : list (string * PyVal)) : list string :=
  map fst (filter (fun kv => eq_bool (snd kv) false) its).

(** The world after [evs] more events, [n] of them Salt calls. *)
Definition extend (w : World) (evs : list Event) (n : nat) : World :=
  mkWorld (trace w ++ evs) (n + ncalls w).

(** [m] only appends to the trace, and every event it appends satisfies [P]. *)
Definition emits {A : Type} (P : Event -> Prop) (m : M A) : Prop :=
  forall w, exists evs,
    trace (snd (m w)) = (trace w ++ evs)%list /\ Forall P evs.

(** The ways [m] may end: it exits the process only if [may_exit], and is
    cut short by the fuel only if [may_run_out]. *)
Definition outcomes {A : Type} (may_exit may_run_out : bool) (m : M A) : Prop :=
  forall w,
    match fst (m w) with
    | Exit _ => may_exit = true
    | OutOfFuel => may_run_out = true
    | _ => True
    end.

(** [m] never completes: it raises, or is still running. *)
Definition fails {A : Type} (m : M A) : Prop :=
  forall w,
    match fst (m w) with
    | Raise _ => True
    | OutOfFuel => True
    | _ => False
    end.

(** ** The script *)

(** The parsed command line ([options]). *)
Record Options : Type := mkOptions {
  minions : option string;  (* -n, comma separated; [None] when not given *)
  test : bool;              (* -t *)
  use_ssh : bool;           (* -s *)
  reboot : bool;            (* -r *)
  action : string           (* -a *)
}.

(** ** Sample fleets

    Concrete replies and options on which the script is run below. *)

Module Sample.

Definition fresh : World := mkWorld [] 0.

(** A Salt client that answers the calls of a run with [l], in order, and
    with [dflt] from then on. *)
Definition replies (l : list PyVal) (dflt : PyVal) : nat -> PyVal :=
  fun n => nth n l dflt.

(** A run over [hosts] with the minion transport, not as a dry run. *)
Definition direct (act : string) (hosts : string) : Options :=
  mkOptions (Some hosts) false false false act.

(** The full return of one minion. *)
Definition returned (node : string) (payload : PyVal) : PyVal :=
  PyDict [(node, PyDict [("ret", payload); ("retcode", PyInt 0)])].

Definition uptime_reply (node : string) (secs : Z) : PyVal :=
  returned node (PyDict [("seconds", PyInt secs)]).

(** One state of a state run. *)
Definition state (result : bool) (comment : string) : PyVal :=
  PyDict [("result", PyBool result); ("comment", PyStr comment)].

(** Salt's [check_state_result] is library code.  This follows it for a
    run outside a highstate: a payload that is not a mapping, or is empty,
    fails; so does one that holds a state that is not a mapping (at the
    top level) or whose ['result'] is [False]; a state without ['result']
    is judged by what it holds, one level down, where values that are not
    mappings are passed over. *)
Fixpoint check_result (recurse : bool) (running : PyVal) : bool :=
  match running with
  | PyDict [] => false
  | PyDict d =>
      (fix states (d : list (string * PyVal)) : bool :=
         match d with
         | [] => true
         | (_, state_result) :: d' =>
             (match state_result with
              | PyDict sd =>
                  match assoc "result" sd with
                  | Some result => negb (is_False result)
                  | None => check_result true state_result
                  end
              | _ => recurse
              end) && states d'
         end) d
  | _ => false
  end.

Definition check_state_result (running : PyVal) : bool :=
  check_result false running.

(** CPython 2.7 walks a dictionary by the slots of its hash table.  For
    string keys the slot is the low bits of the string hash; a dictionary
    of up to five keys has eight slots, so keys that fall in different
    slots are visited by increasing [slot], however they were inserted. *)
Definition string_hash (s : string) : Z :=
  match s with
  | EmptyString => 0
  | String c _ =>
      let word := 2 ^ 64 in
      let x :=
        fold_left
          (fun x c => Z.lxor ((1000003 * x) mod word) (Z.of_nat (nat_of_ascii c)))
          (list_ascii_of_string s)
          (Z.shiftl (Z.of_nat (nat_of_ascii c)) 7) in
      Z.lxor x (Z.of_nat (String.length s))
  end.

Definition slot (key : string) : Z := Z.land (string_hash key) 7.

(** The full return of a minion that answered a ping. *)
Definition up : PyVal := PyDict [("ret", PyBool true); ("retcode", PyInt 0)].

(** *** One host, [web1] *)

(** A host that keeps answering with the uptime of its old boot: 1200
    before the reboot command, 1205 at every poll after it. *)
Definition never_reboots : nat -> PyVal :=
  replies [uptime_reply "web1" 1200; returned "web1" (PyBool true)]
          (uptime_reply "web1" 1205).

(** A host that stops answering once the reboot is ordered. *)
Definition never_answers : nat -> PyVal :=
  replies [uptime_reply "web1" 1200; returned "web1" (PyBool true)]
          (PyDict [("web1", PyBool false)]).

(** A host whose polls answer 1205, 1210 and then 50, after a baseline of
    1200. *)
Definition reboots_at_third_poll : nat -> PyVal :=
  replies [uptime_reply "web1" 1200; returned "web1" (PyBool true);
           uptime_reply "web1" 1205; uptime_reply "web1" 1210;
           uptime_reply "web1" 50]
          PyNone.

(** A service that comes up at the second status check. *)
Definition up_at_second_check : nat -> PyVal :=
  replies [PyDict [("web1", PyBool true)]; PyDict [("web1", PyBool false)];
           PyDict [("web1", PyBool true)]; PyDict [("web1", PyBool true)]]
          PyNone.

(** A state run that failed to compile: the payload is a list holding the
    error. *)
Definition render_error : list (string * PyVal) :=
  [("ret", PyList [PyStr "Rendering SLS 'base:haproxy.update_configs' failed"]);
   ("retcode", PyInt 1)].

(** A state run in which the package state succeeded and the
    configuration state failed, the states in the order the interpreter
    walks them: ["haproxy_installed"] falls in slot 5, ["haproxy_config"]
    in slot 6. *)
Definition one_failed_state : PyVal :=
  returned "web1"
    (PyDict [("haproxy_installed",
              state true "All specified packages are already installed");
             ("haproxy_config",
              state false "Unable to manage file: Source file not found")]).


(** *** Fleets *)

(** Targets A, B and C, of which B does not answer the ping. *)
Definition b_is_down : nat -> PyVal :=
  replies [PyDict [("A", up); ("B", PyBool false); ("C", up)]] PyNone.

(** A fleet of two, both answering the ping. *)
Definition all_up : PyVal := PyDict [("web1", up); ("web2", up)].

Definition fleet (act : string) : Options := direct act "web1,web2".

(** After the ping, no call returns anything. *)
Definition no_data : nat -> PyVal := replies [all_up] PyNone.

(** After the ping, every call returns the packages that were upgraded. *)
Definition upgrades : nat -> PyVal :=
  replies [all_up]
          (returned "web1"
             (PyDict [("haproxy",
                       PyDict [("old", PyStr "1.8"); ("new", PyStr "2.0")])])).

(** A fleet whose first node fails to compile the state. *)
Definition compile_failure_fleet : nat -> PyVal :=
  replies [all_up; PyDict [("web1", PyDict render_error)]] PyNone.

(** A fleet whose first node applies its configuration but whose service
    never comes up. *)
Definition service_stays_down : nat -> PyVal :=
  let restarted := PyDict [("web1", PyBool true)] in
  let stopped := PyDict [("web1", PyBool false)] in
  replies [all_up;
           returned "web1"
             (PyDict [("haproxy_config",
                       state true "File is in the correct state")]);
           restarted; stopped; restarted; stopped; restarted; stopped]
          PyNone.

(** A fleet whose first node keeps answering with the uptime of its old
    boot. *)
Definition stale_fleet : nat -> PyVal :=
  replies [all_up; uptime_reply "web1" 1200; returned "web1" (PyBool true)]
          (uptime_reply "web1" 1205).

End Sample.

Section Script.

(** The Salt client: the reply to the n-th [client.cmd] call of the run.
    The script is deterministic, so a reply indexed by the position of the
    call covers every behaviour of the fleet. *)
Variable env : nat -> PyVal.

(** [state_checker = salt.utils.check_state_result], Salt's own aggregate
    judgment of a state run; library code, a parameter here. *)
Variable state_checker : PyVal -> bool.

Variable options : Options.

(** [os.getuid()] *)
Variable uid : Z.

Definition SALT_RETURN_KEY : string :=
  if use_ssh options then "return" else "ret".

(** [client.cmd(tgt, fn, arg, **kwargs)] on a client made by [salt_client]. *)
Definition cmd (tgt : PyVal) (fn : string) (arg : list PyVal)
    (kwargs : list (string * PyVal)) : M PyVal :=
  fun w => (Ret (env (ncalls w)),
            mkWorld (trace w ++ [Cmd tgt fn arg kwargs]) (S (ncalls w))).

Definition full_return : string * PyVal := ("full_return", PyBool true).

Definition has_key (kwargs : list (string * PyVal)) (k : string) : bool :=
  match assoc k kwargs with Some _ => true | None => false end.

(** [do_salt_call(target, function, use_ssh, **kwargs)].  [use_ssh] only
    chooses the client that [salt_client] builds; with ['fun_args'] among
    the keyword arguments the script would read the undefined name
    [fun_args]. *)
Definition do_salt_call (target : string) (function : string)
    (kwargs : list (string * PyVal)) : M PyVal :=
  ret_ <- (if has_key kwargs "fun_args"
           then raise (NameError "fun_args")
           else cmd (PyStr target) function [] [full_return]) ;;
  on_target <- lift (getitem ret_ target) ;;
  data <- lift (getitem on_target SALT_RETURN_KEY) ;;
  if negb (truthy data) then
    log ERROR MsgNoData ;;
    log ERROR (MsgPayload ret_) ;;
    raise (Exception None)
  else ret ret_.

(** The first loop of [check_salt_run_status]: the aggregate verdict. *)
Fixpoint all_succeeded (ret_data : PyVal) (minions : list string)
    (state_succeeded : bool) : M bool :=
  match minions with
  | [] => ret state_succeeded
  | minion :: rest =>
      on_minion <- lift (getitem ret_data minion) ;;
      payload <- lift (getitem on_minion SALT_RETURN_KEY) ;;
      all_succeeded ret_data rest
        (if negb (state_checker payload) then false else state_succeeded)
  end.

(** The inner [for state, values in ....items()] loop; [Some b] when the
    loop body executed [return b]. *)
Fixpoint scan_states (ret_data : PyVal) (minion : string)
    (its : list (string * PyVal)) : M (option bool) :=
  match its with
  | [] => ret None
  | (state, values) :: rest =>
      flag <- lift (get values SALT_RETURN_KEY) ;;
      if negb (is_True flag) then
        status <- lift (get values "result") ;;
        log ERROR (MsgStateFailed minion status) ;;
        comment <- lift (get values "comment") ;;
        log ERROR (MsgComment comment) ;;
        log ERROR (MsgEntire ret_data) ;;
        ret (Some false)
      else scan_states ret_data minion rest
  end.

(** The second [for minion in minions] loop. *)
Fixpoint scan_minions (ret_data : PyVal) (minions : list string)
    : M (option bool) :=
  match minions with
  | [] => ret None
  | minion :: rest =>
      on_minion <- lift (getitem ret_data minion) ;;
      payload <- lift (getitem on_minion SALT_RETURN_KEY) ;;
      if is_list payload then
        log ERROR MsgRunFailed ;;
        log ERROR (MsgFullOutput ret_data) ;;
        ret (Some false)
      else
        its <- lift (items payload) ;;
        r <- scan_states ret_data minion its ;;
        match r with
        | Some b => ret (Some b)
        | None => scan_minions ret_data rest
        end
  end.

Definition check_salt_run_status (ret_data : PyVal) : M bool :=
  log DEBUG (MsgChecking ret_data) ;;
  minions <- lift (keys ret_data) ;;
  state_succeeded <- all_succeeded ret_data minions true ;;
  if state_succeeded then ret true
  else
    r <- scan_minions ret_data minions ;;
    match r with
    | Some b => ret b
    | None =>
        log WARNING MsgCheckerDisagrees ;;
        log WARNING MsgContinueAnyway ;;
        log WARNING (MsgReturnData ret_data) ;;
        ret true
    end.

Definition update_configs (node : string) : M unit :=
  log INFO (MsgUpdatingConfigs node) ;;
  output <- cmd (PyStr node) "state.sls" [PyStr "haproxy.update_configs"]
              [("kwarg", PyDict [("pillar", PyDict [("foo", PyStr "bar")])]);
               full_return] ;;
  ok <- check_salt_run_status output ;;
  if negb ok then raise (Exception (Some output)) else ret tt.

(** The [while not success] loop of [restart_service]. *)
Fixpoint restart_service_loop (fuel : nat) (node : string) (tries : Z)
    : M unit :=
  match fuel with
  | O => out_of_fuel
  | S fuel' =>
      log INFO (MsgRestartingService node) ;;
      _ <- cmd (PyStr node) "service.restart" [PyStr "haproxy"] [] ;;
      sleep 2 ;;
      output <- cmd (PyStr node) "service.status" [PyStr "haproxy"] [] ;;
      status <- lift (getitem output node) ;;
      if negb (truthy status) then
        let tries := tries - 1 in
        if tries =? 0 then raise (Exception None)
        else
          log WARNING (MsgRestartFailed node tries) ;;
          sleep 5 ;;
          restart_service_loop fuel' node tries
      else ret tt
  end.

Definition restart_service (fuel : nat) (node : string) : M unit :=
  restart_service_loop fuel node 3.

(** The argument ['refresh="true"'] of [pkg.upgrade]. *)
Definition refresh_arg : string :=
  let quote := String (ascii_of_nat 34) EmptyString in
  "refresh=" ++ quote ++ "true" ++ quote.

Definition update_system (node : string) : M unit :=
  log INFO (MsgUpdatingPackages node) ;;
  output <- cmd (PyStr node) "pkg.upgrade" [PyStr refresh_arg]
              [full_return] ;;
  ok <- check_salt_run_status output ;;
  if negb ok then raise (Exception None) else ret tt.

(** The [for minion,value in ret.items()] loop of [ping_all_nodes]. *)
Fixpoint collect_failed (its : list (string * PyVal))
    (failed_minions : list PyVal) : list PyVal :=
  match its with
  | [] => failed_minions
  | (minion, value) :: rest =>
      collect_failed rest
        (if eq_bool value false then failed_minions ++ [PyStr minion]
         else failed_minions)
  end.

(** Returns the list of failed minions, or [True]. *)
Definition ping_all_nodes (nodes : list string) : M PyVal :=
  ret_ <- cmd (PyList (map PyStr nodes)) "test.ping" []
            [("tgt_type", PyStr "list"); full_return] ;;
  its <- lift (items ret_) ;;
  let failed_minions := collect_failed its [] in
  if (Z.of_nat (List.length failed_minions) >? 0) then ret (PyList failed_minions)
  else ret (PyBool true).

(** [output[node][SALT_RETURN_KEY]['seconds']], the uptime a reply of
    [status.uptime] carries. *)
Definition uptime_seconds (output : PyVal) (node : string) : Result PyVal :=
  match getitem output node with
  | Ok on_node =>
      match getitem on_node SALT_RETURN_KEY with
      | Ok data => getitem data "seconds"
      | Err e => Err e
      end
  | Err e => Err e
  end.

(** The test [(options.use_ssh and output[node].get('retcode') != 0) or
    (output[node] is False)], on the value of [output[node]]. *)
Definition not_responding (on_node : PyVal) : Result bool :=
  if use_ssh options then
    match get on_node "retcode" with
    | Ok retcode => Ok (if ne_zero retcode then true else is_False on_node)
    | Err e => Err e
    end
  else Ok (is_False on_node).

Definition period : Z := 10.

(** The [while timeout > 0] loop of [restart_host]. *)
Fixpoint restart_host_loop (fuel : nat) (node : string)
    (uptime_before_reboot : PyVal) (timeout : Z) : M unit :=
  if timeout >? 0 then
    match fuel with
    | O => out_of_fuel
    | S fuel' =>
        log INFO (MsgPinging node) ;;
        output <- cmd (PyStr node) "status.uptime" [] [full_return] ;;
        on_node <- lift (getitem output node) ;;
        no_response <- lift (not_responding on_node) ;;
        if no_response then
          log INFO (MsgNoResponse node timeout) ;;
          let timeout := timeout - period in
          sleep period ;;
          restart_host_loop fuel' node uptime_before_reboot timeout
        else
          data <- lift (getitem on_node SALT_RETURN_KEY) ;;
          current_uptime <- lift (getitem data "seconds") ;;
          rebooted <- lift (lt current_uptime uptime_before_reboot) ;;
          if rebooted then
            log INFO (MsgRebooted node) ;;
            ret tt
          else
            log INFO (MsgWaitingReboot node) ;;
            sleep period ;;
            restart_host_loop fuel' node uptime_before_reboot timeout
    end
  else
    log ERROR (MsgRebootTimedOut node) ;;
    raise (Exception None).

Definition restart_host (fuel : nat) (node : string) : M unit :=
  let timeout := 300 in
  log INFO (MsgRestartingHost node) ;;
  ret_ <- do_salt_call node "status.uptime" [] ;;
  on_node <- lift (getitem ret_ node) ;;
  data <- lift (getitem on_node SALT_RETURN_KEY) ;;
  uptime_before_reboot <- lift (getitem data "seconds") ;;
  _ <- cmd (PyStr node) "system.reboot" [] [full_return] ;;
  restart_host_loop fuel node uptime_before_reboot timeout.

(** [main] calls [wait_for_es_service], a name the script never defines:
    evaluating it raises [NameError]. *)
Definition wait_for_es_service (minion : string) : M unit :=
  raise (NameError "wait_for_es_service").

(** The body of the outer [try] in [main]: the dispatch on [options.action]. *)
Definition attempt (fuel : nat) (minion : string) : M unit :=
  if String.eqb (action options) "update_configs" then
    try_except
      (update_configs minion ;;
       restart_service fuel minion)
      (fun e =>
         log ERROR (MsgUpdateFailed minion) ;;
         exit 1)
  else if String.eqb (action options) "restart_service" then
    restart_service fuel minion
  else if String.eqb (action options) "reboot_host" then
    restart_host fuel minion ;;
    wait_for_es_service minion
  else if String.eqb (action options) "update_system" then
    update_system minion ;;
    (if reboot options then restart_host fuel minion else ret tt) ;;
    wait_for_es_service minion
  else ret tt.

(** The outer [except Exception] clause, after [tries -= 1]. *)
Definition on_failure (minion : string) (tries : Z) (e : Exn) : M unit :=
  log WARNING (MsgWorkFailed minion tries e) ;;
  (if use_ssh options then
     log WARNING MsgWipingShim ;;
     _ <- cmd (PyStr minion) "test.ping" []
            [("ssh_wipe", PyBool true); full_return] ;;
     ret tt
   else ret tt) ;;
  if tries =? 0 then
    log ERROR (MsgFailedOn minion) ;;
    exit 1
  else ret tt.

(** The [while not success] loop of [main] for one minion; [n] bounds its
    iterations, [fuel] those of the loops inside the handlers. *)
Fixpoint work_loop (n : nat) (fuel : nat) (minion : string) (tries : Z)
    : M unit :=
  match n with
  | O => out_of_fuel
  | S n' =>
      r <- try_except
             (attempt fuel minion ;;
              ret (true, tries))
             (fun e =>
                let tries := tries - 1 in
                on_failure minion tries e ;;
                ret (false, tries)) ;;
      let '(success, tries) := r in
      if success then ret tt else work_loop n' fuel minion tries
  end.

(** The [for minion in minions] loop of [main]. *)
Definition rolling_actions (fuel : nat) (minions : list string) : M unit :=
  for_each minions
    (fun minion =>
       log INFO (MsgBeginning minion) ;;
       let tries := 3 in
       work_loop fuel fuel minion tries).

Definition main (fuel : nat) : M unit :=
  if negb (uid =? 0) then
    emit (Print MsgNeedRoot) ;;
    exit 1
  else
    minions <- match minions options with
               | Some s => ret (split ","%char s)
               | None => raise (AttributeError "split")
               end ;;
    (if test options then
       log INFO MsgTargeting ;;
       for_each minions (fun minion => log INFO (MsgTarget minion)) ;;
       exit 0
     else ret tt) ;;
    log INFO MsgPingingAll ;;
    all_nodes_up <- ping_all_nodes minions ;;
    (if negb (eq_bool all_nodes_up true) then
       log ERROR MsgNotAllUp ;;
       nodes <- lift (iter all_nodes_up) ;;
       for_each nodes (fun node => log ERROR (MsgDown node)) ;;
       log ERROR MsgPleaseFix ;;
       exit 1
     else ret tt) ;;
    log INFO MsgAllUp ;;
    rolling_actions fuel minions ;;
    log INFO MsgFinished.

(** The events of the [except] clause when the shim is wiped. *)
Definition shim_events (minion : string) : list Event :=
  if use_ssh options then
    [Log WARNING MsgWipingShim;
     Cmd (PyStr minion) "test.ping" []
       [("ssh_wipe", PyBool true); full_return]]
  else [].

(** Polls that, from the [k]-th Salt call on, answer with an uptime not
    below [base]. *)
Definition stale_from (k : nat) (node : string) (base : PyVal) : Prop :=
  forall n, (k <= n)%nat ->
    exists on_node cur,
      getitem (env n) node = Ok on_node /\
      not_responding on_node = Ok false /\
      uptime_seconds (env n) node = Ok cur /\
      lt cur base = Ok false.

(** ** Reasoning about effects *)

Lemma emits_ret {A : Type} (P : Event -> Prop) (a : A) : emits P (ret a).
Proof. intro w. exists []. simpl. rewrite app_nil_r. auto. Qed.

Lemma emits_raise {A : Type} (P : Event -> Prop) (e : Exn) :
  emits P (@raise A e).
Proof. intro w. exists []. simpl. rewrite app_nil_r. auto. Qed.

Lemma emits_exit {A : Type} (P : Event -> Prop) (c : Z) :
  emits P (@exit A c).
Proof. intro w. exists []. simpl. rewrite app_nil_r. auto. Qed.

Lemma emits_out_of_fuel {A : Type} (P : Event -> Prop) :
  emits P (@out_of_fuel A).
Proof. intro w. exists []. simpl. rewrite app_nil_r. auto. Qed.

Lemma emits_lift {A : Type} (P : Event -> Prop) (r : Result A) :
  emits P (lift r).
Proof. destruct r; [apply emits_ret | apply emits_raise]. Qed.

Lemma emits_emit (P : Event -> Prop) (e : Event) : P e -> emits P (emit e).
Proof. intros H w. exists [e]. simpl. auto. Qed.

Lemma emits_log (P : Event -> Prop) (lvl : Level) (m : Msg) :
  P (Log lvl m) -> emits P (log lvl m).
Proof. apply emits_emit. Qed.

Lemma emits_sleep (P : Event -> Prop) (t : Z) :
  P (Sleep t) -> emits P (sleep t).
Proof. apply emits_emit. Qed.

Lemma emits_cmd (P : Event -> Prop) tgt fn arg kwargs :
  P (Cmd tgt fn arg kwargs) -> emits P (cmd tgt fn arg kwargs).
Proof. intros H w. exists [Cmd tgt fn arg kwargs]. simpl. auto. Qed.

Lemma emits_bind {A B : Type} (P : Event -> Prop) (m : M A) (k : A -> M B) :
  emits P m -> (forall a, emits P (k a)) -> emits P (bind m k).
Proof.
  intros Hm Hk w. unfold bind.
  destruct (Hm w) as [e1 [H1 F1]].
  destruct (m w) as [[a | e | c | ] w1]; simpl in *;
    try (exists e1; split; assumption).
  destruct (Hk a w1) as [e2 [H2 F2]].
  exists (e1 ++ e2)%list. rewrite H2, H1, app_assoc. split; auto.
  apply Forall_app; auto.
Qed.

Lemma emits_try {A : Type} (P : Event -> Prop) (m : M A) (h : Exn -> M A) :
  emits P m -> (forall e, emits P (h e)) -> emits P (try_except m h).
Proof.
  intros Hm Hh w. unfold try_except.
  destruct (Hm w) as [e1 [H1 F1]].
  destruct (m w) as [[a | e | c | ] w1]; simpl in *;
    try (exists e1; split; assumption).
  destruct (Hh e w1) as [e2 [H2 F2]].
  exists (e1 ++ e2)%list. rewrite H2, H1, app_assoc. split; auto.
  apply Forall_app; auto.
Qed.

Lemma emits_weaken {A : Type} (P Q : Event -> Prop) (m : M A) :
  (forall e, P e -> Q e) -> emits P m -> emits Q m.
Proof.
  intros HPQ Hm w. destruct (Hm w) as [evs [H F]].
  exists evs. split; auto. eapply Forall_impl; eauto.
Qed.

Lemma outcomes_ret {A : Type} x f (a : A) : outcomes x f (ret a).
Proof. intro w. exact I. Qed.

Lemma outcomes_raise {A : Type} x f (e : Exn) : outcomes x f (@raise A e).
Proof. intro w. exact I. Qed.

Lemma outcomes_exit {A : Type} f (c : Z) : outcomes true f (@exit A c).
Proof. intro w. reflexivity. Qed.

Lemma outcomes_out_of_fuel {A : Type} x : outcomes x true (@out_of_fuel A).
Proof. intro w. reflexivity. Qed.

Lemma outcomes_lift {A : Type} x f (r : Result A) : outcomes x f (lift r).
Proof. destruct r; intro w; exact I. Qed.

Lemma outcomes_emit x f (e : Event) : outcomes x f (emit e).
Proof. intro w. exact I. Qed.

Lemma outcomes_cmd x f tgt fn arg kwargs :
  outcomes x f (cmd tgt fn arg kwargs).
Proof. intro w. exact I. Qed.

Lemma outcomes_bind {A B : Type} x f (m : M A) (k : A -> M B) :
  outcomes x f m -> (forall a, outcomes x f (k a)) -> outcomes x f (bind m k).
Proof.
  intros Hm Hk w. unfold bind. specialize (Hm w).
  destruct (m w) as [[a | e | c | ] w1]; simpl in *; auto.
  apply Hk.
Qed.

Lemma outcomes_try {A : Type} x f (m : M A) (h : Exn -> M A) :
  outcomes x f m -> (forall e, outcomes x f (h e)) ->
  outcomes x f (try_except m h).
Proof.
  intros Hm Hh w. unfold try_except. specialize (Hm w).
  destruct (m w) as [[a | e | c | ] w1]; simpl in *; auto.
  apply Hh.
Qed.

Lemma fails_raise {A : Type} (e : Exn) : fails (@raise A e).
Proof. intro w. exact I. Qed.

Lemma fails_bind {A B : Type} (m : M A) (k : A -> M B) :
  outcomes false true m -> (forall a, fails (k a)) -> fails (bind m k).
Proof.
  intros Hm Hk w. unfold bind. specialize (Hm w).
  destruct (m w) as [[a | e | c | ] w1]; simpl in *; auto.
  - apply Hk.
  - discriminate.
Qed.

(** Structural steps shared by the proofs that a piece of the script only
    appends events of some kind, or ends only in some ways. *)
Ltac effects_step :=
  first
    [ assumption
    | match goal with H : _ |- _ => apply H end
    | apply emits_ret | apply emits_raise | apply emits_exit
    | apply emits_out_of_fuel | apply emits_lift
    | apply emits_log; simpl; auto
    | apply emits_sleep; simpl; auto
    | apply emits_cmd; simpl; auto
    | apply emits_bind; [ | intros ]
    | apply emits_try; [ | intros ]
    | apply outcomes_ret | apply outcomes_raise | apply outcomes_exit
    | apply outcomes_out_of_fuel | apply outcomes_lift
    | apply outcomes_emit | apply outcomes_cmd
    | apply outcomes_bind; [ | intros ]
    | apply outcomes_try; [ | intros ]
    | match goal with
      | |- emits _ (if ?b then _ else _) => destruct b
      | |- emits _ (match ?x with _ => _ end) => destruct x
      | |- outcomes _ _ (if ?b then _ else _) => destruct b
      | |- outcomes _ _ (match ?x with _ => _ end) => destruct x
      end ].

Ltac effects := repeat effects_step.

Lemma report_is_handler_event (minion : string) (e : Event) :
  report_event e -> handler_event minion e.
Proof. destruct e as [? ? ? ? | ? | ? m | ?]; simpl; try tauto. Qed.

Lemma emits_all_succeeded ret_data minions b :
  emits report_event (all_succeeded ret_data minions b).
Proof.
  revert b. induction minions as [| m rest IH]; intro b; simpl.
  - apply emits_ret.
  - effects.
Qed.

Lemma emits_scan_states ret_data minion its :
  emits report_event (scan_states ret_data minion its).
Proof.
  induction its as [| [state values] rest IH]; simpl.
  - apply emits_ret.
  - effects.
Qed.

Lemma emits_scan_minions ret_data minions :
  emits report_event (scan_minions ret_data minions).
Proof.
  induction minions as [| m rest IH]; simpl.
  - apply emits_ret.
  - pose proof emits_scan_states. effects.
Qed.

Lemma emits_check_salt_run_status ret_data :
  emits report_event (check_salt_run_status ret_data).
Proof.
  unfold check_salt_run_status.
  pose proof emits_all_succeeded. pose proof emits_scan_minions.
  effects.
Qed.

Lemma emits_do_salt_call target function kwargs :
  emits (handler_event target) (do_salt_call target function kwargs).
Proof. unfold do_salt_call. effects. Qed.

Lemma emits_update_configs node :
  emits (handler_event node) (update_configs node).
Proof.
  unfold update_configs.
  assert (Hc : forall v, emits (handler_event node) (check_salt_run_status v)).
  { intro v. apply (emits_weaken report_event); [apply report_is_handler_event |].
    apply emits_check_salt_run_status. }
  effects.
Qed.

Lemma emits_update_system node :
  emits (handler_event node) (update_system node).
Proof.
  unfold update_system.
  assert (Hc : forall v, emits (handler_event node) (check_salt_run_status v)).
  { intro v. apply (emits_weaken report_event); [apply report_is_handler_event |].
    apply emits_check_salt_run_status. }
  effects.
Qed.

Lemma emits_restart_service_loop fuel node tries :
  emits (handler_event node) (restart_service_loop fuel node tries).
Proof.
  revert tries. induction fuel as [| fuel IH]; intro tries; simpl; effects.
Qed.

Lemma emits_restart_host_loop fuel node uptime timeout :
  emits (handler_event node) (restart_host_loop fuel node uptime timeout).
Proof.
  revert timeout. induction fuel as [| fuel IH]; intro timeout; simpl;
    destruct (timeout >? 0); effects.
Qed.

Lemma emits_restart_host fuel node :
  emits (handler_event node) (restart_host fuel node).
Proof.
  unfold restart_host.
  pose proof emits_do_salt_call. pose proof emits_restart_host_loop.
  effects.
Qed.

Lemma emits_attempt fuel minion :
  emits (handler_event minion) (attempt fuel minion).
Proof.
  unfold attempt, restart_service, wait_for_es_service.
  pose proof emits_update_configs. pose proof emits_update_system.
  pose proof emits_restart_service_loop. pose proof emits_restart_host.
  effects.
Qed.

Lemma outcomes_check_salt_run_status ret_data :
  outcomes false false (check_salt_run_status ret_data).
Proof.
  assert (H1 : forall ms b, outcomes false false (all_succeeded ret_data ms b)).
  { induction ms as [| m rest IH]; intro b; simpl; effects. }
  assert (H2 : forall minion its,
             outcomes false false (scan_states ret_data minion its)).
  { intro minion. induction its as [| [state values] rest IH]; simpl; effects. }
  assert (H3 : forall ms, outcomes false false (scan_minions ret_data ms)).
  { induction ms as [| m rest IH]; simpl; effects. }
  unfold check_salt_run_status. effects.
Qed.

Lemma outcomes_update_configs node : outcomes false false (update_configs node).
Proof.
  unfold update_configs. pose proof outcomes_check_salt_run_status. effects.
Qed.

Lemma outcomes_update_system node : outcomes false false (update_system node).
Proof.
  unfold update_system. pose proof outcomes_check_salt_run_status. effects.
Qed.

Lemma outcomes_restart_service_loop fuel node tries :
  outcomes false true (restart_service_loop fuel node tries).
Proof.
  revert tries. induction fuel as [| fuel IH]; intro tries; simpl; effects.
Qed.

Lemma outcomes_restart_host fuel node :
  outcomes false true (restart_host fuel node).
Proof.
  assert (H : forall f t u, outcomes false true (restart_host_loop f node u t)).
  { induction f as [| f IH]; intros t u; simpl; destruct (t >? 0); effects. }
  unfold restart_host, do_salt_call. effects.
Qed.

Lemma extend_extend w evs1 n1 evs2 n2 :
  extend (extend w evs1 n1) evs2 n2 = extend w (evs1 ++ evs2) (n2 + n1).
Proof.
  unfold extend. simpl. rewrite <- app_assoc. f_equal. lia.
Qed.

Lemma ncalls_extend w evs n : ncalls (extend w evs n) = (n + ncalls w)%nat.
Proof. reflexivity. Qed.

Lemma trace_extend w evs n : trace (extend w evs n) = (trace w ++ evs)%list.
Proof. reflexivity. Qed.

Lemma extend_nil w : extend w [] 0 = w.
Proof. destruct w. unfold extend. simpl. rewrite app_nil_r. reflexivity. Qed.

Lemma emit_run e w : emit e w = (Ret tt, extend w [e] 0).
Proof. reflexivity. Qed.

Lemma log_run lvl m w : log lvl m w = (Ret tt, extend w [Log lvl m] 0).
Proof. reflexivity. Qed.

Lemma sleep_run t w : sleep t w = (Ret tt, extend w [Sleep t] 0).
Proof. reflexivity. Qed.

Lemma cmd_run tgt fn arg kwargs w :
  cmd tgt fn arg kwargs w =
  (Ret (env (ncalls w)), extend w [Cmd tgt fn arg kwargs] 1).
Proof. reflexivity. Qed.

Lemma bind_run {A B : Type} (m : M A) (k : A -> M B) w :
  bind m k w =
  match m w with
  | (Ret a, w') => k a w'
  | (Raise e, w') => (Raise e, w')
  | (Exit c, w') => (Exit c, w')
  | (OutOfFuel, w') => (OutOfFuel, w')
  end.
Proof. reflexivity. Qed.

Lemma try_run {A : Type} (m : M A) (h : Exn -> M A) w :
  try_except m h w =
  match m w with
  | (Raise e, w') => h e w'
  | r => r
  end.
Proof. reflexivity. Qed.

Lemma lift_run {A : Type} (r : Result A) w :
  lift r w = match r with
             | Ok a => (Ret a, w)
             | Err e => (Raise e, w)
             end.
Proof. destruct r; reflexivity. Qed.

(** Runs the primitive steps at the head of a computation applied to a
    world. *)
Ltac run :=
  repeat first
    [ rewrite bind_run | rewrite try_run | rewrite lift_run
    | rewrite log_run | rewrite sleep_run | rewrite emit_run | rewrite cmd_run
    | rewrite extend_extend | rewrite ncalls_extend
    | progress cbn [ret raise exit out_of_fuel lift fst snd Nat.add app] ].

(** Closes a goal that equates two outcomes whose worlds differ only in how
    the appended events are grouped. *)
Ltac same_world :=
  unfold ret, raise, exit, out_of_fuel, extend; simpl;
  rewrite <- ?app_assoc; simpl; reflexivity.

Ltac run_in H :=
  repeat first
    [ rewrite bind_run in H | rewrite try_run in H | rewrite lift_run in H
    | rewrite log_run in H | rewrite sleep_run in H | rewrite emit_run in H
    | rewrite cmd_run in H
    | rewrite extend_extend in H | rewrite ncalls_extend in H
    | progress cbn [ret raise exit out_of_fuel lift fst snd Nat.add app] in H ].

(** ** The result interpreter *)

Lemma getitem_entry d k v : assoc k d = Some v -> getitem (PyDict d) k = Ok v.
Proof. intro H. unfold getitem. rewrite H. reflexivity. Qed.

Lemma all_succeeded_pure ret_data minions b w :
  snd (all_succeeded ret_data minions b w) = w.
Proof.
  revert b. induction minions as [| m rest IH]; intro b; simpl; auto.
  unfold bind, lift.
  destruct (getitem ret_data m) as [on_minion |]; simpl; auto.
  destruct (getitem on_minion SALT_RETURN_KEY); simpl; auto.
Qed.

Lemma all_succeeded_fst ret_data minions b w1 w2 :
  fst (all_succeeded ret_data minions b w1) =
  fst (all_succeeded ret_data minions b w2).
Proof.
  revert b. induction minions as [| m rest IH]; intro b; simpl; auto.
  unfold bind, lift.
  destruct (getitem ret_data m) as [on_minion |]; simpl; auto.
  destruct (getitem on_minion SALT_RETURN_KEY); simpl; auto.
Qed.

Lemma scan_states_verdict ret_data minion its w b :
  fst (scan_states ret_data minion its w) = Ret (Some b) -> b = false.
Proof.
  induction its as [| [state values] rest IH]; simpl.
  - discriminate.
  - unfold bind, lift.
    destruct (get values SALT_RETURN_KEY) as [flag |]; simpl; try discriminate.
    destruct (is_True flag); simpl; auto.
    destruct (get values "result"); simpl; try discriminate.
    destruct (get values "comment"); simpl; try discriminate.
    congruence.
Qed.

Lemma scan_states_silent ret_data minion its w :
  fst (scan_states ret_data minion its w) = Ret None ->
  snd (scan_states ret_data minion its w) = w.
Proof.
  induction its as [| [state values] rest IH]; simpl; auto.
  unfold bind, lift.
  destruct (get values SALT_RETURN_KEY) as [flag |]; simpl; try discriminate.
  destruct (is_True flag); simpl; auto.
  destruct (get values "result"); simpl; try discriminate.
  destruct (get values "comment"); simpl; discriminate.
Qed.

Lemma scan_minions_verdict ret_data minions w b :
  fst (scan_minions ret_data minions w) = Ret (Some b) -> b = false.
Proof.
  induction minions as [| m rest IH]; simpl.
  - discriminate.
  - unfold bind, lift.
    destruct (getitem ret_data m) as [on_minion |]; simpl; try discriminate.
    destruct (getitem on_minion SALT_RETURN_KEY) as [payload |]; simpl;
      try discriminate.
    destruct (is_list payload); simpl; [congruence |].
    destruct (items payload) as [its |]; simpl; try discriminate.
    pose proof (scan_states_verdict ret_data m its w) as Hv.
    pose proof (scan_states_silent ret_data m its w) as Hs.
    destruct (scan_states ret_data m its w) as [[[b' |] | e | c | ] w1];
      simpl in *; try discriminate.
    + intro H. inversion H; subst. auto.
    + rewrite Hs by reflexivity. auto.
Qed.

Lemma scan_minions_silent ret_data minions w :
  fst (scan_minions ret_data minions w) = Ret None ->
  snd (scan_minions ret_data minions w) = w.
Proof.
  induction minions as [| m rest IH]; simpl; auto.
  unfold bind, lift.
  destruct (getitem ret_data m) as [on_minion |]; simpl; try discriminate.
  destruct (getitem on_minion SALT_RETURN_KEY) as [payload |]; simpl;
    try discriminate.
  destruct (is_list payload); simpl; [discriminate |].
  destruct (items payload) as [its |]; simpl; try discriminate.
  pose proof (scan_states_silent ret_data m its w) as Hs.
  destruct (scan_states ret_data m its w) as [[[b' |] | e | c | ] w1];
    simpl in *; try discriminate.
  rewrite Hs by reflexivity. auto.
Qed.

(** The scan passes over states that carry [True] under [SALT_RETURN_KEY]. *)
Lemma scan_states_all_flagged ret_data minion its w :
  Forall (fun kv => get (snd kv) SALT_RETURN_KEY = Ok (PyBool true)) its ->
  scan_states ret_data minion its w = (Ret None, w).
Proof.
  induction 1 as [| [state values] rest Hflag _ IH]; simpl; auto.
  simpl in Hflag. unfold bind. rewrite Hflag. simpl. exact IH.
Qed.

(** The scan reads [SALT_RETURN_KEY] where a state keeps its verdict under
    ['result']: a first state without that key is reported as the failed
    one, whatever its ['result'] says. *)
Lemma scan_states_blames_first_state ret_data minion state entry rest w :
  assoc SALT_RETURN_KEY entry = None ->
  scan_states ret_data minion ((state, PyDict entry) :: rest) w =
  (Ret (Some false),
   extend w
     [Log ERROR (MsgStateFailed minion
                   (match assoc "result" entry with
                    | Some r => r
                    | None => PyNone
                    end));
      Log ERROR (MsgComment
                   (match assoc "comment" entry with
                    | Some c => c
                    | None => PyNone
                    end));
      Log ERROR (MsgEntire ret_data)] 0).
Proof.
  intro Hkey. cbn [scan_states get]. rewrite Hkey. run. cbn [is_True negb].
  destruct (assoc "result" entry); destruct (assoc "comment" entry);
    run; reflexivity.
Qed.

(** C8.  A state-run result whose payload for the target is a list is a
    compile failure whatever the list holds: given that Salt's checker
    rejects the list (it rejects everything that is not a mapping),
    [check_salt_run_status] logs the failure with the whole payload and
    returns [False] at once, and logs nothing about any single state. *)
Theorem list_payload_is_compile_failure minion entry l w :
  assoc SALT_RETURN_KEY entry = Some (PyList l) ->
  state_checker (PyList l) = false ->
  let ret_data := PyDict [(minion, PyDict entry)] in
  check_salt_run_status ret_data w =
  (Ret false,
   extend w [Log DEBUG (MsgChecking ret_data);
             Log ERROR MsgRunFailed;
             Log ERROR (MsgFullOutput ret_data)] 0).
Proof.
  intros Hentry Hchk ret_data.
  unfold check_salt_run_status, ret_data.
  repeat first [ progress run | progress simpl | rewrite String.eqb_refl
               | rewrite (getitem_entry _ _ _ Hentry) | rewrite Hentry | rewrite Hchk ].
  same_world.
Qed.

(** A state the scan passes over: it carries [True] under
    [SALT_RETURN_KEY]. *)
Definition flagged (kv : string * PyVal) : Prop :=
  exists flag, get (snd kv) SALT_RETURN_KEY = Ok flag /\ is_True flag = true.

(** A target the scan finds nothing to blame on: its payload is not a list
    and every state of it is [flagged]. *)
Definition unblamed (ret_data : PyVal) (minion : string) : Prop :=
  exists on_minion payload its,
    getitem ret_data minion = Ok on_minion /\
    getitem on_minion SALT_RETURN_KEY = Ok payload /\
    is_list payload = false /\
    items payload = Ok its /\
    Forall flagged its.

Lemma scan_states_passes ret_data minion its w :
  fst (scan_states ret_data minion its w) = Ret None -> Forall flagged its.
Proof.
  induction its as [| [state values] rest IH]; simpl; [constructor |].
  unfold bind, lift.
  destruct (get values SALT_RETURN_KEY) as [flag |] eqn:Hflag; simpl;
    try discriminate.
  destruct (is_True flag) eqn:Htrue; simpl.
  - intro H. constructor; [exists flag; auto | auto].
  - destruct (get values "result"); simpl; try discriminate.
    destruct (get values "comment"); simpl; discriminate.
Qed.

Lemma scan_minions_passes ret_data minions w :
  fst (scan_minions ret_data minions w) = Ret None ->
  Forall (unblamed ret_data) minions.
Proof.
  induction minions as [| m rest IH]; simpl; [constructor |].
  unfold bind, lift.
  destruct (getitem ret_data m) as [on_minion |] eqn:Hm; simpl;
    try discriminate.
  destruct (getitem on_minion SALT_RETURN_KEY) as [payload |] eqn:Hp; simpl;
    try discriminate.
  destruct (is_list payload) eqn:Hl; simpl; [discriminate |].
  destruct (items payload) as [its |] eqn:Hi; simpl; try discriminate.
  pose proof (scan_states_passes ret_data m its w) as Hpass.
  pose proof (scan_states_silent ret_data m its w) as Hs.
  destruct (scan_states ret_data m its w) as [[[b' |] | e | c | ] w1];
    simpl in *; try discriminate.
  rewrite Hs by reflexivity. intro H. constructor; [| auto].
  exists on_minion, payload, its. auto 10.
Qed.

(** When Salt's checker reports a failed run for the target but the scan
    meets neither a list payload nor a state it blames,
    [check_salt_run_status] writes its three warnings and returns [True].
    That fallback is the only way a run the checker rejected comes back as
    a success: a [True] result is either the checker's own verdict, with
    nothing logged, or the fallback with its warnings, on a reply in which
    no target has a list payload or a state that is not [flagged]; and both
    handlers that interpret a state run raise as soon as the interpreter
    returns [False]. *)
Lemma success_is_approval_or_fallback :
  (forall minion entry states w,
      assoc SALT_RETURN_KEY entry = Some (PyDict states) ->
      state_checker (PyDict states) = false ->
      Forall (fun kv => get (snd kv) SALT_RETURN_KEY = Ok (PyBool true))
        states ->
      let ret_data := PyDict [(minion, PyDict entry)] in
      check_salt_run_status ret_data w =
      (Ret true,
       extend w [Log DEBUG (MsgChecking ret_data);
                 Log WARNING MsgCheckerDisagrees;
                 Log WARNING MsgContinueAnyway;
                 Log WARNING (MsgReturnData ret_data)] 0))
  /\
  (forall ret_data w w',
      check_salt_run_status ret_data w = (Ret true, w') ->
      (exists minions,
          keys ret_data = Ok minions /\
          fst (all_succeeded ret_data minions true w) = Ret true /\
          w' = extend w [Log DEBUG (MsgChecking ret_data)] 0)
      \/
      (exists minions,
          keys ret_data = Ok minions /\
          fst (all_succeeded ret_data minions true w) = Ret false /\
          Forall (unblamed ret_data) minions /\
          w' = extend w [Log DEBUG (MsgChecking ret_data);
                         Log WARNING MsgCheckerDisagrees;
                         Log WARNING MsgContinueAnyway;
                         Log WARNING (MsgReturnData ret_data)] 0))
  /\
  (forall node w w1,
      check_salt_run_status (env (ncalls w))
        (extend w [Log INFO (MsgUpdatingConfigs node);
                   Cmd (PyStr node) "state.sls"
                     [PyStr "haproxy.update_configs"]
                     [("kwarg",
                       PyDict [("pillar", PyDict [("foo", PyStr "bar")])]);
                      full_return]] 1) = (Ret false, w1) ->
      update_configs node w = (Raise (Exception (Some (env (ncalls w)))), w1))
  /\
  (forall node w w1,
      check_salt_run_status (env (ncalls w))
        (extend w [Log INFO (MsgUpdatingPackages node);
                   Cmd (PyStr node) "pkg.upgrade" [PyStr refresh_arg]
                     [full_return]] 1) = (Ret false, w1) ->
      update_system node w = (Raise (Exception None), w1)).
Proof.
  split; [| split; [| split]].
  - intros minion entry states w Hentry Hchk Hflags ret_data.
    unfold check_salt_run_status, ret_data.
    repeat first [ progress run | progress simpl | rewrite String.eqb_refl
                 | rewrite (getitem_entry _ _ _ Hentry) | rewrite Hentry | rewrite Hchk
                 | rewrite scan_states_all_flagged by assumption ].
    same_world.
  - intros ret_data w w' H.
    unfold check_salt_run_status in H. run_in H.
    destruct (keys ret_data) as [minions | e]; run_in H; [| discriminate].
    set (w1 := extend w [Log DEBUG (MsgChecking ret_data)] 0) in *.
    pose proof (all_succeeded_pure ret_data minions true w1) as Hpure.
    pose proof (all_succeeded_fst ret_data minions true w1 w) as Hfst.
    destruct (all_succeeded ret_data minions true w1)
      as [[[|] | e | c | ] w2]; simpl in *; subst w2; try discriminate;
      run_in H.
    + left. exists minions. run_in H. inversion H; subst. auto.
    + right. exists minions.
      pose proof (scan_minions_verdict ret_data minions w1) as Hv.
      pose proof (scan_minions_silent ret_data minions w1) as Hs.
      pose proof (scan_minions_passes ret_data minions w1) as Hp.
      destruct (scan_minions ret_data minions w1)
        as [[[b |] | e | c | ] w2]; simpl in *; try discriminate.
      * specialize (Hv b eq_refl). subst b. run_in H. discriminate.
      * rewrite Hs in H by reflexivity. run_in H.
        inversion H; subst. unfold w1. rewrite extend_extend. auto.
  - intros node w w1 H. unfold update_configs. run.
    unfold full_return in *. rewrite H. reflexivity.
  - intros node w w1 H. unfold update_system. run.
    unfold full_return in *. rewrite H. reflexivity.
Qed.

(** The fallback is out of reach of a run that has a state.  When the
    checker rejects the run of the target and the first state of the
    payload is a record without [SALT_RETURN_KEY], as the records of states
    are, the interpreter reports that state and returns [False], whatever
    the ['result'] of that state or of any other says. *)
Lemma rejected_run_with_states_is_a_failure minion entry state record rest w :
  assoc SALT_RETURN_KEY entry = Some (PyDict ((state, PyDict record) :: rest)) ->
  state_checker (PyDict ((state, PyDict record) :: rest)) = false ->
  assoc SALT_RETURN_KEY record = None ->
  let ret_data := PyDict [(minion, PyDict entry)] in
  check_salt_run_status ret_data w =
  (Ret false,
   extend w
     [Log DEBUG (MsgChecking ret_data);
      Log ERROR (MsgStateFailed minion
                   (match assoc "result" record with
                    | Some r => r
                    | None => PyNone
                    end));
      Log ERROR (MsgComment
                   (match assoc "comment" record with
                    | Some c => c
                    | None => PyNone
                    end));
      Log ERROR (MsgEntire ret_data)] 0).
Proof.
  intros Hentry Hchk Hrecord ret_data.
  unfold check_salt_run_status, ret_data.
  run. cbn [keys map fst]. run. cbn [all_succeeded]. run.
  cbn [getitem assoc]. rewrite String.eqb_refl. run.
  rewrite (getitem_entry _ _ _ Hentry). run. rewrite Hchk.
  cbn [negb]. run. cbn [scan_minions]. run.
  cbn [getitem assoc]. rewrite String.eqb_refl. run.
  rewrite (getitem_entry _ _ _ Hentry). run. cbn [is_list items]. run.
  rewrite (scan_states_blames_first_state _ _ _ _ _ _ Hrecord). run.
  same_world.
Qed.

(** ** Restarting the service *)

(** C10.  [restart_service] restarts, waits 2, and checks the status.  A
    status that is false costs one of 3 local tries and is followed by a
    wait of 5 and a whole new round; the third false status raises, with no
    further wait; a true status returns at once.  Three iterations of fuel
    are enough in every case. *)
Theorem restart_service_protocol fuel node w :
  (3 <= fuel)%nat ->
  let status k := getitem (env (2 * k + 1 + ncalls w)%nat) node in
  let round := restart_round node in
  (forall v0,
      status 0%nat = Ok v0 -> truthy v0 = true ->
      restart_service fuel node w = (Ret tt, extend w round 2))
  /\
  (forall v0 v1,
      status 0%nat = Ok v0 -> truthy v0 = false ->
      status 1%nat = Ok v1 -> truthy v1 = true ->
      restart_service fuel node w =
      (Ret tt, extend w (round ++ backoff node 2 ++ round) 4))
  /\
  (forall v0 v1 v2,
      status 0%nat = Ok v0 -> truthy v0 = false ->
      status 1%nat = Ok v1 -> truthy v1 = false ->
      status 2%nat = Ok v2 -> truthy v2 = true ->
      restart_service fuel node w =
      (Ret tt,
       extend w (round ++ backoff node 2 ++ round ++ backoff node 1 ++ round)
         6))
  /\
  (forall v0 v1 v2,
      status 0%nat = Ok v0 -> truthy v0 = false ->
      status 1%nat = Ok v1 -> truthy v1 = false ->
      status 2%nat = Ok v2 -> truthy v2 = false ->
      restart_service fuel node w =
      (Raise (Exception None),
       extend w (round ++ backoff node 2 ++ round ++ backoff node 1 ++ round)
         6)).
Proof.
  intros Hfuel status round.
  destruct fuel as [| [| [| fuel]]]; try lia.
  unfold status, round, restart_service, restart_round, backoff.
  simpl Nat.add.
  repeat split; intros;
    cbn [restart_service_loop];
    repeat first
      [ progress run
      | match goal with
        | H : getitem _ _ = Ok _ |- _ => rewrite H
        | H : truthy _ = _ |- _ => rewrite H
        end
      | progress simpl (_ =? 0) | progress simpl (_ - 1)
      | progress cbn [negb] ];
    reflexivity.
Qed.

(** ** Waiting for a reboot *)

(** On numbers [<] is the order of the integers; booleans count as 0 and
    1. *)
Lemma lt_numbers a b x y :
  as_int a = Some x -> as_int b = Some y -> lt a b = Ok (x <? y).
Proof.
  intros Ha Hb. unfold lt, Z.ltb.
  destruct a; try discriminate; destruct b; try discriminate;
    cbn in *; injection Ha as <-; injection Hb as <-; reflexivity.
Qed.

Lemma lt_true_numbers a b x y :
  lt a b = Ok true -> as_int a = Some x -> as_int b = Some y -> x < y.
Proof.
  intros Hlt Ha Hb. rewrite (lt_numbers a b x y Ha Hb) in Hlt.
  apply Z.ltb_lt. congruence.
Qed.

(** The comparison always answers. *)
Lemma lt_answers a b : exists r, lt a b = Ok r.
Proof. unfold lt. eexists. reflexivity. Qed.

(** Values that are not numbers are ordered too: [None] is below every
    number, and a number below every string, whatever the string spells. *)
Example lt_across_types :
  lt PyNone (PyInt 1200) = Ok true /\
  lt (PyInt 1205) (PyStr "1200") = Ok true /\
  lt (PyStr "50") (PyInt 1200) = Ok false /\
  lt (PyBool true) (PyInt 2) = Ok true /\
  lt (PyDict [("seconds", PyInt 0)]) (PyList []) = Ok true /\
  lt (PyList [PyInt 1; PyInt 2]) (PyList [PyInt 1; PyInt 3]) = Ok true /\
  lt (PyDict [("a", PyInt 9)]) (PyDict [("a", PyInt 1); ("b", PyInt 1)])
    = Ok true.
Proof. repeat split. Qed.

#[global] Opaque lt.

(** Splits on what the next stuck test of a run recorded in [H] looks at. *)
Ltac case_in H :=
  match type of H with
  | context [match ?x with _ => _ end] =>
      lazymatch x with
      | context [match _ with _ => _ end] => fail
      | _ => destruct x eqn:?
      end
  end.

Lemma restart_host_loop_returns fuel :
  forall node uptime timeout w w',
    restart_host_loop fuel node uptime timeout w = (Ret tt, w') ->
    (ncalls w < ncalls w')%nat /\
    exists cur,
      uptime_seconds (env (pred (ncalls w'))) node = Ok cur /\
      lt cur uptime = Ok true.
Proof.
  induction fuel as [| fuel IH]; intros node uptime timeout w w' H;
    simpl in H; destruct (timeout >? 0); run_in H; try discriminate.
  repeat (run_in H; case_in H; run_in H; try discriminate).
  - apply IH in H. rewrite ncalls_extend in H.
    destruct H as [Hlt Hex]. split; [lia | exact Hex].
  - inversion H; subst w'. rewrite ncalls_extend. simpl. split; [lia |].
    match goal with
    | Hup : getitem _ "seconds" = Ok ?c |- _ => exists c
    end.
    unfold uptime_seconds.
    repeat match goal with
           | Hg : getitem _ _ = Ok _ |- _ => rewrite Hg; clear Hg
           end.
    split; [reflexivity | subst; assumption].
  - apply IH in H. rewrite ncalls_extend in H.
    destruct H as [Hlt Hex]. split; [lia | exact Hex].
Qed.

(** What a probe must show for [restart_host] to return: an uptime below
    the one read before the reboot. *)
Lemma restart_host_returns fuel node w w' :
  restart_host fuel node w = (Ret tt, w') ->
  exists base cur,
    uptime_seconds (env (ncalls w)) node = Ok base /\
    (ncalls w + 3 <= ncalls w')%nat /\
    uptime_seconds (env (pred (ncalls w'))) node = Ok cur /\
    lt cur base = Ok true.
Proof.
  intro H. unfold restart_host, do_salt_call in H. simpl has_key in H.
  repeat (run_in H; case_in H; run_in H; try discriminate).
  apply restart_host_loop_returns in H. rewrite ncalls_extend in H.
  destruct H as [Hlt [cur [Hcur Hsmaller]]].
  match goal with
  | Hup : getitem _ "seconds" = Ok ?b |- _ => exists b
  end.
  exists cur. unfold uptime_seconds at 1.
  repeat match goal with
         | Hg : getitem _ _ = Ok _ |- _ => rewrite Hg
         end.
  repeat split; auto. lia.
Qed.

(** A probe that answers with an uptime not below the baseline leaves the
    loop where it was: it sleeps and polls again with the same [timeout]. *)
Lemma stale_poll_keeps_timeout fuel node uptime timeout w on_node cur :
  timeout > 0 ->
  getitem (env (ncalls w)) node = Ok on_node ->
  not_responding on_node = Ok false ->
  uptime_seconds (env (ncalls w)) node = Ok cur ->
  lt cur uptime = Ok false ->
  restart_host_loop (S fuel) node uptime timeout w =
  restart_host_loop fuel node uptime timeout
    (extend w [Log INFO (MsgPinging node);
               Cmd (PyStr node) "status.uptime" [] [full_return];
               Log INFO (MsgWaitingReboot node);
               Sleep period] 1).
Proof.
  intros Htimeout Hnode Hresp Hcur Hlt.
  cbn [restart_host_loop].
  replace (timeout >? 0) with true by (symmetry; apply Z.gtb_lt; lia).
  unfold uptime_seconds in Hcur. rewrite Hnode in Hcur.
  run. rewrite Hnode. run. rewrite Hresp. run.
  destruct (getitem on_node SALT_RETURN_KEY) as [data |]; [| discriminate].
  run. rewrite Hcur. run. rewrite Hlt. run. reflexivity.
Qed.

(** ** The connectivity gate *)

Lemma collect_failed_down its acc :
  collect_failed its acc = (acc ++ map PyStr (down its))%list.
Proof.
  revert acc. induction its as [| [minion value] rest IH]; intro acc; simpl.
  - rewrite app_nil_r. reflexivity.
  - rewrite IH. unfold down. simpl.
    destruct (eq_bool value false); simpl.
    + rewrite <- app_assoc. reflexivity.
    + reflexivity.
Qed.

Lemma in_down n its :
  In n (down its) <-> exists v, In (n, v) its /\ eq_bool v false = true.
Proof.
  unfold down. rewrite in_map_iff. split.
  - intros [[n' v] [Hn Hin]]. simpl in Hn. subst n'.
    apply filter_In in Hin. exists v. tauto.
  - intros [v [Hin Hv]]. exists (n, v). split; [reflexivity |].
    apply filter_In. auto.
Qed.

Lemma for_each_log {A : Type} lvl (f : A -> Msg) (xs : list A) w :
  for_each xs (fun x => log lvl (f x)) w =
  (Ret tt, extend w (map (fun x => Log lvl (f x)) xs) 0).
Proof.
  revert w. induction xs as [| x xs IH]; intro w; simpl.
  - rewrite extend_nil. reflexivity.
  - run. rewrite IH. run. reflexivity.
Qed.

Lemma ping_all_nodes_run nodes its w :
  env (ncalls w) = PyDict its ->
  ping_all_nodes nodes w =
  (Ret (match down its with
        | [] => PyBool true
        | _ => PyList (map PyStr (down its))
        end),
   extend w [Cmd (PyList (map PyStr nodes)) "test.ping" []
               [("tgt_type", PyStr "list"); full_return]] 1).
Proof.
  intro Henv. unfold ping_all_nodes. run. rewrite Henv. cbn [items]. run.
  rewrite collect_failed_down. cbn [app].
  destruct (down its) as [| n rest]; reflexivity.
Qed.

(** C7.  [main] pings the whole target list in one call before anything
    else is done to a node.  [ping_all_nodes] returns exactly the targets
    whose reply equals [False], or [True] when there is none.  When there
    is one, [main] logs each of them and exits with status 1, and the ping
    is the only Salt call of the run: no handler runs on any node.  When
    all answer, the rolling actions start after the ping. *)
Theorem connectivity_gate fuel s its w :
  uid = 0 -> test options = false -> minions options = Some s ->
  env (ncalls w) = PyDict its ->
  let probe := Cmd (PyList (map PyStr (split ","%char s))) "test.ping" []
                 [("tgt_type", PyStr "list"); full_return] in
  (forall n, In n (down its) <->
             exists v, In (n, v) its /\ eq_bool v false = true)
  /\
  ping_all_nodes (split ","%char s) w =
  (Ret (match down its with
        | [] => PyBool true
        | _ => PyList (map PyStr (down its))
        end), extend w [probe] 1)
  /\
  (down its <> [] ->
   main fuel w =
   (Exit 1,
    extend w ([Log INFO MsgPingingAll; probe; Log ERROR MsgNotAllUp] ++
              map (fun n => Log ERROR (MsgDown (PyStr n))) (down its) ++
              [Log ERROR MsgPleaseFix]) 1))
  /\
  (down its = [] ->
   main fuel w =
   (rolling_actions fuel (split ","%char s) ;; log INFO MsgFinished)
     (extend w [Log INFO MsgPingingAll; probe; Log INFO MsgAllUp] 1)).
Proof.
  intros Huid Htest Hminions Henv probe.
  split; [intro n; apply in_down |].
  split; [apply ping_all_nodes_run; assumption |].
  split; intro Hdown.
  - unfold main. rewrite Huid, Htest, Hminions. cbn [Z.eqb negb].
    run. rewrite (ping_all_nodes_run _ its) by (rewrite ncalls_extend; exact Henv).
    destruct (down its) as [| n rest] eqn:Hd; [congruence |].
    run. cbn [eq_bool negb iter]. run.
    rewrite (for_each_log ERROR MsgDown). run.
    rewrite map_map. same_world.
  - unfold main. rewrite Huid, Htest, Hminions. cbn [Z.eqb negb].
    run. rewrite (ping_all_nodes_run _ its) by (rewrite ncalls_extend; exact Henv).
    rewrite Hdown. run. cbn [eq_bool Bool.eqb negb]. run.
    reflexivity.
Qed.

(** ** The retry loop *)

Lemma failures_app evs1 evs2 :
  failures (evs1 ++ evs2) = (failures evs1 ++ failures evs2)%list.
Proof. apply flat_map_app. Qed.

Lemma begun_app evs1 evs2 :
  begun (evs1 ++ evs2) = (begun evs1 ++ begun evs2)%list.
Proof. apply flat_map_app. Qed.

Lemma calls_app evs1 evs2 :
  calls (evs1 ++ evs2) = (calls evs1 ++ calls evs2)%list.
Proof. apply flat_map_app. Qed.

Lemma count_cmd_app fn evs1 evs2 :
  count_cmd fn (evs1 ++ evs2) = (count_cmd fn evs1 + count_cmd fn evs2)%nat.
Proof.
  unfold count_cmd. rewrite calls_app, filter_app, length_app. reflexivity.
Qed.

Lemma failures_cons e evs :
  failures (e :: evs) = (failures [e] ++ failures evs)%list.
Proof. unfold failures. simpl. rewrite app_nil_r. reflexivity. Qed.

Lemma begun_cons e evs :
  begun (e :: evs) = (begun [e] ++ begun evs)%list.
Proof. unfold begun. simpl. rewrite app_nil_r. reflexivity. Qed.

Lemma calls_cons e evs :
  calls (e :: evs) = (calls [e] ++ calls evs)%list.
Proof. unfold calls. simpl. rewrite app_nil_r. reflexivity. Qed.

(** Splits the observations of a trace into those of its parts. *)
Ltac observe :=
  repeat match goal with
         | |- context [failures (_ ++ _)] => rewrite failures_app
         | |- context [begun (_ ++ _)] => rewrite begun_app
         | |- context [calls (_ ++ _)] => rewrite calls_app
         | |- context [failures (?e :: ?l)] =>
             lazymatch l with [] => fail | _ => rewrite (failures_cons e l) end
         | |- context [begun (?e :: ?l)] =>
             lazymatch l with [] => fail | _ => rewrite (begun_cons e l) end
         | |- context [calls (?e :: ?l)] =>
             lazymatch l with [] => fail | _ => rewrite (calls_cons e l) end
         end.

(** What [main] can read off the events of a handler: no attempt began or
    failed in them, and every Salt call went to the handler's minion. *)
Lemma handler_events_observed minion evs :
  Forall (handler_event minion) evs ->
  failures evs = [] /\ begun evs = [] /\
  Forall (fun c => fst c = PyStr minion) (calls evs).
Proof.
  induction 1 as [| e evs He _ [IHf [IHb IHc]]]; simpl; auto.
  destruct e as [tgt fn arg kw | t | lvl m | m]; simpl in *;
    try (repeat split; assumption).
  - repeat split; auto.
  - destruct m; simpl in *; try tauto; repeat split; assumption.
Qed.

Lemma on_failure_run minion tries e w :
  on_failure minion tries e w =
  if tries =? 0 then
    (Exit 1,
     extend w ([Log WARNING (MsgWorkFailed minion tries e)] ++
               shim_events minion ++ [Log ERROR (MsgFailedOn minion)])
       (if use_ssh options then 1 else 0))
  else
    (Ret tt,
     extend w ([Log WARNING (MsgWorkFailed minion tries e)] ++
               shim_events minion)
       (if use_ssh options then 1 else 0)).
Proof.
  unfold on_failure, shim_events.
  destruct (use_ssh options); destruct (tries =? 0); run; reflexivity.
Qed.

Lemma shim_events_observed minion :
  failures (shim_events minion) = [] /\ begun (shim_events minion) = [] /\
  Forall (fun c => fst c = PyStr minion) (calls (shim_events minion)).
Proof.
  unfold shim_events. destruct (use_ssh options); simpl; auto.
Qed.

Lemma countdown_S minion k :
  countdown minion (S k) = (minion, Z.of_nat (S k)) :: countdown minion k.
Proof.
  unfold countdown. rewrite (seq_S (S k)), rev_app_distr. reflexivity.
Qed.

(** A node whose attempts never complete uses up its tries: with [S k]
    tries the loop makes one attempt per try, logs the retries left after
    each, and exits with status 1 at zero; unless an attempt is still
    running when the fuel ends. *)
Lemma work_loop_exhausts fuel minion :
  fails (attempt fuel minion) ->
  forall k n w,
    (S k <= n)%nat ->
    exists evs,
      trace (snd (work_loop n fuel minion (Z.of_nat (S k)) w)) =
        (trace w ++ evs)%list /\
      begun evs = [] /\
      Forall (fun c => fst c = PyStr minion) (calls evs) /\
      ((fst (work_loop n fuel minion (Z.of_nat (S k)) w) = Exit 1 /\
        failures evs = countdown minion k)
       \/
       (fst (work_loop n fuel minion (Z.of_nat (S k)) w) = OutOfFuel /\
        exists w1, fst (attempt fuel minion w1) = OutOfFuel)).
Proof.
  intros Hfails k.
  induction k as [| k IH]; intros n w Hn;
    (destruct n as [| n]; [lia |]);
    cbn [work_loop]; rewrite bind_run, try_run, bind_run;
    destruct (emits_attempt fuel minion w) as [evs1 [Htrace1 Hall1]];
    destruct (handler_events_observed minion evs1 Hall1) as [Hf1 [Hb1 Hc1]];
    pose proof (Hfails w) as Hfail;
    destruct (attempt fuel minion w) as [[[] | e | c | ] w1] eqn:Hattempt;
    simpl in Hfail, Htrace1; try contradiction.
  - (* the last try fails *)
    run. rewrite on_failure_run.
    replace (Z.of_nat 1 - 1 =? 0) with true by reflexivity.
    destruct (shim_events_observed minion) as [Hfs [Hbs Hcs]].
    eexists. cbn [fst snd]. rewrite trace_extend, Htrace1, <- app_assoc.
    split; [reflexivity |].
    observe. rewrite Hf1, Hb1, Hfs, Hbs.
    split; [reflexivity |]. split.
    + repeat (apply Forall_app; split); simpl; auto.
    + left. split; reflexivity.
  - exists evs1. cbn [fst snd]. split; [assumption |].
    split; [assumption |]. split; [assumption |].
    right. split; [reflexivity |]. exists w. rewrite Hattempt. reflexivity.
  - (* a try fails and tries remain *)
    run. rewrite on_failure_run.
    replace (Z.of_nat (S (S k)) - 1) with (Z.of_nat (S k)) by lia.
    replace (Z.of_nat (S k) =? 0) with false by (symmetry; apply Z.eqb_neq; lia).
    run.
    destruct (shim_events_observed minion) as [Hfs [Hbs Hcs]].
    match goal with
    | |- context [work_loop n fuel minion _ ?w2] =>
        destruct (IH n w2 ltac:(lia)) as [evs2 [Htrace2 [Hb2 [Hc2 Hout]]]]
    end.
    rewrite trace_extend, Htrace1, <- !app_assoc in Htrace2.
    eexists. split; [exact Htrace2 |].
    observe. rewrite Hb1, Hbs, Hb2.
    split; [reflexivity |]. split.
    + repeat (apply Forall_app; split); simpl; auto.
    + destruct Hout as [[Hexit Hfl] | Hoof]; [left | right; exact Hoof].
      split; [exact Hexit |].
      observe. rewrite Hf1, Hfs, Hfl, countdown_S. reflexivity.
  - exists evs1. cbn [fst snd]. split; [assumption |].
    split; [assumption |]. split; [assumption |].
    right. split; [reflexivity |]. exists w. rewrite Hattempt. reflexivity.
Qed.

(** ** Attempts, by action *)

Lemma attempt_update_configs fuel minion :
  action options = "update_configs" ->
  attempt fuel minion =
  try_except (update_configs minion ;; restart_service fuel minion)
    (fun e => log ERROR (MsgUpdateFailed minion) ;; exit 1).
Proof. intro H. unfold attempt. rewrite H. reflexivity. Qed.

Lemma attempt_reboot_host fuel minion :
  action options = "reboot_host" ->
  attempt fuel minion =
  (restart_host fuel minion ;; wait_for_es_service minion).
Proof. intro H. unfold attempt. rewrite H. reflexivity. Qed.

Lemma attempt_update_system fuel minion :
  action options = "update_system" ->
  attempt fuel minion =
  (update_system minion ;;
   (if reboot options then restart_host fuel minion else ret tt) ;;
   wait_for_es_service minion).
Proof. intro H. unfold attempt. rewrite H. reflexivity. Qed.

Lemma outcomes_may_run_out {A : Type} x (m : M A) :
  outcomes x false m -> outcomes x true m.
Proof.
  intros H w. specialize (H w). destruct (fst (m w)); auto.
Qed.

(** With [reboot_host] or [update_system] no attempt completes. *)
Lemma fails_attempt fuel minion :
  action options = "reboot_host" \/ action options = "update_system" ->
  fails (attempt fuel minion).
Proof.
  intros [H | H].
  - rewrite (attempt_reboot_host _ _ H).
    apply fails_bind; [apply outcomes_restart_host |].
    intro. apply fails_raise.
  - rewrite (attempt_update_system _ _ H).
    apply fails_bind;
      [apply outcomes_may_run_out, outcomes_update_system |].
    intro. apply fails_bind.
    + destruct (reboot options);
        [apply outcomes_restart_host | apply outcomes_ret].
    + intro. apply fails_raise.
Qed.

(** Without the reboot flag an [update_system] attempt has no loop to wait
    in: it raises. *)
Lemma attempt_update_system_raises fuel minion w :
  action options = "update_system" -> reboot options = false ->
  exists e, fst (attempt fuel minion w) = Raise e.
Proof.
  intros Haction Hreboot.
  pose proof (fails_attempt fuel minion (or_intror Haction) w) as Hfails.
  assert (Hends : outcomes false false (attempt fuel minion)).
  { rewrite (attempt_update_system _ _ Haction), Hreboot.
    unfold wait_for_es_service.
    pose proof outcomes_update_system. effects. }
  specialize (Hends w).
  destruct (fst (attempt fuel minion w)) as [[] | e | c | ];
    try contradiction; try discriminate.
  exists e. reflexivity.
Qed.

(** ** The run, past the connectivity gate *)

Lemma main_after_ping fuel s its w :
  uid = 0 -> test options = false -> minions options = Some s ->
  env (ncalls w) = PyDict its -> down its = [] ->
  main fuel w =
  (rolling_actions fuel (split ","%char s) ;; log INFO MsgFinished)
    (extend w [Log INFO MsgPingingAll;
               Cmd (PyList (map PyStr (split ","%char s))) "test.ping" []
                 [("tgt_type", PyStr "list"); full_return];
               Log INFO MsgAllUp] 1).
Proof.
  intros Huid Htest Hminions Henv Hdown.
  unfold main. rewrite Huid, Htest, Hminions. cbn [Z.eqb negb].
  run. rewrite (ping_all_nodes_run _ its) by (rewrite ncalls_extend; exact Henv).
  rewrite Hdown. run. cbn [eq_bool Bool.eqb negb]. run.
  reflexivity.
Qed.

(** A run whose first node never completes an attempt stops there: it
    began work on that node only, called Salt for that node only, and
    either exited with status 1 after failures that left 2, 1 and 0
    retries, or has an attempt that is still running. *)
Lemma halts_at_first_node fuel s its minion rest w :
  uid = 0 -> test options = false -> minions options = Some s ->
  env (ncalls w) = PyDict its -> down its = [] ->
  split ","%char s = minion :: rest ->
  (3 <= fuel)%nat ->
  fails (attempt fuel minion) ->
  exists evs,
    trace (snd (main fuel w)) =
      (trace w ++
       [Log INFO MsgPingingAll;
        Cmd (PyList (map PyStr (minion :: rest))) "test.ping" []
          [("tgt_type", PyStr "list"); full_return];
        Log INFO MsgAllUp] ++ evs)%list /\
    begun evs = [minion] /\
    Forall (fun c => fst c = PyStr minion) (calls evs) /\
    ((fst (main fuel w) = Exit 1 /\
      failures evs = [(minion, 2); (minion, 1); (minion, 0)])
     \/
     (fst (main fuel w) = OutOfFuel /\
      exists w1, fst (attempt fuel minion w1) = OutOfFuel)).
Proof.
  intros Huid Htest Hminions Henv Hdown Hsplit Hfuel Hfails.
  rewrite (main_after_ping fuel s its w) by assumption.
  rewrite Hsplit. unfold rolling_actions. cbn [for_each]. run.
  match goal with
  | |- context [work_loop fuel fuel minion 3 ?w1] =>
      destruct (work_loop_exhausts fuel minion Hfails 2 fuel w1 Hfuel)
        as [evs [Htrace [Hbegun [Hcalls Hout]]]];
      change (Z.of_nat 3) with 3 in *;
      destruct (work_loop fuel fuel minion 3 w1) as [o w2] eqn:Hloop
  end.
  cbn [fst snd] in *. rewrite trace_extend in Htrace.
  exists (Log INFO (MsgBeginning minion) :: evs).
  assert (Hw2 : trace w2 =
                (trace w ++
                 [Log INFO MsgPingingAll;
                  Cmd (PyList (map PyStr (minion :: rest))) "test.ping" []
                    [("tgt_type", PyStr "list"); full_return];
                  Log INFO MsgAllUp] ++ Log INFO (MsgBeginning minion) :: evs)%list).
  { rewrite Htrace, <- app_assoc. reflexivity. }
  destruct Hout as [[Hexit Hfl] | [Hoof Hw1]]; subst o; cbn [fst snd].
  - split; [exact Hw2 |]. observe. rewrite Hbegun. split; [reflexivity |].
    split; [simpl; exact Hcalls |]. left. split; [reflexivity |].
    observe. rewrite Hfl. reflexivity.
  - split; [exact Hw2 |]. observe. rewrite Hbegun. split; [reflexivity |].
    split; [simpl; exact Hcalls |]. right. split; [reflexivity | exact Hw1].
Qed.

(** ** A host that answers but never reboots *)

Lemma stale_loop_runs_on node base timeout k :
  timeout > 0 -> stale_from k node base ->
  forall fuel w,
    (k <= ncalls w)%nat ->
    fst (restart_host_loop fuel node base timeout w) = OutOfFuel /\
    ncalls (snd (restart_host_loop fuel node base timeout w)) =
      (fuel + ncalls w)%nat.
Proof.
  intros Htimeout Hstale.
  induction fuel as [| fuel IH]; intros w Hw.
  - cbn [restart_host_loop].
    replace (timeout >? 0) with true by (symmetry; apply Z.gtb_lt; lia).
    split; reflexivity.
  - destruct (Hstale (ncalls w) Hw) as [on_node [cur [H1 [H2 [H3 H4]]]]].
    rewrite (stale_poll_keeps_timeout fuel node base timeout w on_node cur)
      by assumption.
    match goal with
    | |- context [restart_host_loop fuel node base timeout ?w1] =>
        destruct (IH w1) as [Hout Hcalls];
        [rewrite ncalls_extend; lia |]
    end.
    split; [exact Hout |]. rewrite Hcalls, ncalls_extend. lia.
Qed.

(** [restart_host] on such a host never ends, whatever fuel it is given. *)
Lemma restart_host_polls_forever node w on_node data base :
  getitem (env (ncalls w)) node = Ok on_node ->
  getitem on_node SALT_RETURN_KEY = Ok data ->
  truthy data = true ->
  getitem data "seconds" = Ok base ->
  stale_from (2 + ncalls w) node base ->
  forall fuel,
    fst (restart_host fuel node w) = OutOfFuel /\
    ncalls (snd (restart_host fuel node w)) = (fuel + 2 + ncalls w)%nat.
Proof.
  intros Hnode Hdata Htruthy Hbase Hstale fuel.
  unfold restart_host, do_salt_call. cbn [has_key assoc].
  run. rewrite Hnode. run. rewrite Hdata. run. rewrite Htruthy.
  cbn [negb]. run. rewrite Hnode. run. rewrite Hdata. run. rewrite Hbase.
  run.
  match goal with
  | |- context [restart_host_loop fuel node base 300 ?w1] =>
      destruct (stale_loop_runs_on node base 300 (2 + ncalls w)
                  ltac:(lia) Hstale fuel w1) as [Hout Hcalls];
      [rewrite ncalls_extend; lia |]
  end.
  split; [exact Hout |]. rewrite Hcalls, ncalls_extend. lia.
Qed.

(** A [reboot_host] run whose first node is such a host never halts. *)
Lemma stale_run_never_halts s its minion rest w on_node data base :
  uid = 0 -> test options = false -> minions options = Some s ->
  env (ncalls w) = PyDict its -> down its = [] ->
  split ","%char s = minion :: rest ->
  action options = "reboot_host" ->
  getitem (env (1 + ncalls w)) minion = Ok on_node ->
  getitem on_node SALT_RETURN_KEY = Ok data ->
  truthy data = true ->
  getitem data "seconds" = Ok base ->
  stale_from (3 + ncalls w) minion base ->
  forall fuel, fst (main fuel w) = OutOfFuel.
Proof.
  intros Huid Htest Hminions Henv Hdown Hsplit Haction
         Hnode Hdata Htruthy Hbase Hstale fuel.
  rewrite (main_after_ping fuel s its w) by assumption.
  rewrite Hsplit. unfold rolling_actions. cbn [for_each]. run.
  destruct fuel as [| fuel]; [reflexivity |].
  cbn [work_loop]. rewrite (attempt_reboot_host _ _ Haction). run.
  match goal with
  | |- context [restart_host ?f minion ?w1] =>
      destruct (restart_host_polls_forever minion w1 on_node data base
                  Hnode Hdata Htruthy Hbase Hstale f) as [Hout _];
      destruct (restart_host f minion w1) as [o w2]
  end.
  cbn [fst] in Hout. subst o. reflexivity.
Qed.

(** ** Updating the configuration *)

Lemma report_events_observed evs :
  Forall report_event evs ->
  failures evs = [] /\ begun evs = [] /\ calls evs = [].
Proof.
  induction 1 as [| e evs He _ [IHf [IHb IHc]]]; simpl; auto.
  destruct e as [tgt fn arg kw | t | lvl m | m]; simpl in *;
    try contradiction.
  destruct m; simpl in *; try contradiction; repeat split; assumption.
Qed.

(** [update_configs] makes one Salt call, the state run. *)
Lemma update_configs_calls node w :
  exists evs,
    trace (snd (update_configs node w)) = (trace w ++ evs)%list /\
    failures evs = [] /\
    calls evs = [(PyStr node, "state.sls")].
Proof.
  unfold update_configs. run.
  match goal with
  | |- context [check_salt_run_status ?v ?w1] =>
      destruct (emits_check_salt_run_status v w1) as [evs [Htrace Hall]];
      destruct (check_salt_run_status v w1) as [[[|] | e | c | ] w2]
  end;
    destruct (report_events_observed evs Hall) as [Hf [_ Hc]];
    cbn [fst snd negb] in *; run;
    rewrite trace_extend in Htrace;
    (eexists; split; [rewrite Htrace, <- app_assoc; reflexivity |]);
    observe; rewrite Hf, Hc; split; reflexivity.
Qed.

(** [restart_service] with [S k] tries left restarts at most [S k] times,
    and needs no more fuel than that. *)
Lemma restart_service_loop_calls node :
  forall fuel k w,
    exists evs,
      trace (snd (restart_service_loop fuel node (Z.of_nat (S k)) w)) =
        (trace w ++ evs)%list /\
      failures evs = [] /\
      (count_cmd "service.restart" evs <= S k)%nat /\
      count_cmd "state.sls" evs = 0%nat /\
      ((S k <= fuel)%nat ->
       fst (restart_service_loop fuel node (Z.of_nat (S k)) w) <> OutOfFuel).
Proof.
  induction fuel as [| fuel IH]; intros k w.
  - exists []. cbn. rewrite app_nil_r. repeat split; auto; lia.
  - cbn [restart_service_loop]. run.
    destruct (getitem (env (S (ncalls w))) node) as [status | e]; run;
      [destruct (truthy status); cbn [negb] |].
    + (* the service is up *)
      run. eexists. split; [apply trace_extend |].
      repeat split; auto; try (cbn; lia). discriminate.
    + (* the service is down *)
      replace (Z.of_nat (S k) - 1) with (Z.of_nat k) by lia.
      destruct k as [| k].
      * cbn [Z.of_nat Z.eqb]. run. eexists. split; [apply trace_extend |].
        repeat split; auto; try (cbn; lia). discriminate.
      * replace (Z.of_nat (S k) =? 0) with false
          by (symmetry; apply Z.eqb_neq; lia).
        run.
        match goal with
        | |- context [restart_service_loop fuel node _ ?w1] =>
            destruct (IH k w1) as [evs [Htrace [Hf [Hr [Hs Hfuel]]]]]
        end.
        rewrite trace_extend in Htrace.
        eexists. split; [rewrite Htrace, <- app_assoc; reflexivity |].
        rewrite !count_cmd_app. observe. rewrite Hf, Hs.
        repeat split; auto; try (cbn; lia).
        intro Hle. apply Hfuel. lia.
    + (* the status reply does not name the node *)
      eexists. split; [apply trace_extend |].
      repeat split; auto; try (cbn; lia). discriminate.
Qed.

(** An [update_configs] attempt runs the state once and restarts at most
    three times; it returns or exits, and never hands a failure to the
    retry loop of [main]. *)
Lemma update_configs_attempt fuel minion w :
  action options = "update_configs" -> (3 <= fuel)%nat ->
  exists evs,
    trace (snd (attempt fuel minion w)) = (trace w ++ evs)%list /\
    failures evs = [] /\
    count_cmd "state.sls" evs = 1%nat /\
    (count_cmd "service.restart" evs <= 3)%nat /\
    (fst (attempt fuel minion w) = Ret tt \/
     fst (attempt fuel minion w) = Exit 1).
Proof.
  intros Haction Hfuel.
  rewrite (attempt_update_configs _ _ Haction). rewrite try_run, bind_run.
  destruct (update_configs_calls minion w) as [evs1 [Htrace1 [Hf1 Hc1]]].
  assert (Hs1 : count_cmd "state.sls" evs1 = 1%nat)
    by (unfold count_cmd; rewrite Hc1; reflexivity).
  assert (Hr1 : count_cmd "service.restart" evs1 = 0%nat)
    by (unfold count_cmd; rewrite Hc1; reflexivity).
  pose proof (outcomes_update_configs minion w) as Hends1.
  destruct (update_configs minion w) as [[[] | e | c | ] w1];
    cbn [fst snd] in *; try discriminate.
  - unfold restart_service.
    destruct (restart_service_loop_calls minion fuel 2 w1)
      as [evs2 [Htrace2 [Hf2 [Hr2 [Hs2 Hfuel2]]]]].
    specialize (Hfuel2 Hfuel).
    pose proof (outcomes_restart_service_loop fuel minion 3 w1) as Hends2.
    change (Z.of_nat 3) with 3 in *.
    destruct (restart_service_loop fuel minion 3 w1) as [[[] | e | c | ] w2];
      cbn [fst snd] in *; try discriminate; try congruence.
    + exists (evs1 ++ evs2)%list.
      rewrite Htrace2, Htrace1, <- app_assoc, !count_cmd_app, failures_app.
      rewrite Hf1, Hf2, Hs1, Hs2, Hr1. repeat split; auto.
    + run. exists (evs1 ++ evs2 ++ [Log ERROR (MsgUpdateFailed minion)])%list.
      cbn [fst snd]. rewrite trace_extend, Htrace2, Htrace1, <- !app_assoc.
      rewrite !count_cmd_app, !failures_app, Hf1, Hf2, Hs1, Hs2, Hr1.
      repeat split; auto; cbn; lia.
  - run. exists (evs1 ++ [Log ERROR (MsgUpdateFailed minion)])%list.
    cbn [fst snd]. rewrite trace_extend, Htrace1, <- !app_assoc.
    rewrite !count_cmd_app, !failures_app, Hf1, Hs1, Hr1.
    repeat split; auto; cbn; lia.
Qed.

(** C3, as the code has it.  With [update_configs] a failure of the handler
    is not retried: the failed state run or the failed restart ends the run
    at once with status 1, and the retry budget of [main] is never touched.
    One attempt is made per node, so the state runs once and the service
    is restarted at most 3 times, the tries of [restart_service]. *)
Theorem update_configs_failure_is_final fuel n minion w :
  action options = "update_configs" -> (3 <= fuel)%nat ->
  (forall e w1,
      (update_configs minion ;; restart_service fuel minion) w =
        (Raise e, w1) ->
      work_loop (S n) fuel minion 3 w =
        (Exit 1, extend w1 [Log ERROR (MsgUpdateFailed minion)] 0))
  /\
  exists evs,
    trace (snd (work_loop (S n) fuel minion 3 w)) = (trace w ++ evs)%list /\
    failures evs = [] /\
    count_cmd "state.sls" evs = 1%nat /\
    (count_cmd "service.restart" evs <= 3)%nat /\
    (fst (work_loop (S n) fuel minion 3 w) = Ret tt \/
     fst (work_loop (S n) fuel minion 3 w) = Exit 1).
Proof.
  intros Haction Hfuel. split.
  - intros e w1 Hraise. cbn [work_loop].
    rewrite (attempt_update_configs _ _ Haction).
    rewrite bind_run, try_run, bind_run, try_run, Hraise. run. reflexivity.
  - destruct (update_configs_attempt fuel minion w Haction Hfuel)
      as [evs [Htrace [Hf [Hs [Hr Hout]]]]].
    exists evs. cbn [work_loop]. rewrite bind_run, try_run, bind_run.
    destruct (attempt fuel minion w) as [o w1]. cbn [fst snd] in *.
    destruct Hout as [Hout | Hout]; subst o; run; auto 10.
Qed.

(** ** The claims about the retry budget *)

(** C6, as the code has it.  Past the connectivity gate, a first node whose
    attempts all raise is attempted exactly 3 times: the failures logged
    leave 2, 1 and 0 retries, never less; then the run exits with status 1,
    having begun work on no other node and called Salt for no other node.
    This is the behaviour of every action but [update_configs], whose
    attempts do not raise: there the first failure of the handler ends the
    run with status 1 after that single invocation. *)
Theorem retry_budget_of_three fuel s its minion rest w :
  uid = 0 -> test options = false -> minions options = Some s ->
  env (ncalls w) = PyDict its -> down its = [] ->
  split ","%char s = minion :: rest ->
  (3 <= fuel)%nat ->
  let probe := Cmd (PyList (map PyStr (minion :: rest))) "test.ping" []
                 [("tgt_type", PyStr "list"); full_return] in
  ((forall w1, exists e, fst (attempt fuel minion w1) = Raise e) ->
   fst (main fuel w) = Exit 1 /\
   exists evs,
     trace (snd (main fuel w)) =
       (trace w ++
        [Log INFO MsgPingingAll; probe; Log INFO MsgAllUp] ++ evs)%list /\
     failures evs = [(minion, 2); (minion, 1); (minion, 0)] /\
     begun evs = [minion] /\
     Forall (fun c => fst c = PyStr minion) (calls evs))
  /\
  (action options = "update_configs" ->
   forall e w1,
     (update_configs minion ;; restart_service fuel minion)
       (extend w [Log INFO MsgPingingAll; probe; Log INFO MsgAllUp;
                  Log INFO (MsgBeginning minion)] 1) = (Raise e, w1) ->
     main fuel w =
       (Exit 1, extend w1 [Log ERROR (MsgUpdateFailed minion)] 0)).
Proof.
  intros Huid Htest Hminions Henv Hdown Hsplit Hfuel probe. split.
  - intro Hraise.
    assert (Hfails : fails (attempt fuel minion)).
    { intro w1. destruct (Hraise w1) as [e He]. rewrite He. exact I. }
    destruct (halts_at_first_node fuel s its minion rest w
                Huid Htest Hminions Henv Hdown Hsplit Hfuel Hfails)
      as [evs [Htrace [Hbegun [Hcalls [[Hexit Hfl] | [_ [w1 Hoof]]]]]]].
    + split; [exact Hexit |]. exists evs. auto.
    + destruct (Hraise w1) as [e He]. congruence.
  - intros Haction e w1 Hraise.
    rewrite (main_after_ping fuel s its w) by assumption.
    rewrite Hsplit. unfold rolling_actions. cbn [for_each]. run.
    destruct fuel as [| fuel]; [lia |].
    cbn [work_loop]. rewrite (attempt_update_configs _ _ Haction).
    rewrite bind_run, try_run, bind_run, try_run.
    unfold probe in Hraise. rewrite Hraise. run. reflexivity.
Qed.

(** C2, as the code has it.  With [reboot_host] or [update_system] no
    attempt completes: it raises before the undefined name is reached, or
    reaches it and raises [NameError], or is still waiting for the reboot.
    So a run that halts does so with status 1 on the first node, after
    failures that left 2, 1 and 0 retries; the only other course is an
    attempt that never ends.  Without a reboot to wait for ([update_system]
    with no reboot flag) the run always halts that way. *)
Theorem undefined_wait_fails_every_attempt fuel s its minion rest w :
  action options = "reboot_host" \/ action options = "update_system" ->
  uid = 0 -> test options = false -> minions options = Some s ->
  env (ncalls w) = PyDict its -> down its = [] ->
  split ","%char s = minion :: rest ->
  (3 <= fuel)%nat ->
  fails (attempt fuel minion)
  /\
  (forall w1 w2,
      action options = "reboot_host" ->
      restart_host fuel minion w1 = (Ret tt, w2) ->
      attempt fuel minion w1 = (Raise (NameError "wait_for_es_service"), w2))
  /\
  (forall w1 w2,
      action options = "update_system" ->
      (update_system minion ;;
       (if reboot options then restart_host fuel minion else ret tt)) w1 =
        (Ret tt, w2) ->
      attempt fuel minion w1 = (Raise (NameError "wait_for_es_service"), w2))
  /\
  (exists evs,
      trace (snd (main fuel w)) =
        (trace w ++
         [Log INFO MsgPingingAll;
          Cmd (PyList (map PyStr (minion :: rest))) "test.ping" []
            [("tgt_type", PyStr "list"); full_return];
          Log INFO MsgAllUp] ++ evs)%list /\
      begun evs = [minion] /\
      Forall (fun c => fst c = PyStr minion) (calls evs) /\
      ((fst (main fuel w) = Exit 1 /\
        failures evs = [(minion, 2); (minion, 1); (minion, 0)])
       \/
       (fst (main fuel w) = OutOfFuel /\
        exists w1, fst (attempt fuel minion w1) = OutOfFuel)))
  /\
  (action options = "update_system" -> reboot options = false ->
   fst (main fuel w) = Exit 1).
Proof.
  intros Haction Huid Htest Hminions Henv Hdown Hsplit Hfuel.
  pose proof (fails_attempt fuel minion Haction) as Hfails.
  pose proof (halts_at_first_node fuel s its minion rest w
                Huid Htest Hminions Henv Hdown Hsplit Hfuel Hfails)
    as Hhalts.
  split; [exact Hfails |].
  split; [| split; [| split; [exact Hhalts |]]].
  - intros w1 w2 Hact Hret. rewrite (attempt_reboot_host _ _ Hact).
    rewrite bind_run, Hret. reflexivity.
  - intros w1 w2 Hact Hret. rewrite (attempt_update_system _ _ Hact).
    rewrite bind_run in Hret. rewrite bind_run.
    destruct (update_system minion w1) as [[[] | e | c | ] w3];
      try discriminate.
    rewrite bind_run, Hret. reflexivity.
  - intros Hact Hreboot.
    destruct Hhalts as [evs [_ [_ [_ [[Hexit _] | [_ [w1 Hoof]]]]]]];
      [exact Hexit |].
    destruct (attempt_update_system_raises fuel minion w1 Hact Hreboot)
      as [e He].
    congruence.
Qed.

(** A reply to the first [status.uptime] that carries no uptime makes
    [restart_host], and with it a [reboot_host] attempt, raise before any
    reboot is ordered. *)
Lemma restart_host_without_baseline fuel node w e0 :
  uptime_seconds (env (ncalls w)) node = Err e0 ->
  exists e, fst (restart_host fuel node w) = Raise e.
Proof.
  intro H. unfold uptime_seconds in H.
  unfold restart_host, do_salt_call. cbn [has_key assoc]. run.
  destruct (getitem (env (ncalls w)) node) as [on_node |] eqn:Hnode; run;
    [| eexists; reflexivity].
  destruct (getitem on_node SALT_RETURN_KEY) as [data |] eqn:Hdata; run;
    [| eexists; reflexivity].
  destruct (truthy data); cbn [negb]; run; [| eexists; reflexivity].
  rewrite Hnode. run. rewrite Hdata. run. rewrite H. run.
  eexists; reflexivity.
Qed.

Lemma attempt_without_baseline fuel minion w e0 :
  action options = "reboot_host" ->
  uptime_seconds (env (ncalls w)) minion = Err e0 ->
  exists e, fst (attempt fuel minion w) = Raise e.
Proof.
  intros Haction H. rewrite (attempt_reboot_host _ _ Haction), bind_run.
  destruct (restart_host_without_baseline fuel minion w e0 H) as [e He].
  destruct (restart_host fuel minion w) as [o w1]. cbn [fst] in He. subst o.
  exists e. reflexivity.
Qed.

(** * Further properties of the script *)

(** ** Before the rolling actions *)

(** X1.  Without root permissions [main] prints its complaint and exits
    with status 1: it logs nothing and makes no Salt call, whatever the
    options. *)
Theorem main_requires_root fuel w :
  uid <> 0 ->
  main fuel w = (Exit 1, extend w [Print MsgNeedRoot] 0).
Proof.
  intro Huid. unfold main.
  replace (uid =? 0) with false by (symmetry; apply Z.eqb_neq; exact Huid).
  cbn [negb]. run. reflexivity.
Qed.

(** X2.  A dry run ([-t]) logs the targets, in the order given, and exits
    with status 0 before the ping: no Salt call is made and no action is
    taken, whatever the action chosen. *)
Theorem dry_run_lists_targets fuel s w :
  uid = 0 -> test options = true -> minions options = Some s ->
  main fuel w =
  (Exit 0,
   extend w (Log INFO MsgTargeting ::
             map (fun minion => Log INFO (MsgTarget minion))
               (split ","%char s)) 0).
Proof.
  intros Huid Htest Hminions. unfold main.
  rewrite Huid, Htest, Hminions. cbn [Z.eqb negb]. run.
  rewrite (for_each_log INFO MsgTarget). run. reflexivity.
Qed.

(** X3.  When no target list is given ([-n] left out), [main] fails on
    [options.minions.split]: it raises [AttributeError] before the dry-run
    listing and before the ping, having done nothing. *)
Theorem missing_target_list_raises fuel w :
  uid = 0 -> minions options = None ->
  main fuel w = (Raise (AttributeError "split"), w).
Proof.
  intros Huid Hminions. unfold main.
  rewrite Huid, Hminions. cbn [Z.eqb negb]. run. reflexivity.
Qed.

(** ** The order of the rolling actions *)

(** An event that is not the "Beginning work" line of [main]. *)
Definition not_beginning (e : Event) : Prop := begun [e] = [].

Lemma handler_event_not_beginning minion e :
  handler_event minion e -> not_beginning e.
Proof.
  unfold not_beginning.
  destruct e as [tgt fn arg kw | t | lvl m | m]; simpl; auto.
  destruct m; simpl; auto; contradiction.
Qed.

Lemma not_beginning_begun evs : Forall not_beginning evs -> begun evs = [].
Proof.
  induction 1 as [| e evs He _ IH]; [reflexivity |].
  rewrite begun_cons, He, IH. reflexivity.
Qed.

Lemma emits_on_failure minion tries e :
  emits not_beginning (on_failure minion tries e).
Proof.
  unfold on_failure. effects; reflexivity.
Qed.

Lemma emits_work_loop n fuel minion :
  forall tries, emits not_beginning (work_loop n fuel minion tries).
Proof.
  induction n as [| n IH]; intro tries; cbn [work_loop].
  - apply emits_out_of_fuel.
  - assert (Ha : emits not_beginning (attempt fuel minion)).
    { apply (emits_weaken (handler_event minion));
        [apply handler_event_not_beginning | apply emits_attempt]. }
    pose proof emits_on_failure.
    apply emits_bind.
    + apply emits_try; [apply emits_bind; [exact Ha | intro; apply emits_ret] |].
      intro e. apply emits_bind; [apply emits_on_failure |].
      intro. apply emits_ret.
    + intros [success tries']. destruct success; [apply emits_ret | apply IH].
Qed.

(** X4.  The fleet is worked on strictly in the order supplied: whatever
    the action, the replies and the fuel, the nodes on which work began
    are a prefix of the target list, each begun once; and when the loop
    returns normally that prefix is the whole list. *)
Theorem nodes_are_begun_in_order fuel minions w :
  exists evs rest,
    trace (snd (rolling_actions fuel minions w)) = (trace w ++ evs)%list /\
    minions = (begun evs ++ rest)%list /\
    (fst (rolling_actions fuel minions w) = Ret tt -> rest = []).
Proof.
  revert w. induction minions as [| minion ms IH]; intro w.
  - exists [], []. cbn. rewrite app_nil_r. auto.
  - unfold rolling_actions. cbn [for_each]. run.
    fold (rolling_actions fuel ms).
    match goal with
    | |- context [work_loop fuel fuel minion 3 ?w1] =>
        destruct (emits_work_loop fuel fuel minion 3 w1) as [evs1 [Ht1 Hq1]];
        destruct (work_loop fuel fuel minion 3 w1) as [[[] | e | c | ] w2]
    end;
      cbn [fst snd] in *; rewrite trace_extend in Ht1;
      pose proof (not_beginning_begun evs1 Hq1) as Hb1.
    + destruct (IH w2) as [evs2 [rest [Ht2 [Hms Hret]]]].
      exists ((Log INFO (MsgBeginning minion) :: evs1) ++ evs2)%list, rest.
      split; [rewrite Ht2, Ht1, <- !app_assoc; reflexivity |].
      rewrite begun_app, begun_cons, Hb1. cbn. rewrite Hms at 1.
      split; [reflexivity | exact Hret].
    + exists (Log INFO (MsgBeginning minion) :: evs1), ms.
      split; [rewrite Ht1, <- app_assoc; reflexivity |].
      rewrite begun_cons, Hb1. cbn. split; [reflexivity | discriminate].
    + exists (Log INFO (MsgBeginning minion) :: evs1), ms.
      split; [rewrite Ht1, <- app_assoc; reflexivity |].
      rewrite begun_cons, Hb1. cbn. split; [reflexivity | discriminate].
    + exists (Log INFO (MsgBeginning minion) :: evs1), ms.
      split; [rewrite Ht1, <- app_assoc; reflexivity |].
      rewrite begun_cons, Hb1. cbn. split; [reflexivity | discriminate].
Qed.

(** ** A whole run of [update_configs] *)

(** One node's share of a run under [update_configs]: the line that
    begins the work on it, then what the handlers did, all of it aimed at
    that node, with no failed attempt logged, the state run exactly once
    and the service restarted at most 3 times. *)
Definition single_shot (minion : string) (share : list Event) : Prop :=
  exists work,
    share = Log INFO (MsgBeginning minion) :: work /\
    Forall (handler_event minion) work /\
    count_cmd "state.sls" work = 1%nat /\
    (count_cmd "service.restart" work <= 3)%nat.

Lemma work_loop_update_configs fuel n minion w :
  action options = "update_configs" -> (3 <= fuel)%nat ->
  exists evs,
    trace (snd (work_loop (S n) fuel minion 3 w)) = (trace w ++ evs)%list /\
    Forall (handler_event minion) evs /\
    count_cmd "state.sls" evs = 1%nat /\
    (count_cmd "service.restart" evs <= 3)%nat /\
    (fst (work_loop (S n) fuel minion 3 w) = Ret tt \/
     fst (work_loop (S n) fuel minion 3 w) = Exit 1).
Proof.
  intros Haction Hfuel.
  destruct (update_configs_attempt fuel minion w Haction Hfuel)
    as [evs [Htrace [Hf [Hs [Hr Hout]]]]].
  destruct (emits_attempt fuel minion w) as [evs' [Htrace' Hall]].
  assert (evs' = evs)
    by (apply (app_inv_head (trace w)); congruence).
  subst evs'.
  exists evs. cbn [work_loop]. rewrite bind_run, try_run, bind_run.
  destruct (attempt fuel minion w) as [o w1]. cbn [fst snd] in *.
  destruct Hout as [Hout | Hout]; subst o; run; auto 10.
Qed.

(** X5.  Under [update_configs] every node is attempted once, for a fleet
    of any size and whatever the nodes answer.  The run splits into one
    share per node on which work began, in the order of the target list;
    in each share no failed attempt is logged, the state is run exactly
    once and the service restarted at most 3 times, all on that node; and
    the loop either completes, having worked on every target, or exits
    with status 1. *)
Theorem update_configs_run_is_single_shot fuel minions w :
  action options = "update_configs" -> (3 <= fuel)%nat ->
  exists done rest shares,
    minions = (done ++ rest)%list /\
    Forall2 single_shot done shares /\
    trace (snd (rolling_actions fuel minions w)) =
      (trace w ++ List.concat shares)%list /\
    (fst (rolling_actions fuel minions w) = Ret tt /\ rest = [] \/
     fst (rolling_actions fuel minions w) = Exit 1).
Proof.
  intros Haction Hfuel.
  destruct fuel as [| n]; [lia |].
  revert w. induction minions as [| minion ms IH]; intro w.
  - exists [], [], []. cbn. rewrite app_nil_r.
    split; [reflexivity |]. split; [constructor | auto].
  - unfold rolling_actions. cbn [for_each]. run.
    fold (rolling_actions (S n) ms).
    match goal with
    | |- context [work_loop (S n) (S n) minion 3 ?w1] =>
        destruct (work_loop_update_configs (S n) n minion w1 Haction Hfuel)
          as [evs1 [Ht1 [Hall1 [Hs1 [Hr1 Hout1]]]]];
        destruct (work_loop (S n) (S n) minion 3 w1) as [o w2]
    end.
    cbn [fst snd] in *. rewrite trace_extend in Ht1.
    assert (Hshare : single_shot minion (Log INFO (MsgBeginning minion) :: evs1))
      by (exists evs1; auto).
    destruct Hout1 as [Hout1 | Hout1]; subst o; cbn [fst snd].
    + destruct (IH w2) as [done [rest [shares [Hms [Hshares [Ht2 Hout2]]]]]].
      exists (minion :: done), rest,
        ((Log INFO (MsgBeginning minion) :: evs1) :: shares).
      split; [rewrite Hms; reflexivity |].
      split; [constructor; assumption |].
      split; [| exact Hout2].
      rewrite Ht2, Ht1. cbn [List.concat]. rewrite <- !app_assoc. reflexivity.
    + exists [minion], ms, [Log INFO (MsgBeginning minion) :: evs1].
      split; [reflexivity |].
      split; [repeat constructor; assumption |].
      split; [| right; reflexivity].
      rewrite Ht1. cbn [List.concat]. rewrite app_nil_r, <- app_assoc.
      reflexivity.
Qed.

(** ** More on waiting for a reboot *)

(** The time slept in a trace. *)
Fixpoint slept (evs : list Event) : Z :=
  match evs with
  | [] => 0
  | Sleep t :: rest => t + slept rest
  | _ :: rest => slept rest
  end.

(** The polls of a trace that got no response. *)
Fixpoint unanswered (evs : list Event) : nat :=
  match evs with
  | [] => 0%nat
  | Log _ (MsgNoResponse _ _) :: rest => S (unanswered rest)
  | _ :: rest => unanswered rest
  end.

(** An event that is not the order to reboot. *)
Definition not_reboot (e : Event) : Prop :=
  count_cmd "system.reboot" [e] = 0%nat.

Lemma slept_app evs1 evs2 : slept (evs1 ++ evs2) = slept evs1 + slept evs2.
Proof.
  induction evs1 as [| e evs1 IH]; [reflexivity |].
  destruct e; cbn [app slept]; rewrite IH; lia.
Qed.

Lemma unanswered_app evs1 evs2 :
  unanswered (evs1 ++ evs2) = (unanswered evs1 + unanswered evs2)%nat.
Proof.
  induction evs1 as [| e evs1 IH]; [reflexivity |].
  destruct e as [? ? ? ? | ? | ? m | ?]; cbn [app unanswered]; try exact IH.
  destruct m; cbn [unanswered]; rewrite IH; reflexivity.
Qed.

Lemma count_cmd_cons fn e evs :
  count_cmd fn (e :: evs) = (count_cmd fn [e] + count_cmd fn evs)%nat.
Proof. apply (count_cmd_app fn [e] evs). Qed.

Lemma not_reboot_count evs :
  Forall not_reboot evs -> count_cmd "system.reboot" evs = 0%nat.
Proof.
  induction 1 as [| e evs He _ IH]; [reflexivity |].
  rewrite count_cmd_cons, He, IH. reflexivity.
Qed.

Lemma emits_polls fuel node uptime :
  forall timeout,
    emits not_reboot (restart_host_loop fuel node uptime timeout).
Proof.
  induction fuel as [| fuel IH]; intro timeout; cbn [restart_host_loop];
    destruct (timeout >? 0); effects; reflexivity.
Qed.

Lemma seconds_make_truthy data base :
  getitem data "seconds" = Ok base -> truthy data = true.
Proof.
  destruct data as [| | | | | d]; try discriminate.
  destruct d; [discriminate | reflexivity].
Qed.

(** X6.  [restart_host] orders the reboot exactly once when the first
    [status.uptime] reply carries an uptime for the node, and never when it
    does not: then it raises after that single Salt call, and the host is
    left as it was. *)
Theorem reboot_needs_a_baseline fuel node w :
  exists evs,
    trace (snd (restart_host fuel node w)) = (trace w ++ evs)%list /\
    match uptime_seconds (env (ncalls w)) node with
    | Ok _ => count_cmd "system.reboot" evs = 1%nat
    | Err _ =>
        count_cmd "system.reboot" evs = 0%nat /\
        calls evs = [(PyStr node, "status.uptime")] /\
        exists e, fst (restart_host fuel node w) = Raise e
    end.
Proof.
  unfold restart_host, do_salt_call, uptime_seconds. cbn [has_key assoc].
  run.
  destruct (getitem (env (ncalls w)) node) as [on_node |] eqn:Hnode; run;
    [| eexists; split; [apply trace_extend |];
       repeat split; eexists; reflexivity].
  destruct (getitem on_node SALT_RETURN_KEY) as [data |] eqn:Hdata; run;
    [| eexists; split; [apply trace_extend |];
       repeat split; eexists; reflexivity].
  destruct (getitem data "seconds") as [base |] eqn:Hbase.
  - rewrite (seconds_make_truthy data base Hbase). cbn [negb]. run.
    rewrite Hnode. run. rewrite Hdata. run. rewrite Hbase. run.
    match goal with
    | |- context [restart_host_loop fuel node base 300 ?w1] =>
        destruct (emits_polls fuel node base 300 w1) as [evs [Htrace Hall]]
    end.
    rewrite trace_extend, <- app_assoc in Htrace.
    eexists. split; [exact Htrace |].
    rewrite count_cmd_app, (not_reboot_count evs Hall). reflexivity.
  - destruct (truthy data); cbn [negb]; run.
    + rewrite Hnode. run. rewrite Hdata. run. rewrite Hbase. run.
      eexists. split; [apply trace_extend |].
      repeat split; eexists; reflexivity.
    + eexists. split; [apply trace_extend |].
      repeat split; eexists; reflexivity.
Qed.

(** Polls that, from the [k]-th Salt call on, get no response from the
    node. *)
Definition silent_from (k : nat) (node : string) : Prop :=
  forall n, (k <= n)%nat ->
    exists on_node,
      getitem (env n) node = Ok on_node /\
      not_responding on_node = Ok true.

Lemma restart_host_loop_timed_out fuel node uptime timeout w :
  timeout <= 0 ->
  restart_host_loop fuel node uptime timeout w =
  (Raise (Exception None), extend w [Log ERROR (MsgRebootTimedOut node)] 0).
Proof.
  intro H.
  assert (Hgt : (timeout >? 0) = false)
    by (destruct (timeout >? 0) eqn:E; [apply Z.gtb_lt in E; lia | reflexivity]).
  destruct fuel; cbn [restart_host_loop]; rewrite Hgt; run; reflexivity.
Qed.

Lemma silent_loop_times_out node uptime k :
  silent_from k node ->
  forall j fuel w,
    (j <= fuel)%nat -> (k <= ncalls w)%nat ->
    exists evs,
      restart_host_loop fuel node uptime (10 * Z.of_nat j) w =
        (Raise (Exception None), extend w evs j) /\
      count_cmd "status.uptime" evs = j /\
      count_cmd "system.reboot" evs = 0%nat /\
      slept evs = 10 * Z.of_nat j /\
      unanswered evs = j.
Proof.
  intro Hsilent. induction j as [| j IH]; intros fuel w Hfuel Hw.
  - rewrite restart_host_loop_timed_out by reflexivity.
    eexists. split; [reflexivity |]. repeat split.
  - destruct fuel as [| fuel]; [lia |].
    destruct (Hsilent (ncalls w) Hw) as [on_node [Hnode Hresp]].
    cbn [restart_host_loop].
    replace ((10 * Z.of_nat (S j)) >? 0) with true
      by (symmetry; apply Z.gtb_lt; lia).
    run. rewrite Hnode. run. rewrite Hresp. run.
    replace (10 * Z.of_nat (S j) - period) with (10 * Z.of_nat j)
      by (unfold period; lia).
    match goal with
    | |- context [restart_host_loop fuel node uptime _ ?w1] =>
        destruct (IH fuel w1) as [evs [Hrun [Hc [Hr [Hs Hu]]]]];
        [lia | rewrite ncalls_extend; lia |]
    end.
    rewrite Hrun, extend_extend.
    eexists. split; [f_equal; f_equal; lia |].
    rewrite !count_cmd_app, slept_app, unanswered_app, Hc, Hr, Hs, Hu.
    match goal with
    | |- context [slept ?prefix + _] =>
        change (slept prefix) with 10;
        change (unanswered prefix) with 1%nat;
        change (count_cmd "status.uptime" prefix) with 1%nat;
        change (count_cmd "system.reboot" prefix) with 0%nat
    end.
    repeat split; lia.
Qed.

(** X7.  A host that stops answering once the reboot is ordered is given
    up after exactly 30 polls and 300 time units of sleep: [restart_host]
    then raises its plain [Exception], having ordered the reboot once.
    Thirty iterations of fuel are enough. *)
Theorem silent_host_is_given_up_after_30_polls fuel node w on_node data base :
  getitem (env (ncalls w)) node = Ok on_node ->
  getitem on_node SALT_RETURN_KEY = Ok data ->
  getitem data "seconds" = Ok base ->
  silent_from (2 + ncalls w) node ->
  (30 <= fuel)%nat ->
  exists evs,
    restart_host fuel node w = (Raise (Exception None), extend w evs 32) /\
    count_cmd "status.uptime" evs = 31%nat /\
    count_cmd "system.reboot" evs = 1%nat /\
    unanswered evs = 30%nat /\
    slept evs = 300.
Proof.
  intros Hnode Hdata Hbase Hsilent Hfuel.
  unfold restart_host, do_salt_call. cbn [has_key assoc].
  run. rewrite Hnode. run. rewrite Hdata. run.
  rewrite (seconds_make_truthy data base Hbase). cbn [negb]. run.
  rewrite Hnode. run. rewrite Hdata. run. rewrite Hbase. run.
  match goal with
  | |- context [restart_host_loop fuel node base 300 ?w1] =>
      destruct (silent_loop_times_out node base (2 + ncalls w) Hsilent
                  30 fuel w1 Hfuel) as [evs [Hrun [Hc [Hr [Hs Hu]]]]];
      [rewrite ncalls_extend; lia |]
  end.
  change (10 * Z.of_nat 30) with 300 in *.
  rewrite Hrun, extend_extend.
  eexists. split; [reflexivity |].
  rewrite !count_cmd_app, slept_app, unanswered_app, Hc, Hr, Hs, Hu.
  repeat split.
Qed.

Lemma unanswered_polls_bounded fuel node uptime :
  forall timeout w,
    exists evs,
      trace (snd (restart_host_loop fuel node uptime timeout w)) =
        (trace w ++ evs)%list /\
      10 * Z.of_nat (unanswered evs) <= Z.max 0 (timeout + 9).
Proof.
  induction fuel as [| fuel IH]; intros timeout w.
  - cbn [restart_host_loop]. destruct (timeout >? 0); run.
    + exists []. cbn. rewrite app_nil_r. split; [reflexivity | lia].
    + eexists. split; [apply trace_extend |]. cbn. lia.
  - cbn [restart_host_loop]. destruct (timeout >? 0) eqn:Hgt; run;
      [| eexists; split; [apply trace_extend |]; cbn; lia].
    apply Z.gtb_lt in Hgt.
    destruct (getitem (env (ncalls w)) node) as [on_node |]; run;
      [| eexists; split; [apply trace_extend |]; cbn; lia].
    destruct (not_responding on_node) as [[|] |]; run;
      [| | eexists; split; [apply trace_extend |]; cbn; lia].
    + match goal with
      | |- context [restart_host_loop fuel node uptime ?t ?w1] =>
          destruct (IH t w1) as [evs [Htrace Hbound]]
      end.
      rewrite trace_extend, <- app_assoc in Htrace.
      eexists. split; [exact Htrace |].
      rewrite unanswered_app. cbn [unanswered]. unfold period in *. lia.
    + destruct (getitem on_node SALT_RETURN_KEY) as [data |]; run;
        [| eexists; split; [apply trace_extend |]; cbn; lia].
      destruct (getitem data "seconds") as [cur |]; run;
        [| eexists; split; [apply trace_extend |]; cbn; lia].
      destruct (lt cur uptime) as [[|] |]; run;
        try (eexists; split; [apply trace_extend |]; cbn; lia).
      match goal with
      | |- context [restart_host_loop fuel node uptime ?t ?w1] =>
          destruct (IH t w1) as [evs [Htrace Hbound]]
      end.
      rewrite trace_extend, <- app_assoc in Htrace.
      eexists. split; [exact Htrace |].
      rewrite unanswered_app. cbn [unanswered]. lia.
Qed.

(** X8.  Whatever the host answers and however long [restart_host] runs,
    it tolerates at most 30 unanswered polls: each one uses up a period of
    the 300-unit budget. *)
Theorem at_most_30_unanswered_polls fuel node w :
  exists evs,
    trace (snd (restart_host fuel node w)) = (trace w ++ evs)%list /\
    (unanswered evs <= 30)%nat.
Proof.
  unfold restart_host, do_salt_call. cbn [has_key assoc]. run.
  destruct (getitem (env (ncalls w)) node) as [on_node |] eqn:Hnode; run;
    [| eexists; split; [apply trace_extend |]; cbn; lia].
  destruct (getitem on_node SALT_RETURN_KEY) as [data |] eqn:Hdata; run;
    [| eexists; split; [apply trace_extend |]; cbn; lia].
  destruct (truthy data); cbn [negb]; run;
    [| eexists; split; [apply trace_extend |]; cbn; lia].
  rewrite Hnode. run. rewrite Hdata. run.
  destruct (getitem data "seconds") as [base |]; run;
    [| eexists; split; [apply trace_extend |]; cbn; lia].
  match goal with
  | |- context [restart_host_loop fuel node base 300 ?w1] =>
      destruct (unanswered_polls_bounded fuel node base 300 w1)
        as [evs [Htrace Hbound]]
  end.
  rewrite trace_extend, <- app_assoc in Htrace.
  eexists. split; [exact Htrace |].
  rewrite unanswered_app. cbn [unanswered]. lia.
Qed.

Lemma restart_host_loop_returns_on_response fuel :
  forall node uptime timeout w w',
    restart_host_loop fuel node uptime timeout w = (Ret tt, w') ->
    exists on_node,
      getitem (env (pred (ncalls w'))) node = Ok on_node /\
      not_responding on_node = Ok false.
Proof.
  induction fuel as [| fuel IH]; intros node uptime timeout w w' H;
    simpl in H; destruct (timeout >? 0); run_in H; try discriminate.
  repeat (run_in H; case_in H; run_in H; try discriminate).
  - apply IH in H. exact H.
  - inversion H; subst w'. rewrite ncalls_extend. simpl.
    eexists. split; [eassumption | subst; assumption].
  - apply IH in H. exact H.
Qed.

(** X9.  [restart_host] takes a reboot as confirmed only from a probe that
    responded: the node's entry in the last reply is not [False], and under
    salt-ssh it carries a return code equal to 0. *)
Theorem reboot_confirmed_only_by_a_response fuel node w w' :
  restart_host fuel node w = (Ret tt, w') ->
  exists on_node,
    getitem (env (pred (ncalls w'))) node = Ok on_node /\
    is_False on_node = false /\
    (use_ssh options = true ->
     exists retcode,
       get on_node "retcode" = Ok retcode /\ ne_zero retcode = false).
Proof.
  intro H. unfold restart_host, do_salt_call in H. simpl has_key in H.
  repeat (run_in H; case_in H; run_in H; try discriminate).
  apply restart_host_loop_returns_on_response in H.
  destruct H as [on_node [Hnode Hresp]].
  exists on_node. split; [exact Hnode |].
  unfold not_responding in Hresp.
  destruct (use_ssh options).
  - destruct (get on_node "retcode") as [retcode |]; [| discriminate].
    destruct (ne_zero retcode) eqn:Hrc; [discriminate |].
    injection Hresp as Hfalse. split; [exact Hfalse |].
    intros _. exists retcode. auto.
  - injection Hresp as Hfalse. split; [exact Hfalse | discriminate].
Qed.

(** ** More on Salt calls and their interpretation *)

(** X10.  What [do_salt_call] returns is the reply itself, after exactly
    one Salt call, and only when the reply holds return data for the target
    that is not empty.  A ['fun_args'] keyword never reaches Salt: the call
    raises [NameError] first. *)
Theorem do_salt_call_returns_data target function kwargs w :
  (forall r w',
      do_salt_call target function kwargs w = (Ret r, w') ->
      has_key kwargs "fun_args" = false /\
      r = env (ncalls w) /\
      w' = extend w [Cmd (PyStr target) function [] [full_return]] 1 /\
      exists on_target data,
        getitem r target = Ok on_target /\
        getitem on_target SALT_RETURN_KEY = Ok data /\
        truthy data = true)
  /\
  (has_key kwargs "fun_args" = true ->
   do_salt_call target function kwargs w = (Raise (NameError "fun_args"), w)).
Proof.
  unfold do_salt_call. split.
  - intros r w' H.
    destruct (has_key kwargs "fun_args"); run_in H; [discriminate |].
    destruct (getitem (env (ncalls w)) target) as [on_target |] eqn:Hon;
      run_in H; [| discriminate].
    destruct (getitem on_target SALT_RETURN_KEY) as [data |] eqn:Hdata;
      run_in H; [| discriminate].
    destruct (truthy data) eqn:Htruthy; cbn [negb] in H; run_in H;
      [| discriminate].
    inversion H; subst. repeat split. exists on_target, data. auto.
  - intro Hkey. rewrite Hkey. run. reflexivity.
Qed.

Lemma all_succeeded_approved ret_data minions w :
  Forall (fun minion =>
            exists on_minion payload,
              getitem ret_data minion = Ok on_minion /\
              getitem on_minion SALT_RETURN_KEY = Ok payload /\
              state_checker payload = true) minions ->
  all_succeeded ret_data minions true w = (Ret true, w).
Proof.
  induction 1 as [| minion rest [on_minion [payload [H1 [H2 H3]]]] _ IH];
    cbn [all_succeeded]; [reflexivity |].
  run. rewrite H1. run. rewrite H2. run. rewrite H3. exact IH.
Qed.

Lemma all_succeeded_stays_failed ret_data minions w :
  Forall (fun minion =>
            exists on_minion payload,
              getitem ret_data minion = Ok on_minion /\
              getitem on_minion SALT_RETURN_KEY = Ok payload) minions ->
  all_succeeded ret_data minions false w = (Ret false, w).
Proof.
  induction 1 as [| minion rest [on_minion [payload [H1 H2]]] _ IH];
    cbn [all_succeeded]; [reflexivity |].
  run. rewrite H1. run. rewrite H2. run.
  destruct (state_checker payload); exact IH.
Qed.

(** X11.  A result in which Salt's checker approves the return data of
    every target is a success, for any number of targets: nothing is
    logged but the debug line and no state is looked at.  A result with no
    target at all is such a result. *)
Theorem approved_run_is_a_success d w :
  Forall (fun minion =>
            exists on_minion payload,
              getitem (PyDict d) minion = Ok on_minion /\
              getitem on_minion SALT_RETURN_KEY = Ok payload /\
              state_checker payload = true) (map fst d) ->
  check_salt_run_status (PyDict d) w =
  (Ret true, extend w [Log DEBUG (MsgChecking (PyDict d))] 0).
Proof.
  intro H. unfold check_salt_run_status. run. cbn [keys]. run.
  rewrite (all_succeeded_approved _ _ _ H). run. reflexivity.
Qed.

(** X12.  Return data that is neither a list nor a mapping (an error
    string, [None]) and that Salt's checker rejects is not classified:
    looking for its states raises, [AttributeError] for want of [items]. *)
Theorem odd_payload_raises minion entry payload e w :
  assoc SALT_RETURN_KEY entry = Some payload ->
  state_checker payload = false ->
  is_list payload = false ->
  items payload = Err e ->
  let ret_data := PyDict [(minion, PyDict entry)] in
  check_salt_run_status ret_data w =
  (Raise e, extend w [Log DEBUG (MsgChecking ret_data)] 0).
Proof.
  intros Hentry Hchk Hlist Hitems ret_data.
  unfold check_salt_run_status, ret_data.
  repeat first [ progress run | progress simpl | rewrite String.eqb_refl
               | rewrite (getitem_entry _ _ _ Hentry) | rewrite Hentry
               | rewrite Hchk | rewrite Hlist | rewrite Hitems ].
  same_world.
Qed.

(** X13.  A target whose record lacks the return key of the transport in
    use (['ret'] for minions, ['return'] for salt-ssh) makes the
    interpreter raise [KeyError] in its first loop, before any verdict;
    here for the first target in iteration order. *)
Theorem missing_return_key_raises minion entry others w :
  assoc SALT_RETURN_KEY entry = None ->
  let ret_data := PyDict ((minion, PyDict entry) :: others) in
  check_salt_run_status ret_data w =
  (Raise (KeyError SALT_RETURN_KEY),
   extend w [Log DEBUG (MsgChecking ret_data)] 0).
Proof.
  intros Hentry ret_data.
  unfold check_salt_run_status, ret_data. run. cbn [keys map fst]. run.
  cbn [all_succeeded]. run.
  cbn [getitem assoc]. rewrite String.eqb_refl. run.
  cbn [getitem]. rewrite Hentry. run. reflexivity.
Qed.

(** X14.  With several targets the scan stops at the first one in
    iteration order: when its return data is a list that Salt's checker
    rejects, the run is reported as a compile failure and no other target
    is looked at, whatever the others returned under the return key. *)
Theorem first_target_decides minion entry l others w :
  assoc SALT_RETURN_KEY entry = Some (PyList l) ->
  state_checker (PyList l) = false ->
  let ret_data := PyDict ((minion, PyDict entry) :: others) in
  Forall (fun other =>
            exists on_minion payload,
              getitem ret_data other = Ok on_minion /\
              getitem on_minion SALT_RETURN_KEY = Ok payload)
    (map fst others) ->
  check_salt_run_status ret_data w =
  (Ret false,
   extend w [Log DEBUG (MsgChecking ret_data);
             Log ERROR MsgRunFailed;
             Log ERROR (MsgFullOutput ret_data)] 0).
Proof.
  intros Hentry Hchk ret_data Hothers.
  unfold check_salt_run_status. run. unfold ret_data at 1.
  cbn [keys map fst]. run.
  assert (Hfirst : getitem ret_data minion = Ok (PyDict entry)).
  { unfold ret_data. cbn [getitem assoc]. rewrite String.eqb_refl.
    reflexivity. }
  cbn [all_succeeded]. run. rewrite Hfirst. run.
  rewrite (getitem_entry _ _ _ Hentry). run. rewrite Hchk. cbn [negb].
  rewrite (all_succeeded_stays_failed _ _ _ Hothers). run.
  cbn [scan_minions]. run. rewrite Hfirst. run.
  rewrite (getitem_entry _ _ _ Hentry). run. cbn [is_list]. run.
  reflexivity.
Qed.

(** ** More on restarting the service *)

Lemma restart_service_loop_cost node :
  forall fuel k w,
    exists evs,
      trace (snd (restart_service_loop fuel node (Z.of_nat (S k)) w)) =
        (trace w ++ evs)%list /\
      (List.length (calls evs) <= 2 * S k)%nat /\
      slept evs <= 2 * Z.of_nat (S k) + 5 * Z.of_nat k.
Proof.
  induction fuel as [| fuel IH]; intros k w.
  - exists []. cbn [restart_service_loop out_of_fuel snd calls flat_map
                    List.length slept].
    rewrite app_nil_r. repeat split; lia.
  - cbn [restart_service_loop]. run.
    destruct (getitem (env (S (ncalls w))) node) as [status | e]; run;
      [destruct (truthy status); cbn [negb] |].
    + run. eexists. split; [apply trace_extend |].
      cbn [calls flat_map app List.length slept]. split; lia.
    + replace (Z.of_nat (S k) - 1) with (Z.of_nat k) by lia.
      destruct k as [| k].
      * cbn [Z.of_nat Z.eqb]. run. eexists. split; [apply trace_extend |].
        cbn [calls flat_map app List.length slept]. split; lia.
      * replace (Z.of_nat (S k) =? 0) with false
          by (symmetry; apply Z.eqb_neq; lia).
        run.
        match goal with
        | |- context [restart_service_loop fuel node _ ?w1] =>
            destruct (IH k w1) as [evs [Htrace [Hc Hs]]]
        end.
        rewrite trace_extend, <- app_assoc in Htrace.
        eexists. split; [exact Htrace |].
        rewrite calls_app, length_app, slept_app.
        cbn [calls flat_map app List.length slept]. split; lia.
    + eexists. split; [apply trace_extend |].
      cbn [calls flat_map app List.length slept]. split; lia.
Qed.

(** X15.  Whatever the node answers, [restart_service] ends within three
    rounds: it returns or raises, after at most 3 restarts, 6 Salt calls
    and 16 time units of sleep (three waits of 2 and two of 5). *)
Theorem restart_service_is_bounded fuel node w :
  (3 <= fuel)%nat ->
  exists evs,
    trace (snd (restart_service fuel node w)) = (trace w ++ evs)%list /\
    (count_cmd "service.restart" evs <= 3)%nat /\
    (List.length (calls evs) <= 6)%nat /\
    slept evs <= 16 /\
    (fst (restart_service fuel node w) = Ret tt \/
     exists e, fst (restart_service fuel node w) = Raise e).
Proof.
  intro Hfuel. unfold restart_service.
  destruct (restart_service_loop_calls node fuel 2 w)
    as [evs [Htrace [_ [Hr [_ Hends]]]]].
  destruct (restart_service_loop_cost node fuel 2 w)
    as [evs' [Htrace' [Hc Hs]]].
  assert (evs' = evs) by (apply (app_inv_head (trace w)); congruence).
  subst evs'. specialize (Hends Hfuel).
  pose proof (outcomes_restart_service_loop fuel node 3 w) as Hexit.
  change (Z.of_nat 3) with 3 in *.
  exists evs. repeat split; try assumption; try lia.
  destruct (fst (restart_service_loop fuel node 3 w)) as [[] | e | c | ];
    try discriminate; try congruence; eauto.
Qed.

(** X16.  A status reply that does not name the node is not counted as a
    failed start: [restart_service] raises [KeyError] right after the
    first round, with no warning, no backoff and no further try. *)
Theorem missing_status_raises fuel node w e :
  (1 <= fuel)%nat ->
  getitem (env (S (ncalls w))) node = Err e ->
  restart_service fuel node w = (Raise e, extend w (restart_round node) 2).
Proof.
  intros Hfuel Hstatus. destruct fuel as [| fuel]; [lia |].
  unfold restart_service, restart_round. cbn [restart_service_loop].
  run. rewrite Hstatus. run. reflexivity.
Qed.

(** ** What follows a failed step *)

(** [update_system] makes one Salt call, the upgrade. *)
Lemma update_system_calls node w :
  exists evs,
    trace (snd (update_system node w)) = (trace w ++ evs)%list /\
    calls evs = [(PyStr node, "pkg.upgrade")].
Proof.
  unfold update_system. run.
  match goal with
  | |- context [check_salt_run_status ?v ?w1] =>
      destruct (emits_check_salt_run_status v w1) as [evs [Htrace Hall]];
      destruct (check_salt_run_status v w1) as [[[|] | e | c | ] w2]
  end;
    destruct (report_events_observed evs Hall) as [_ [_ Hc]];
    cbn [fst snd negb] in *; run;
    rewrite trace_extend in Htrace;
    (eexists; split; [rewrite Htrace, <- app_assoc; reflexivity |]);
    observe; rewrite Hc; reflexivity.
Qed.

(** X17.  A step that fails is never followed by the next one.  When the
    configuration run fails, the service is not restarted: the state run is
    the only Salt call of the attempt, which exits with status 1.  When the
    upgrade fails, the host is not rebooted, reboot flag or not: the
    upgrade is the only Salt call of the attempt, which raises the failure
    of the upgrade. *)
Theorem failed_step_stops_the_attempt fuel minion w e w1 :
  (action options = "update_configs" ->
   update_configs minion w = (Raise e, w1) ->
   attempt fuel minion w =
     (Exit 1, extend w1 [Log ERROR (MsgUpdateFailed minion)] 0) /\
   exists evs,
     trace w1 = (trace w ++ evs)%list /\
     calls evs = [(PyStr minion, "state.sls")])
  /\
  (action options = "update_system" ->
   update_system minion w = (Raise e, w1) ->
   attempt fuel minion w = (Raise e, w1) /\
   exists evs,
     trace w1 = (trace w ++ evs)%list /\
     calls evs = [(PyStr minion, "pkg.upgrade")]).
Proof.
  split; intros Haction Hfail.
  - split.
    + rewrite (attempt_update_configs _ _ Haction).
      rewrite try_run, bind_run, Hfail. run. reflexivity.
    + destruct (update_configs_calls minion w) as [evs [Htrace [_ Hc]]].
      rewrite Hfail in Htrace. exists evs. auto.
  - split.
    + rewrite (attempt_update_system _ _ Haction).
      rewrite bind_run, Hfail. reflexivity.
    + destruct (update_system_calls minion w) as [evs [Htrace Hc]].
      rewrite Hfail in Htrace. exists evs. auto.
Qed.

(** ** A healthy fleet under [update_configs] *)

(** Salt's checker approves the return data of every target of a reply. *)
Definition approved (reply : PyVal) : Prop :=
  exists d,
    reply = PyDict d /\
    Forall (fun minion =>
              exists on_minion payload,
                getitem reply minion = Ok on_minion /\
                getitem on_minion SALT_RETURN_KEY = Ok payload /\
                state_checker payload = true) (map fst d).

(** From the [k]-th Salt call on, each node of [minions] in turn gets its
    state run approved and its service found running at the first status
    check. *)
Fixpoint healthy (k : nat) (minions : list string) : Prop :=
  match minions with
  | [] => True
  | minion :: rest =>
      approved (env k) /\
      (exists status,
          getitem (env (2 + k)) minion = Ok status /\
          truthy status = true) /\
      healthy (3 + k) rest
  end.

Lemma check_salt_run_status_approved reply w :
  approved reply ->
  check_salt_run_status reply w =
  (Ret true, extend w [Log DEBUG (MsgChecking reply)] 0).
Proof.
  intros [d [Hreply H]]. subst reply.
  unfold check_salt_run_status. run. cbn [keys]. run.
  rewrite (all_succeeded_approved _ _ _ H). run. reflexivity.
Qed.

Lemma healthy_fleet_rolls fuel :
  action options = "update_configs" -> (1 <= fuel)%nat ->
  forall minions w,
    healthy (ncalls w) minions ->
    exists evs,
      rolling_actions fuel minions w =
        (Ret tt, extend w evs (3 * List.length minions)) /\
      begun evs = minions /\
      failures evs = [] /\
      count_cmd "service.restart" evs = List.length minions /\
      slept evs = 2 * Z.of_nat (List.length minions).
Proof.
  intros Haction Hfuel. destruct fuel as [| n]; [lia |].
  intro nodes. induction nodes as [| minion ms IH]; intros w Hhealthy.
  - exists []. cbn. rewrite extend_nil. repeat split.
  - destruct Hhealthy as [Happroved [[status [Hstatus Htruthy]] Hrest]].
    cbn [Nat.add] in Hstatus.
    unfold rolling_actions. cbn [for_each]. run.
    fold (rolling_actions (S n) ms).
    cbn [work_loop]. rewrite (attempt_update_configs _ _ Haction).
    unfold update_configs, restart_service. cbn [restart_service_loop].
    run. rewrite (check_salt_run_status_approved _ _ Happroved).
    run. cbn [negb]. run. rewrite Hstatus. run. rewrite Htruthy.
    cbn [negb]. run.
    match goal with
    | |- context [rolling_actions (S n) ms ?w1] =>
        destruct (IH w1) as [evs [Hrun [Hb [Hf [Hc Hs]]]]];
        [rewrite ncalls_extend; exact Hrest |]
    end.
    rewrite Hrun, extend_extend.
    eexists. split; [f_equal; f_equal; cbn [List.length]; lia |].
    rewrite begun_app, failures_app, count_cmd_app, slept_app, Hb, Hf, Hc, Hs.
    cbn [List.length]. repeat split; try reflexivity.
    match goal with
    | |- slept ?prefix + _ = _ => change (slept prefix) with 2
    end.
    lia.
Qed.

(** X18.  An [update_configs] run on a fleet that answers the ping and on
    which every node in turn gets its state run approved and its service
    found running at the first check completes: [main] returns normally
    after the line "Finished", having begun work on every target in the
    order given, with one restart and a wait of 2 per node, 3 Salt calls
    per node after the ping, and no failed attempt. *)
Theorem healthy_fleet_is_updated fuel s its w :
  uid = 0 -> test options = false -> minions options = Some s ->
  env (ncalls w) = PyDict its -> down its = [] ->
  action options = "update_configs" -> (1 <= fuel)%nat ->
  healthy (1 + ncalls w) (split ","%char s) ->
  exists evs,
    main fuel w =
      (Ret tt,
       extend w
         ([Log INFO MsgPingingAll;
           Cmd (PyList (map PyStr (split ","%char s))) "test.ping" []
             [("tgt_type", PyStr "list"); full_return];
           Log INFO MsgAllUp] ++ evs ++ [Log INFO MsgFinished])
         (3 * List.length (split ","%char s) + 1)) /\
    begun evs = split ","%char s /\
    failures evs = [] /\
    count_cmd "service.restart" evs = List.length (split ","%char s) /\
    slept evs = 2 * Z.of_nat (List.length (split ","%char s)).
Proof.
  intros Huid Htest Hminions Henv Hdown Haction Hfuel Hhealthy.
  rewrite (main_after_ping fuel s its w) by assumption.
  rewrite bind_run.
  match goal with
  | |- context [rolling_actions fuel _ ?w1] =>
      destruct (healthy_fleet_rolls fuel Haction Hfuel
                  (split ","%char s) w1)
        as [evs [Hrun [Hb [Hf [Hc Hs]]]]];
      [rewrite ncalls_extend; exact Hhealthy |]
  end.
  rewrite Hrun. run. exists evs. split; [reflexivity | auto].
Qed.

(** ** Wiping the salt-ssh shim *)







End Script.

(** ** The script on sample fleets *)

Import Sample.

Lemma never_reboots_poll n :
  (2 <= n)%nat -> never_reboots n = uptime_reply "web1" 1205.
Proof.
  intro H. unfold never_reboots, replies. apply nth_overflow. simpl. lia.
Qed.

(** C1, on the code.  With a baseline of 1200 and every poll answering
    1205, [restart_host] never reports a timeout: whatever number of polls
    it is allowed, it is still polling after them, having made that many
    polls, so it goes on well past the 30 polls of the 300-unit window. *)
Theorem stale_uptime_polls_forever :
  forall fuel,
    fst (restart_host never_reboots (direct "reboot_host" "web1")
           fuel "web1" fresh) = OutOfFuel /\
    ncalls (snd (restart_host never_reboots (direct "reboot_host" "web1")
                   fuel "web1" fresh)) = (fuel + 2)%nat.
Proof.
  intro fuel.
  destruct (restart_host_polls_forever never_reboots
              (direct "reboot_host" "web1") "web1" fresh
              (PyDict [("ret", PyDict [("seconds", PyInt 1200)]);
                       ("retcode", PyInt 0)])
              (PyDict [("seconds", PyInt 1200)]) (PyInt 1200)
              eq_refl eq_refl eq_refl eq_refl) with (fuel := fuel)
    as [Hout Hcalls].
  - intros n Hn. rewrite never_reboots_poll by exact Hn.
    exists (PyDict [("ret", PyDict [("seconds", PyInt 1205)]);
                    ("retcode", PyInt 0)]), (PyInt 1205).
    repeat split; reflexivity.
  - split; [exact Hout |]. rewrite Hcalls. simpl. lia.
Qed.

(** The sibling branch does consume the budget: a host that stops answering
    after the reboot command is given up after exactly 30 polls. *)
Lemma silent_host_times_out :
  forall fuel,
    (30 <= fuel)%nat ->
    fst (restart_host never_answers (direct "reboot_host" "web1")
           fuel "web1" fresh) = Raise (Exception None) /\
    ncalls (snd (restart_host never_answers (direct "reboot_host" "web1")
                   fuel "web1" fresh)) = 32%nat.
Proof.
  intros fuel Hfuel.
  replace fuel with (30 + (fuel - 30))%nat by lia.
  generalize (fuel - 30)%nat as extra. intro extra.
  destruct extra; vm_compute; split; reflexivity.
Qed.

(** C5.  [restart_host] returns only on a probe whose uptime is below the
    uptime read before the reboot, as [<] orders them: strictly below, for
    uptimes that are numbers.  A probe that answers with a number equal to
    or above the baseline is never taken as confirmation: the loop sleeps
    and polls again.  With a baseline of 1200 and polls answering 1205,
    1210 and 50, it returns at the third poll: the first two polls are
    followed by a wait, and two polls are not enough. *)
Theorem reboot_confirmed_only_by_smaller_uptime :
  (forall env options fuel node w w',
      restart_host env options fuel node w = (Ret tt, w') ->
      exists base cur,
        uptime_seconds options (env (ncalls w)) node = Ok base /\
        uptime_seconds options (env (pred (ncalls w'))) node = Ok cur /\
        (ncalls w + 3 <= ncalls w')%nat /\
        lt cur base = Ok true /\
        forall x y, as_int cur = Some x -> as_int base = Some y -> x < y)
  /\
  (forall env options fuel node base timeout w on_node cur x y,
      timeout > 0 ->
      getitem (env (ncalls w)) node = Ok on_node ->
      not_responding options on_node = Ok false ->
      uptime_seconds options (env (ncalls w)) node = Ok cur ->
      as_int cur = Some x -> as_int base = Some y -> y <= x ->
      restart_host_loop env options (S fuel) node base timeout w =
      restart_host_loop env options fuel node base timeout
        (extend w [Log INFO (MsgPinging node);
                   Cmd (PyStr node) "status.uptime" [] [full_return];
                   Log INFO (MsgWaitingReboot node);
                   Sleep period] 1))
  /\
  (forall fuel,
      (3 <= fuel)%nat ->
      restart_host reboots_at_third_poll (direct "reboot_host" "web1")
        fuel "web1" fresh =
      (Ret tt,
       extend fresh
         [Log INFO (MsgRestartingHost "web1");
          Cmd (PyStr "web1") "status.uptime" [] [full_return];
          Cmd (PyStr "web1") "system.reboot" [] [full_return];
          Log INFO (MsgPinging "web1");
          Cmd (PyStr "web1") "status.uptime" [] [full_return];
          Log INFO (MsgWaitingReboot "web1"); Sleep 10;
          Log INFO (MsgPinging "web1");
          Cmd (PyStr "web1") "status.uptime" [] [full_return];
          Log INFO (MsgWaitingReboot "web1"); Sleep 10;
          Log INFO (MsgPinging "web1");
          Cmd (PyStr "web1") "status.uptime" [] [full_return];
          Log INFO (MsgRebooted "web1")] 5))
  /\
  fst (restart_host reboots_at_third_poll (direct "reboot_host" "web1")
         2 "web1" fresh) = OutOfFuel.
Proof.
  split; [| split; [| split]].
  - intros env options fuel node w w' H.
    destruct (restart_host_returns env options fuel node w w' H)
      as [base [cur [Hbase [Hcalls [Hcur Hlt]]]]].
    exists base, cur. repeat split; auto.
    intros x y. apply lt_true_numbers. exact Hlt.
  - intros env options fuel node base timeout w on_node cur x y
      Htimeout Hnode Hresp Hcur Hx Hy Hxy.
    apply stale_poll_keeps_timeout with (on_node := on_node) (cur := cur);
      auto.
    rewrite (lt_numbers cur base x y Hx Hy).
    replace (x <? y) with false by (symmetry; apply Z.ltb_ge; exact Hxy).
    reflexivity.
  - intros fuel Hfuel.
    replace fuel with (3 + (fuel - 3))%nat by lia.
    generalize (fuel - 3)%nat as extra. intro extra.
    vm_compute. reflexivity.
  - vm_compute. reflexivity.
Qed.

(** The third poll of the sample confirms the reboot: 50 is below 1200. *)
Lemma reboot_confirmed_only_by_smaller_uptime_witness :
  exists base cur,
    uptime_seconds (direct "reboot_host" "web1")
      (reboots_at_third_poll 0%nat) "web1" = Ok base /\
    uptime_seconds (direct "reboot_host" "web1")
      (reboots_at_third_poll 4%nat) "web1" = Ok cur /\
    (0 + 3 <= 5)%nat /\
    lt cur base = Ok true /\
    forall x y, as_int cur = Some x -> as_int base = Some y -> x < y.
Proof.
  apply (proj1 reboot_confirmed_only_by_smaller_uptime
           reboots_at_third_poll (direct "reboot_host" "web1") 3%nat "web1"
           fresh
           (snd (restart_host reboots_at_third_poll
                   (direct "reboot_host" "web1") 3 "web1" fresh))).
  vm_compute. reflexivity.
Defined.

(** A probe whose reply holds no number under ['seconds'] is compared all
    the same: [None] is below 1200, and the host counts as rebooted. *)
Example uptime_of_none_confirms :
  fst (restart_host
         (replies [uptime_reply "web1" 1200; returned "web1" (PyBool true);
                   returned "web1" (PyDict [("seconds", PyNone)])] PyNone)
         (direct "reboot_host" "web1") 3 "web1" fresh) = Ret tt.
Proof. vm_compute. reflexivity. Qed.

Lemma list_payload_is_compile_failure_witness :
  let ret_data := PyDict [("web1", PyDict render_error)] in
  check_salt_run_status check_state_result (direct "update_configs" "web1")
    ret_data fresh =
  (Ret false,
   extend fresh [Log DEBUG (MsgChecking ret_data);
                 Log ERROR MsgRunFailed;
                 Log ERROR (MsgFullOutput ret_data)] 0).
Proof.
  apply (list_payload_is_compile_failure check_state_result
           (direct "update_configs" "web1") "web1" render_error
           [PyStr "Rendering SLS 'base:haproxy.update_configs' failed"]
           fresh);
    reflexivity.
Defined.

(** A run that applied no state at all: Salt's checker rejects the empty
    mapping, the scan finds nothing to blame, and the run counts as a
    success after the warnings. *)
Example empty_run_falls_back :
  let ret_data := returned "web1" (PyDict []) in
  check_state_result (PyDict []) = false /\
  check_salt_run_status check_state_result (direct "update_configs" "web1")
    ret_data fresh =
  (Ret true,
   extend fresh [Log DEBUG (MsgChecking ret_data);
                 Log WARNING MsgCheckerDisagrees;
                 Log WARNING MsgContinueAnyway;
                 Log WARNING (MsgReturnData ret_data)] 0).
Proof. split; vm_compute; reflexivity. Qed.

Lemma restart_service_protocol_witness :
  (3 <= 3)%nat /\
  restart_service up_at_second_check 3 "web1" fresh =
  (Ret tt,
   extend fresh
     (restart_round "web1" ++ backoff "web1" 2 ++ restart_round "web1") 4).
Proof.
  split; [apply le_n |].
  apply (proj1 (proj2 (restart_service_protocol up_at_second_check
                         3 "web1" fresh (le_n 3)))
           (PyBool false) (PyBool true));
    reflexivity.
Defined.

(** C4, on the code.  Salt's checker rejects the run because of the state
    ["haproxy_config"], whose ['result'] is [False];
    [check_salt_run_status] reports the status and the comment of
    ["haproxy_installed"], whose ['result'] is [True] and which the
    interpreter walks first: the scan tests the key [SALT_RETURN_KEY], which
    no state carries, and so blames the first state it meets. *)
Theorem failed_state_report_blames_first_state :
  map slot ["haproxy_installed"; "haproxy_config"] = [5; 6]
  /\
  check_state_result
    (PyDict [("haproxy_installed",
              state true "All specified packages are already installed");
             ("haproxy_config",
              state false "Unable to manage file: Source file not found")])
  = false
  /\
  check_salt_run_status check_state_result (direct "update_configs" "web1")
    one_failed_state fresh =
  (Ret false,
   extend fresh
     [Log DEBUG (MsgChecking one_failed_state);
      Log ERROR (MsgStateFailed "web1" (PyBool true));
      Log ERROR (MsgComment
                   (PyStr "All specified packages are already installed"));
      Log ERROR (MsgEntire one_failed_state)] 0).
Proof. repeat split; vm_compute; reflexivity. Qed.


Lemma connectivity_gate_witness :
  let probe := Cmd (PyList [PyStr "A"; PyStr "B"; PyStr "C"]) "test.ping" []
                 [("tgt_type", PyStr "list"); full_return] in
  ping_all_nodes b_is_down ["A"; "B"; "C"] fresh =
    (Ret (PyList [PyStr "B"]), extend fresh [probe] 1)
  /\
  main b_is_down check_state_result (direct "update_configs" "A,B,C") 0 3
    fresh =
    (Exit 1,
     extend fresh [Log INFO MsgPingingAll; probe; Log ERROR MsgNotAllUp;
                   Log ERROR (MsgDown (PyStr "B"));
                   Log ERROR MsgPleaseFix] 1).
Proof.
  destruct (connectivity_gate b_is_down check_state_result
              (direct "update_configs" "A,B,C") 0 3 "A,B,C"
              [("A", up); ("B", PyBool false); ("C", up)] fresh
              eq_refl eq_refl eq_refl eq_refl)
    as [_ [Hping [Hmain _]]].
  split; [exact Hping | apply Hmain; discriminate].
Defined.

Lemma no_data_has_no_uptime n :
  uptime_seconds (fleet "reboot_host") (no_data n) "web1" = Err TypeError.
Proof. destruct n as [| [| n]]; reflexivity. Qed.

Lemma retry_budget_of_three_witness :
  fst (main no_data check_state_result (fleet "reboot_host") 0 3 fresh) =
    Exit 1 /\
  exists evs,
    trace (snd (main no_data check_state_result (fleet "reboot_host") 0 3
                  fresh)) =
      (trace fresh ++
       [Log INFO MsgPingingAll;
        Cmd (PyList [PyStr "web1"; PyStr "web2"]) "test.ping" []
          [("tgt_type", PyStr "list"); full_return];
        Log INFO MsgAllUp] ++ evs)%list /\
    failures evs = [("web1", 2); ("web1", 1); ("web1", 0)] /\
    begun evs = ["web1"] /\
    Forall (fun c => fst c = PyStr "web1") (calls evs).
Proof.
  apply (proj1 (retry_budget_of_three no_data check_state_result
                  (fleet "reboot_host") 0 3 "web1,web2"
                  [("web1", up); ("web2", up)] "web1" ["web2"] fresh
                  eq_refl eq_refl eq_refl eq_refl eq_refl eq_refl
                  (le_n 3))).
  intro w1.
  apply (attempt_without_baseline no_data check_state_result
           (fleet "reboot_host") 3 "web1" w1 TypeError eq_refl).
  apply no_data_has_no_uptime.
Defined.

(** C6 as stated fails for [update_configs]: the handler fails on its first
    invocation and the run exits with status 1 there; the state ran once,
    not three times, and no failed attempt was logged against the
    budget. *)
Lemma update_configs_is_attempted_once :
  let r := main compile_failure_fleet check_state_result
             (fleet "update_configs") 0 3 fresh in
  fst r = Exit 1 /\
  count_cmd "state.sls" (trace (snd r)) = 1%nat /\
  failures (trace (snd r)) = [] /\
  begun (trace (snd r)) = ["web1"].
Proof. vm_compute. repeat split; reflexivity. Qed.

(** C3 as stated fails: with fuel for nine rounds and more, the service is
    restarted 3 times, the state runs once, no attempt is logged as failed
    and retried, and the run exits with status 1. *)
Lemma update_configs_restarts_three_times :
  let r := main service_stays_down check_state_result
             (fleet "update_configs") 0 12 fresh in
  fst r = Exit 1 /\
  count_cmd "service.restart" (trace (snd r)) = 3%nat /\
  count_cmd "state.sls" (trace (snd r)) = 1%nat /\
  failures (trace (snd r)) = [].
Proof. vm_compute. repeat split; reflexivity. Qed.

Lemma update_configs_failure_is_final_witness :
  (3 <= 3)%nat /\
  exists evs,
    trace (snd (work_loop service_stays_down check_state_result
                  (fleet "update_configs") 1 3 "web1" 3 fresh)) =
      (trace fresh ++ evs)%list /\
    failures evs = [] /\
    count_cmd "state.sls" evs = 1%nat /\
    (count_cmd "service.restart" evs <= 3)%nat /\
    (fst (work_loop service_stays_down check_state_result
            (fleet "update_configs") 1 3 "web1" 3 fresh) = Ret tt \/
     fst (work_loop service_stays_down check_state_result
            (fleet "update_configs") 1 3 "web1" 3 fresh) = Exit 1).
Proof.
  split; [apply le_n |].
  apply (proj2 (update_configs_failure_is_final service_stays_down
                  check_state_result (fleet "update_configs") 3 0 "web1"
                  fresh eq_refl (le_n 3))).
Defined.

(** C2 as stated fails in two ways.  An attempt can fail before it reaches
    the undefined name: on a host that stops answering, [restart_host]
    times out and the attempt raises its plain [Exception].  And a run
    need not halt: on a host that answers but never reboots, it is still
    waiting whatever the fuel. *)
Lemma attempts_need_not_reach_the_wait :
  fst (attempt never_answers check_state_result (fleet "reboot_host")
         30 "web1" fresh) = Raise (Exception None)
  /\
  (forall fuel,
      fst (main stale_fleet check_state_result (fleet "reboot_host") 0 fuel
             fresh) = OutOfFuel).
Proof.
  split; [vm_compute; reflexivity |].
  apply (stale_run_never_halts stale_fleet check_state_result
           (fleet "reboot_host") 0 "web1,web2"
           [("web1", up); ("web2", up)] "web1" ["web2"] fresh
           (PyDict [("ret", PyDict [("seconds", PyInt 1200)]);
                    ("retcode", PyInt 0)])
           (PyDict [("seconds", PyInt 1200)]) (PyInt 1200));
    try reflexivity.
  intros n Hn.
  assert (Hreply : stale_fleet n = uptime_reply "web1" 1205).
  { unfold stale_fleet, replies. apply nth_overflow. simpl in *. lia. }
  rewrite Hreply.
  exists (PyDict [("ret", PyDict [("seconds", PyInt 1205)]);
                  ("retcode", PyInt 0)]), (PyInt 1205).
  repeat split; reflexivity.
Qed.

(** An [update_system] run without the reboot flag, on a fleet whose
    upgrades succeed. *)
Lemma undefined_wait_fails_every_attempt_witness :
  fst (main upgrades check_state_result (fleet "update_system") 0 3 fresh) =
    Exit 1.
Proof.
  apply (proj2 (proj2 (proj2 (proj2
           (undefined_wait_fails_every_attempt upgrades check_state_result
              (fleet "update_system") 0 3 "web1,web2"
              [("web1", up); ("web2", up)] "web1" ["web2"] fresh
              (or_intror eq_refl) eq_refl eq_refl eq_refl eq_refl eq_refl
              eq_refl (le_n 3))))));
    reflexivity.
Defined.

(** On that fleet each of the three attempts gets as far as the undefined
    name. *)
Example upgraded_node_fails_on_the_undefined_name :
  raised (trace (snd (main upgrades check_state_result
                        (fleet "update_system") 0 3 fresh))) =
  [NameError "wait_for_es_service"; NameError "wait_for_es_service";
   NameError "wait_for_es_service"].
Proof. vm_compute. reflexivity. Qed.

(** ** Further runs on sample fleets *)

Lemma main_requires_root_witness :
  main no_data check_state_result (fleet "update_configs") 1000 3 fresh =
  (Exit 1, extend fresh [Print MsgNeedRoot] 0).
Proof.
  apply (main_requires_root no_data check_state_result
           (fleet "update_configs") 1000 3 fresh).
  discriminate.
Defined.

(** The options of a dry run over two hosts. *)
Definition dry_run_options : Options :=
  mkOptions (Some "web1,web2") true false false "reboot_host".

Lemma dry_run_lists_targets_witness :
  main no_data check_state_result dry_run_options 0 3 fresh =
  (Exit 0,
   extend fresh [Log INFO MsgTargeting; Log INFO (MsgTarget "web1");
                 Log INFO (MsgTarget "web2")] 0).
Proof.
  apply (dry_run_lists_targets no_data check_state_result dry_run_options
           0 3 "web1,web2" fresh);
    reflexivity.
Defined.

(** The options of a run started without [-n]. *)
Definition no_target_options : Options :=
  mkOptions None false false false "update_configs".

Lemma missing_target_list_raises_witness :
  main no_data check_state_result no_target_options 0 3 fresh =
  (Raise (AttributeError "split"), fresh).
Proof.
  apply (missing_target_list_raises no_data check_state_result
           no_target_options 0 3 fresh);
    reflexivity.
Defined.

(** The world in which the rolling actions start: [main] has pinged the
    fleet, which took the first reply. *)
Definition pinged : World :=
  extend fresh
    [Log INFO MsgPingingAll;
     Cmd (PyList [PyStr "web1"; PyStr "web2"]) "test.ping" []
       [("tgt_type", PyStr "list"); full_return];
     Log INFO MsgAllUp] 1.

Lemma update_configs_run_is_single_shot_witness :
  exists done rest shares,
    ["web1"; "web2"] = (done ++ rest)%list /\
    Forall2 single_shot done shares /\
    trace (snd (rolling_actions service_stays_down check_state_result
                  (fleet "update_configs") 3 ["web1"; "web2"] pinged)) =
      (trace pinged ++ List.concat shares)%list /\
    (fst (rolling_actions service_stays_down check_state_result
            (fleet "update_configs") 3 ["web1"; "web2"] pinged) = Ret tt /\
     rest = [] \/
     fst (rolling_actions service_stays_down check_state_result
            (fleet "update_configs") 3 ["web1"; "web2"] pinged) = Exit 1).
Proof.
  apply (update_configs_run_is_single_shot service_stays_down
           check_state_result (fleet "update_configs") 3 ["web1"; "web2"]
           pinged eq_refl (le_n 3)).
Defined.

(** On that fleet the first node takes its one state run and its three
    restarts, and the run ends there. *)
Example service_stays_down_share :
  let r := rolling_actions service_stays_down check_state_result
             (fleet "update_configs") 3 ["web1"; "web2"] pinged in
  fst r = Exit 1 /\
  begun (skipn 3 (trace (snd r))) = ["web1"] /\
  count_cmd "state.sls" (skipn 3 (trace (snd r))) = 1%nat /\
  count_cmd "service.restart" (skipn 3 (trace (snd r))) = 3%nat.
Proof. vm_compute. repeat split. Qed.

Lemma never_answers_is_silent :
  silent_from never_answers (direct "reboot_host" "web1") 2 "web1".
Proof.
  intros n Hn. exists (PyBool false).
  assert (Hreply : never_answers n = PyDict [("web1", PyBool false)]).
  { unfold never_answers, replies. apply nth_overflow. simpl. lia. }
  rewrite Hreply. split; reflexivity.
Qed.

Lemma silent_host_is_given_up_after_30_polls_witness :
  exists evs,
    restart_host never_answers (direct "reboot_host" "web1") 30 "web1" fresh =
      (Raise (Exception None), extend fresh evs 32) /\
    count_cmd "status.uptime" evs = 31%nat /\
    count_cmd "system.reboot" evs = 1%nat /\
    unanswered evs = 30%nat /\
    slept evs = 300.
Proof.
  apply (silent_host_is_given_up_after_30_polls never_answers
           (direct "reboot_host" "web1") 30 "web1" fresh
           (PyDict [("ret", PyDict [("seconds", PyInt 1200)]);
                    ("retcode", PyInt 0)])
           (PyDict [("seconds", PyInt 1200)]) (PyInt 1200)
           eq_refl eq_refl eq_refl never_answers_is_silent (le_n 30)).
Defined.

Lemma reboot_confirmed_only_by_a_response_witness :
  exists on_node,
    getitem (reboots_at_third_poll 4%nat) "web1" = Ok on_node /\
    is_False on_node = false /\
    (use_ssh (direct "reboot_host" "web1") = true ->
     exists retcode,
       get on_node "retcode" = Ok retcode /\ ne_zero retcode = false).
Proof.
  apply (reboot_confirmed_only_by_a_response reboots_at_third_poll
           (direct "reboot_host" "web1") 3 "web1" fresh
           (snd (restart_host reboots_at_third_poll
                   (direct "reboot_host" "web1") 3 "web1" fresh))).
  vm_compute. reflexivity.
Defined.

(** A state run whose single state succeeded. *)
Definition configured : list (string * PyVal) :=
  [("web1",
    PyDict [("ret", PyDict [("haproxy_config",
                             state true "File is in the correct state")]);
            ("retcode", PyInt 0)])].

Lemma approved_run_is_a_success_witness :
  check_salt_run_status check_state_result (direct "update_configs" "web1")
    (PyDict configured) fresh =
  (Ret true, extend fresh [Log DEBUG (MsgChecking (PyDict configured))] 0).
Proof.
  apply (approved_run_is_a_success check_state_result
           (direct "update_configs" "web1") configured fresh).
  repeat constructor.
  exists (PyDict [("ret", PyDict [("haproxy_config",
                                   state true "File is in the correct state")]);
                  ("retcode", PyInt 0)]),
         (PyDict [("haproxy_config",
                   state true "File is in the correct state")]).
  repeat split; reflexivity.
Defined.

(** The return data of a minion that did not answer a state run: a
    string. *)
Definition no_return : list (string * PyVal) :=
  [("ret", PyStr "Minion did not return. [No response]");
   ("retcode", PyInt 1)].

Lemma odd_payload_raises_witness :
  let ret_data := PyDict [("web1", PyDict no_return)] in
  check_salt_run_status check_state_result (direct "update_configs" "web1")
    ret_data fresh =
  (Raise (AttributeError "items"),
   extend fresh [Log DEBUG (MsgChecking ret_data)] 0).
Proof.
  apply (odd_payload_raises check_state_result
           (direct "update_configs" "web1") "web1" no_return
           (PyStr "Minion did not return. [No response]")
           (AttributeError "items") fresh);
    reflexivity.
Defined.

(** A record keyed as salt-ssh keys it, read with the minion transport. *)
Definition ssh_keyed : list (string * PyVal) :=
  [("return", PyDict []); ("retcode", PyInt 0)].

Lemma missing_return_key_raises_witness :
  let ret_data := PyDict [("web1", PyDict ssh_keyed)] in
  check_salt_run_status check_state_result (direct "update_configs" "web1")
    ret_data fresh =
  (Raise (KeyError "ret"), extend fresh [Log DEBUG (MsgChecking ret_data)] 0).
Proof.
  apply (missing_return_key_raises check_state_result
           (direct "update_configs" "web1") "web1" ssh_keyed [] fresh).
  reflexivity.
Defined.

Lemma first_target_decides_witness :
  let ret_data :=
    PyDict (("web0", PyDict render_error) :: configured) in
  check_salt_run_status check_state_result (direct "update_configs" "web1")
    ret_data fresh =
  (Ret false,
   extend fresh [Log DEBUG (MsgChecking ret_data);
                 Log ERROR MsgRunFailed;
                 Log ERROR (MsgFullOutput ret_data)] 0).
Proof.
  apply (first_target_decides check_state_result
           (direct "update_configs" "web1") "web0" render_error
           [PyStr "Rendering SLS 'base:haproxy.update_configs' failed"]
           configured fresh);
    try reflexivity.
  repeat constructor.
  exists (PyDict [("ret", PyDict [("haproxy_config",
                                   state true "File is in the correct state")]);
                  ("retcode", PyInt 0)]),
         (PyDict [("haproxy_config",
                   state true "File is in the correct state")]).
  split; reflexivity.
Defined.

Lemma restart_service_is_bounded_witness :
  exists evs,
    trace (snd (restart_service up_at_second_check 3 "web1" fresh)) =
      (trace fresh ++ evs)%list /\
    (count_cmd "service.restart" evs <= 3)%nat /\
    (List.length (calls evs) <= 6)%nat /\
    slept evs <= 16 /\
    (fst (restart_service up_at_second_check 3 "web1" fresh) = Ret tt \/
     exists e, fst (restart_service up_at_second_check 3 "web1" fresh) =
               Raise e).
Proof.
  apply (restart_service_is_bounded up_at_second_check 3 "web1" fresh
           (le_n 3)).
Defined.

(** A status reply that does not name the node. *)
Definition unnamed_status : nat -> PyVal :=
  replies [PyDict [("web1", PyBool true)]; PyDict []] PyNone.

Lemma missing_status_raises_witness :
  restart_service unnamed_status 3 "web1" fresh =
  (Raise (KeyError "web1"), extend fresh (restart_round "web1") 2).
Proof.
  apply (missing_status_raises unnamed_status 3 "web1" fresh
           (KeyError "web1"));
    [repeat constructor | reflexivity].
Defined.

(** A node whose state run fails to compile. *)
Definition fails_to_compile : nat -> PyVal :=
  replies [PyDict [("web1", PyDict render_error)]] PyNone.

Lemma failed_step_stops_the_attempt_witness :
  attempt fails_to_compile check_state_result (fleet "update_configs") 3
    "web1" fresh =
    (Exit 1,
     extend (snd (update_configs fails_to_compile check_state_result
                    (fleet "update_configs") "web1" fresh))
       [Log ERROR (MsgUpdateFailed "web1")] 0) /\
  exists evs,
    trace (snd (update_configs fails_to_compile check_state_result
                  (fleet "update_configs") "web1" fresh)) =
      (trace fresh ++ evs)%list /\
    calls evs = [(PyStr "web1", "state.sls")].
Proof.
  apply (proj1 (failed_step_stops_the_attempt fails_to_compile
                  check_state_result (fleet "update_configs") 3 "web1" fresh
                  (Exception (Some (fails_to_compile 0%nat)))
                  (snd (update_configs fails_to_compile check_state_result
                          (fleet "update_configs") "web1" fresh))));
    reflexivity.
Defined.

(** A fleet of two on which everything goes well. *)
Definition healthy_fleet : nat -> PyVal :=
  let applied node :=
    returned node
      (PyDict [("haproxy_config",
                state true "File is in the correct state")]) in
  replies [all_up;
           applied "web1"; PyDict [("web1", PyBool true)];
           PyDict [("web1", PyBool true)];
           applied "web2"; PyDict [("web2", PyBool true)];
           PyDict [("web2", PyBool true)]]
          PyNone.

Lemma healthy_fleet_is_healthy :
  healthy healthy_fleet check_state_result (fleet "update_configs") 1
    ["web1"; "web2"].
Proof.
  repeat split.
  - eexists. split; [reflexivity |]. repeat constructor.
    do 2 eexists. repeat split; reflexivity.
  - exists (PyBool true). split; reflexivity.
  - eexists. split; [reflexivity |]. repeat constructor.
    do 2 eexists. repeat split; reflexivity.
  - exists (PyBool true). split; reflexivity.
Qed.

Lemma healthy_fleet_is_updated_witness :
  exists evs,
    main healthy_fleet check_state_result (fleet "update_configs") 0 1
      fresh =
      (Ret tt,
       extend fresh
         ([Log INFO MsgPingingAll;
           Cmd (PyList [PyStr "web1"; PyStr "web2"]) "test.ping" []
             [("tgt_type", PyStr "list"); full_return];
           Log INFO MsgAllUp] ++ evs ++ [Log INFO MsgFinished])
         7) /\
    begun evs = ["web1"; "web2"] /\
    failures evs = [] /\
    count_cmd "service.restart" evs = 2%nat /\
    slept evs = 4.
Proof.
  apply (healthy_fleet_is_updated healthy_fleet check_state_result
           (fleet "update_configs") 0 1 "web1,web2"
           [("web1", up); ("web2", up)] fresh
           eq_refl eq_refl eq_refl eq_refl eq_refl eq_refl (le_n 1)
           healthy_fleet_is_healthy).
Defined.

(** * HTTP requests

    [do_request] talks to a server through [requests]; the script defines
    it beside the Salt calls.  Its effects are kept in a journal of their
    own. *)

Module Http.

(** What a call of [requests.request] comes to.  It raises
    [ConnectionError], the one exception [do_request] catches; or it raises
    another exception (a read that timed out, too many redirects, a
    malformed URL); or it returns a response, of which the function reads
    the status code; or it never comes back: the script sets no timeout. *)
Inductive Reply : Type :=
| ConnectionError
| OtherError (e : Exn)
| Response (status_code : Z)
| NoReply.

Inductive Step : Type :=
| Requested (verb server : string) (auth verify data : PyVal)
| ErrorLogged (server : string) (status_code : Z)
| RetryLogged (server : string) (attempts : Z)
| Paused (secs : Z).

Record Net : Type := mkNet {
  journal : list Step;  (* what was done so far, oldest first *)
  sent : nat            (* number of requests made so far *)
}.

(** [c.upper()] on an ASCII character. *)
Definition upper_ascii (c : ascii) : ascii :=
  let n := nat_of_ascii c in
  if ((97 <=? n) && (n <=? 122))%nat then ascii_of_nat (n - 32) else c.

(** [s.upper()] *)
Fixpoint upper (s : string) : string :=
  match s with
  | EmptyString => EmptyString
  | String c s' => String (upper_ascii c) (upper s')
  end.

(** [str(n)] on an integer. *)
Definition str (n : Z) : string :=
  DecimalString.NilZero.string_of_int (Z.to_int n).

(** [s.startswith(p)] *)
Definition startswith (s p : string) : bool := String.prefix p s.

(** The requests of a journal, the tries left that it logs, and the time
    it paused. *)
Fixpoint requests (steps : list Step) : nat :=
  match steps with
  | [] => 0%nat
  | Requested _ _ _ _ _ :: rest => S (requests rest)
  | _ :: rest => requests rest
  end.

Fixpoint tries_left (steps : list Step) : list Z :=
  match steps with
  | [] => []
  | RetryLogged _ attempts :: rest => attempts :: tries_left rest
  | _ :: rest => tries_left rest
  end.

Fixpoint paused (steps : list Step) : Z :=
  match steps with
  | [] => 0
  | Paused secs :: rest => secs + paused rest
  | _ :: rest => paused rest
  end.

(** The tries left after each of [k] failed connections out of [n + k]:
    [n + k - 1] down to [n]. *)
Fixpoint count_down (n : Z) (k : nat) : list Z :=
  match k with
  | O => []
  | S k' => (n + Z.of_nat k') :: count_down n k'
  end.

Section DoRequest.

(** The server: what the n-th request of the run meets. *)
Variable http : nat -> Reply.

(** The [while attempts > 0] loop of [do_request].  It returns the response
    ([Some] of its status code), or [None] when the loop ends without one.
    An exception other than [ConnectionError] leaves the function as it
    came; in a request that never comes back the function is still running,
    whatever the fuel. *)
Fixpoint do_request_loop (fuel : nat) (verb server : string)
    (auth verify data : PyVal) (ignore_errors : bool) (attempts : Z)
    (net : Net) : Outcome (option Z) * Net :=
  if attempts >? 0 then
    match fuel with
    | O => (OutOfFuel, net)
    | S fuel' =>
        let net1 :=
          mkNet (journal net ++ [Requested (upper verb) server auth verify data])
                (S (sent net)) in
        match http (sent net) with
        | Response status_code =>
            if startswith (str status_code) "4" && negb ignore_errors then
              (Exit 1,
               mkNet (journal net1 ++ [ErrorLogged server status_code])
                     (sent net1))
            else (Ret (Some status_code), net1)
        | ConnectionError =>
            let attempts := attempts - 1 in
            do_request_loop fuel' verb server auth verify data ignore_errors
              attempts
              (mkNet (journal net1 ++ [RetryLogged server attempts; Paused 5])
                     (sent net1))
        | OtherError e => (Raise e, net1)
        | NoReply => (OutOfFuel, net1)
        end
    end
  else (Ret None, net).

Definition do_request (fuel : nat) (verb server : string)
    (auth verify data : PyVal) (ignore_errors : bool) (net : Net)
    : Outcome (option Z) * Net :=
  let attempts := 30 in
  do_request_loop fuel verb server auth verify data ignore_errors attempts net.

End DoRequest.

Section DoRequestFacts.

Variable http : nat -> Reply.
Variables (verb server : string) (auth verify data : PyVal).
Variable ignore_errors : bool.

Local Abbreviation loop fuel attempts net :=
  (do_request_loop http fuel verb server auth verify data ignore_errors
     attempts net).

Lemma requests_app s1 s2 :
  requests (s1 ++ s2) = (requests s1 + requests s2)%nat.
Proof.
  induction s1 as [| st s1 IH]; [reflexivity |].
  destruct st; cbn [app requests]; rewrite IH; reflexivity.
Qed.

Lemma tries_left_app s1 s2 :
  tries_left (s1 ++ s2) = (tries_left s1 ++ tries_left s2)%list.
Proof.
  induction s1 as [| st s1 IH]; [reflexivity |].
  destruct st; cbn [app tries_left]; rewrite IH; reflexivity.
Qed.

Lemma paused_app s1 s2 : paused (s1 ++ s2) = paused s1 + paused s2.
Proof.
  induction s1 as [| st s1 IH]; [reflexivity |].
  destruct st; cbn [app paused]; rewrite IH; lia.
Qed.

Lemma loop_without_attempts fuel attempts net :
  attempts <= 0 -> loop fuel attempts net = (Ret None, net).
Proof.
  intro H.
  assert (Hgt : (attempts >? 0) = false)
    by (destruct (attempts >? 0) eqn:E;
        [apply Z.gtb_lt in E; lia | reflexivity]).
  destruct fuel; cbn [do_request_loop]; rewrite Hgt; reflexivity.
Qed.

(** [k] failed connections in a row use up [k] attempts, with a pause of 5
    after each. *)
Lemma loop_after_failures :
  forall k a fuel net,
    (forall i, (i < k)%nat -> http (sent net + i) = ConnectionError) ->
    (k <= fuel)%nat ->
    exists steps,
      loop fuel (Z.of_nat (k + a)) net =
        loop (fuel - k) (Z.of_nat a)
          (mkNet (journal net ++ steps) (sent net + k)) /\
      requests steps = k /\
      tries_left steps = count_down (Z.of_nat a) k /\
      paused steps = 5 * Z.of_nat k.
Proof.
  induction k as [| k IH]; intros a fuel net Hdown Hfuel.
  - exists []. rewrite app_nil_r, Nat.add_0_r, Nat.sub_0_r.
    destruct net. repeat split.
  - destruct fuel as [| fuel]; [lia |].
    cbn [do_request_loop].
    replace (Z.of_nat (S k + a) >? 0) with true
      by (symmetry; apply Z.gtb_lt; lia).
    pose proof (Hdown 0%nat ltac:(lia)) as H0.
    rewrite Nat.add_0_r in H0. rewrite H0.
    replace (Z.of_nat (S k + a) - 1) with (Z.of_nat (k + a)) by lia.
    match goal with
    | |- context [do_request_loop http fuel _ _ _ _ _ _ _ ?net1] =>
        destruct (IH a fuel net1) as [steps [Hrun [Hr [Ht Hp]]]];
        [ intros i Hi; cbn [sent];
          replace (S (sent net) + i)%nat with (sent net + S i)%nat by lia;
          apply Hdown; lia
        | lia | ]
    end.
    rewrite Hrun. cbn [journal sent Nat.sub].
    eexists. split.
    + rewrite <- !app_assoc.
      replace (S (sent net) + k)%nat with (sent net + S k)%nat by lia.
      reflexivity.
    + rewrite !requests_app, !tries_left_app, !paused_app, Hr, Ht, Hp.
      cbn [requests tries_left paused app count_down Nat.add].
      repeat split; try lia.
      f_equal. lia.
Qed.

(** X20.  When the server cannot be reached 30 times in a row,
    [do_request] gives up without a word to its caller: it returns [None],
    raising nothing and exiting nothing, after 30 requests, each followed
    by a warning that counts the tries left from 29 down to 0 and by a
    pause of 5, 150 in all. *)
Theorem do_request_gives_up_silently fuel net :
  (forall i, (i < 30)%nat -> http (sent net + i) = ConnectionError) ->
  (30 <= fuel)%nat ->
  exists steps,
    do_request http fuel verb server auth verify data ignore_errors net =
      (Ret None, mkNet (journal net ++ steps) (sent net + 30)) /\
    requests steps = 30%nat /\
    tries_left steps = count_down 0 30 /\
    paused steps = 150.
Proof.
  intros Hdown Hfuel. unfold do_request.
  destruct (loop_after_failures 30 0 fuel net Hdown Hfuel)
    as [steps [Hrun [Hr [Ht Hp]]]].
  change (Z.of_nat (30 + 0)) with 30 in Hrun.
  rewrite Hrun, loop_without_attempts by reflexivity.
  exists steps. auto.
Qed.

(** Textually, a status code from 100 to 599 starts with a 4 exactly when
    it lies from 400 to 499. *)
Lemma starts_with_4 code :
  100 <= code <= 599 ->
  startswith (str code) "4" = (400 <=? code) && (code <=? 499).
Proof.
  intro H.
  assert (Hall :
            forallb (fun n =>
                       Bool.eqb (startswith (str (100 + Z.of_nat n)) "4")
                         ((400 <=? 100 + Z.of_nat n) &&
                          (100 + Z.of_nat n <=? 499)))
              (seq 0 500) = true)
    by (vm_compute; reflexivity).
  rewrite forallb_forall in Hall.
  specialize (Hall (Z.to_nat (code - 100))).
  replace (100 + Z.of_nat (Z.to_nat (code - 100))) with code in Hall by lia.
  apply Bool.eqb_prop, Hall, in_seq. lia.
Qed.

(** X21.  The first response the server gives, after fewer than 30 failed
    connections, ends [do_request]: with a client error (a status from 400
    to 499) and [ignore_errors] unset it logs the error and exits with
    status 1; otherwise it returns the response.  Each failed connection
    before it cost a pause of 5. *)
Theorem do_request_ends_at_first_response fuel net k code :
  (forall i, (i < k)%nat -> http (sent net + i) = ConnectionError) ->
  http (sent net + k) = Response code ->
  100 <= code <= 599 ->
  (k < 30)%nat -> (k < fuel)%nat ->
  exists steps,
    do_request http fuel verb server auth verify data ignore_errors net =
      (if (400 <=? code) && (code <=? 499) && negb ignore_errors
       then (Exit 1,
             mkNet (journal net ++ steps ++
                    [Requested (upper verb) server auth verify data;
                     ErrorLogged server code])
                   (sent net + k + 1))
       else (Ret (Some code),
             mkNet (journal net ++ steps ++
                    [Requested (upper verb) server auth verify data])
                   (sent net + k + 1))) /\
    requests steps = k /\
    paused steps = 5 * Z.of_nat k.
Proof.
  intros Hdown Hresp Hcode Hk Hfuel. unfold do_request.
  destruct (loop_after_failures k (30 - k) fuel net Hdown ltac:(lia))
    as [steps [Hrun [Hr [_ Hp]]]].
  replace (k + (30 - k))%nat with 30%nat in Hrun by lia.
  change (Z.of_nat 30) with 30 in Hrun. rewrite Hrun.
  destruct (fuel - k)%nat as [| fuel'] eqn:Hleft; [lia |].
  cbn [do_request_loop].
  replace (Z.of_nat (30 - k) >? 0) with true
    by (symmetry; apply Z.gtb_lt; lia).
  cbn [sent journal]. rewrite Hresp, (starts_with_4 code Hcode).
  exists steps. split; [| auto].
  destruct ((400 <=? code) && (code <=? 499) && negb ignore_errors);
    rewrite <- ?app_assoc;
    replace (S (sent net + k)) with (sent net + k + 1)%nat by lia;
    reflexivity.
Qed.

(** What the last of [n] requests met, by the way the loop ended: a
    response when it returned one or exited over it, an exception that is
    not a [ConnectionError] when it raised, no reply at all when it is
    still running. *)
Definition ended_by (first n : nat) (o : Outcome (option Z)) : Prop :=
  match o with
  | Ret (Some code) =>
      exists k, n = S k /\ http (first + k)%nat = Response code
  | Ret None => True
  | Exit status =>
      status = 1 /\ ignore_errors = false /\
      exists k code,
        n = S k /\ http (first + k)%nat = Response code /\
        startswith (str code) "4" = true
  | Raise e => exists k, n = S k /\ http (first + k)%nat = OtherError e
  | OutOfFuel => exists k, n = S k /\ http (first + k)%nat = NoReply
  end.

Lemma loop_is_bounded :
  forall a fuel net,
    (a <= fuel)%nat ->
    exists steps,
      snd (loop fuel (Z.of_nat a) net) =
        mkNet (journal net ++ steps) (sent net + requests steps) /\
      (requests steps <= a)%nat /\
      paused steps <= 5 * Z.of_nat a /\
      (forall i, (S i < requests steps)%nat ->
                 http (sent net + i) = ConnectionError) /\
      (fst (loop fuel (Z.of_nat a) net) = Ret None ->
       requests steps = a /\ paused steps = 5 * Z.of_nat a /\
       forall i, (i < a)%nat -> http (sent net + i) = ConnectionError) /\
      ended_by (sent net) (requests steps) (fst (loop fuel (Z.of_nat a) net)).
Proof.
  induction a as [| a IH]; intros fuel net Hfuel.
  - rewrite loop_without_attempts by reflexivity.
    exists []. cbn. rewrite app_nil_r, Nat.add_0_r. destruct net.
    repeat split; try lia.
  - destruct fuel as [| fuel]; [lia |].
    cbn [do_request_loop].
    replace (Z.of_nat (S a) >? 0) with true
      by (symmetry; apply Z.gtb_lt; lia).
    destruct (http (sent net)) as [| e | code |] eqn:Hfirst.
    + replace (Z.of_nat (S a) - 1) with (Z.of_nat a) by lia.
      match goal with
      | |- context [do_request_loop http fuel _ _ _ _ _ _ _ ?n1] =>
          destruct (IH fuel n1 ltac:(lia))
            as [steps [Hsnd [Hr [Hp [Hbefore [Hnone Hend]]]]]]
      end.
      rewrite Hsnd. cbn [journal sent] in *.
      exists ([Requested (upper verb) server auth verify data] ++
              [RetryLogged server (Z.of_nat a); Paused 5] ++ steps)%list.
      rewrite !requests_app, !paused_app.
      cbn [requests paused Nat.add].
      split; [rewrite <- !app_assoc; f_equal; lia |].
      split; [lia |]. split; [lia |].
      split.
      { intros i Hi. destruct i as [| i].
        - rewrite Nat.add_0_r. exact Hfirst.
        - replace (sent net + S i)%nat with (S (sent net) + i)%nat by lia.
          apply Hbefore. lia. }
      split.
      * intro Hret. destruct (Hnone Hret) as [Hra [Hpa Hall]].
        split; [lia |]. split; [lia |].
        intros i Hi. destruct i as [| i].
        -- rewrite Nat.add_0_r. exact Hfirst.
        -- replace (sent net + S i)%nat with (S (sent net) + i)%nat by lia.
           apply Hall. lia.
      * destruct (fst (do_request_loop http fuel verb server auth verify data
                         ignore_errors (Z.of_nat a) _))
          as [[c |] | e | c | ]; cbn [ended_by] in *; auto.
        -- destruct Hend as [k [Hk Hlast]]. exists (S k).
           split; [lia |].
           replace (sent net + S k)%nat with (S (sent net) + k)%nat by lia.
           exact Hlast.
        -- destruct Hend as [k [Hk Hlast]]. exists (S k).
           split; [lia |].
           replace (sent net + S k)%nat with (S (sent net) + k)%nat by lia.
           exact Hlast.
        -- destruct Hend as [Hc [Hi [k [code [Hk [Hlast H4]]]]]].
           split; [exact Hc |]. split; [exact Hi |].
           exists (S k), code. split; [lia |].
           replace (sent net + S k)%nat with (S (sent net) + k)%nat by lia.
           auto.
        -- destruct Hend as [k [Hk Hlast]]. exists (S k).
           split; [lia |].
           replace (sent net + S k)%nat with (S (sent net) + k)%nat by lia.
           exact Hlast.
    + exists [Requested (upper verb) server auth verify data].
      cbn [fst snd journal sent requests paused ended_by].
      split; [f_equal; lia |]. split; [lia |]. split; [lia |].
      split; [intros i Hi; lia |]. split; [discriminate |].
      exists 0%nat. rewrite Nat.add_0_r. auto.
    + destruct (startswith (str code) "4" && negb ignore_errors) eqn:Hrefused.
      * exists [Requested (upper verb) server auth verify data;
                ErrorLogged server code].
        cbn [fst snd journal sent requests paused ended_by].
        split; [rewrite <- app_assoc; f_equal; lia |].
        split; [lia |]. split; [lia |].
        split; [intros i Hi; lia |]. split; [discriminate |].
        apply andb_prop in Hrefused. destruct Hrefused as [H4 Hign].
        split; [reflexivity |].
        split; [destruct ignore_errors; [discriminate | reflexivity] |].
        exists 0%nat, code. rewrite Nat.add_0_r. auto.
      * exists [Requested (upper verb) server auth verify data].
        cbn [fst snd journal sent requests paused ended_by].
        split; [f_equal; lia |]. split; [lia |]. split; [lia |].
        split; [intros i Hi; lia |]. split; [discriminate |].
        exists 0%nat. rewrite Nat.add_0_r. auto.
    + exists [Requested (upper verb) server auth verify data].
      cbn [fst snd journal sent requests paused ended_by].
      split; [f_equal; lia |]. split; [lia |]. split; [lia |].
      split; [intros i Hi; lia |]. split; [discriminate |].
      exists 0%nat. rewrite Nat.add_0_r. auto.
Qed.

(** X22.  Whatever the server does, [do_request] makes at most 30 requests
    and pauses at most 150 in all, and every request but the last failed to
    connect.  With 30 iterations of fuel, how it ends is settled by what
    the last request met: it returns the response, or exits with status 1
    over a response whose status starts with a 4 when [ignore_errors] is
    unset; it raises only an exception of [requests.request] that is not a
    [ConnectionError]; it is still running only inside a request that never
    comes back; and it returns [None] only after 30 failed connections. *)
Theorem do_request_is_bounded fuel net :
  (30 <= fuel)%nat ->
  exists steps,
    snd (do_request http fuel verb server auth verify data ignore_errors net)
      = mkNet (journal net ++ steps) (sent net + requests steps) /\
    (requests steps <= 30)%nat /\
    paused steps <= 150 /\
    (forall i, (S i < requests steps)%nat ->
               http (sent net + i) = ConnectionError) /\
    (fst (do_request http fuel verb server auth verify data ignore_errors
            net) = Ret None ->
     requests steps = 30%nat /\ paused steps = 150 /\
     forall i, (i < 30)%nat -> http (sent net + i) = ConnectionError) /\
    ended_by (sent net) (requests steps)
      (fst (do_request http fuel verb server auth verify data ignore_errors
              net)).
Proof.
  intro Hfuel. unfold do_request.
  destruct (loop_is_bounded 30%nat fuel net Hfuel)
    as [steps [Hsnd [Hr [Hp [Hbefore [Hnone Hend]]]]]].
  change (Z.of_nat 30) with 30 in *.
  exists steps. auto 10.
Qed.

End DoRequestFacts.

(** A server that is down, one that refuses the credentials at once, and
    one that comes up at the third request. *)
Definition unreachable : nat -> Reply := fun _ => ConnectionError.

Definition comes_up_with (code : Z) : nat -> Reply :=
  fun n => match n with
           | 0%nat | 1%nat => ConnectionError
           | _ => Response code
           end.

Definition idle : Net := mkNet [] 0.

Lemma do_request_gives_up_silently_witness :
  exists steps,
    do_request unreachable 30 "get" "https://salt.example.local:8000"
      PyNone (PyBool false) PyNone false idle =
      (Ret None, mkNet (journal idle ++ steps) (sent idle + 30)) /\
    requests steps = 30%nat /\
    tries_left steps = count_down 0 30 /\
    paused steps = 150.
Proof.
  apply (do_request_gives_up_silently unreachable "get"
           "https://salt.example.local:8000" PyNone (PyBool false) PyNone
           false 30 idle);
    [reflexivity | apply le_n].
Defined.

Lemma do_request_ends_at_first_response_witness :
  exists steps,
    do_request (comes_up_with 401) 30 "get" "https://salt.example.local:8000"
      PyNone (PyBool false) PyNone false idle =
      (Exit 1,
       mkNet (journal idle ++ steps ++
              [Requested "GET" "https://salt.example.local:8000"
                 PyNone (PyBool false) PyNone;
               ErrorLogged "https://salt.example.local:8000" 401])
             (sent idle + 2 + 1)) /\
    requests steps = 2%nat /\
    paused steps = 5 * Z.of_nat 2.
Proof.
  apply (do_request_ends_at_first_response (comes_up_with 401) "get"
           "https://salt.example.local:8000" PyNone (PyBool false) PyNone
           false 30 idle 2 401).
  - intros i Hi. destruct i as [| [| i]]; [reflexivity | reflexivity | lia].
  - reflexivity.
  - lia.
  - lia.
  - lia.
Defined.

Lemma do_request_is_bounded_witness :
  exists steps,
    snd (do_request (comes_up_with 200) 30 "post"
           "https://salt.example.local:8000" PyNone (PyBool false) PyNone
           false idle)
      = mkNet (journal idle ++ steps) (sent idle + requests steps) /\
    (requests steps <= 30)%nat /\
    paused steps <= 150 /\
    (forall i, (S i < requests steps)%nat ->
               comes_up_with 200 (sent idle + i) = ConnectionError) /\
    (fst (do_request (comes_up_with 200) 30 "post"
            "https://salt.example.local:8000" PyNone (PyBool false) PyNone
            false idle) = Ret None ->
     requests steps = 30%nat /\ paused steps = 150 /\
     forall i, (i < 30)%nat ->
               comes_up_with 200 (sent idle + i) = ConnectionError) /\
    ended_by (comes_up_with 200) false (sent idle) (requests steps)
      (fst (do_request (comes_up_with 200) 30 "post"
              "https://salt.example.local:8000" PyNone (PyBool false) PyNone
              false idle)).
Proof.
  apply (do_request_is_bounded (comes_up_with 200) "post"
           "https://salt.example.local:8000" PyNone (PyBool false) PyNone
           false 30 idle (le_n 30)).
Defined.

(** A server whose second answer is cut off in the middle, and one that
    accepts the connection and then stays silent. *)
Definition breaks_off : nat -> Reply :=
  fun n => match n with
           | 0%nat => ConnectionError
           | _ => OtherError (Exception (Some (PyStr "ChunkedEncodingError")))
           end.

Definition silent : nat -> Reply := fun _ => NoReply.

(** Neither is retried: the exception reaches the caller after the second
    request, and on the silent server the first request is never over. *)
Example do_request_does_not_catch_everything :
  do_request breaks_off 30 "get" "https://salt.example.local:8000"
    PyNone (PyBool false) PyNone false idle =
  (Raise (Exception (Some (PyStr "ChunkedEncodingError"))),
   mkNet [Requested "GET" "https://salt.example.local:8000"
            PyNone (PyBool false) PyNone;
          RetryLogged "https://salt.example.local:8000" 29; Paused 5;
          Requested "GET" "https://salt.example.local:8000"
            PyNone (PyBool false) PyNone] 2)
  /\
  do_request silent 30 "get" "https://salt.example.local:8000"
    PyNone (PyBool false) PyNone false idle =
  (OutOfFuel,
   mkNet [Requested "GET" "https://salt.example.local:8000"
            PyNone (PyBool false) PyNone] 1).
Proof. split; reflexivity. Qed.

End Http.
